(** * CalendarGenerator: the calendar grid and the event store

    A shallow embedding of [CalendarGenerator] (the single React component
    of the repository) and of the host facilities it calls: the ECMAScript
    [Date] object, the date-fns helpers, [String.prototype.trim],
    [JSON.stringify]/[JSON.parse] and [localStorage].

    Modelling conventions.
    - A [Date] is its time value: a number of milliseconds, read in the
      host's local time.  The local calendar is the proleptic Gregorian
      calendar with a constant offset to UTC, so the local fields are a
      function of the local time value (no daylight-saving jumps, no
      [Invalid Date], no [TimeClip] range limit).
    - JavaScript strings are [string]s; a character stands for one code
      unit below 256.
    - The component's [useState] cells are the fields of [State]; a handler
      is a function from [State] to [State]; what the handler reads from
      the host ([new Date()], [crypto.randomUUID()]) is an argument. *)

From Stdlib Require Import ZArith Lia List String Ascii Bool DecimalString DecimalN Sorted.
From stdpp Require Import gmap strings list.
Import ListNotations.

Set Warnings "-register-all".

Local Open Scope Z_scope.

(** ** ECMAScript Date: time values and calendar fields *)

Module JSDate.

Abbreviation Date := Z.

Definition msPerDay : Z := 86400000.

Definition Day (t : Date) : Z := t / msPerDay.
Definition TimeWithinDay (t : Date) : Z := t mod msPerDay.

(** [InLeapYear] and the month table of ECMAScript's [MonthFromTime] /
    [DateFromTime], as a number of days per month (month index 0..11). *)
Definition InLeapYear (y : Z) : bool :=
  ((y mod 4 =? 0) && negb (y mod 100 =? 0)) || (y mod 400 =? 0).

Definition DaysInMonth (y m : Z) : Z :=
  if m =? 1 then (if InLeapYear y then 29 else 28)
  else if (m =? 3) || (m =? 5) || (m =? 8) || (m =? 10) then 30
  else 31.

(** Day number (days since 1970-01-01) of the date [dt] of month [m]
    (index 0..11) of year [y]; linear in [dt], which may lie outside the
    month.  Years are counted from March in 400-year eras. *)
Definition DayFromYMD (y m dt : Z) : Z :=
  let y' := if m <=? 1 then y - 1 else y in
  let era := y' / 400 in
  let yoe := y' - era * 400 in
  let mp := if m <=? 1 then m + 10 else m - 2 in
  let doy := (153 * mp + 2) / 5 + dt - 1 in
  let doe := yoe * 365 + yoe / 4 - yoe / 100 + doy in
  era * 146097 + doe - 719468.

(** Year, month index and day of the month of a day number. *)
Definition YMDFromDay (z : Z) : Z * Z * Z :=
  let z' := z + 719468 in
  let era := z' / 146097 in
  let doe := z' - era * 146097 in
  let yoe := (doe - doe / 1460 + doe / 36524 - doe / 146096) / 365 in
  let doy := doe - (365 * yoe + yoe / 4 - yoe / 100) in
  let mp := (5 * doy + 2) / 153 in
  let dt := doy - (153 * mp + 2) / 5 + 1 in
  let m := if mp <? 10 then mp + 2 else mp - 10 in
  let y := yoe + era * 400 in
  (if m <=? 1 then y + 1 else y, m, dt).

Definition YearFromTime (t : Date) : Z := fst (fst (YMDFromDay (Day t))).
Definition MonthFromTime (t : Date) : Z := snd (fst (YMDFromDay (Day t))).
Definition DateFromTime (t : Date) : Z := snd (YMDFromDay (Day t)).
Definition WeekDay (t : Date) : Z := (Day t + 4) mod 7.

(** [MakeDay] normalises a month outside 0..11 into the year. *)
Definition MakeDay (year month date : Z) : Z :=
  let ym := year + month / 12 in
  let mn := month mod 12 in
  DayFromYMD ym mn date.

Definition MakeTime (hour min sec ms : Z) : Z :=
  hour * 3600000 + min * 60000 + sec * 1000 + ms.

Definition MakeDate (day time : Z) : Date := day * msPerDay + time.

(** The accessors and mutators of [Date.prototype] used by the component
    and by date-fns.  A mutator returns the new time value. *)
Definition getTime (d : Date) : Z := d.
Definition getFullYear (d : Date) : Z := YearFromTime d.
Definition getMonth (d : Date) : Z := MonthFromTime d.
Definition getDate (d : Date) : Z := DateFromTime d.
Definition getDay (d : Date) : Z := WeekDay d.

Definition setDate (d : Date) (dt : Z) : Date :=
  MakeDate (MakeDay (YearFromTime d) (MonthFromTime d) dt) (TimeWithinDay d).

Definition setMonth (d : Date) (m : Z) : Date :=
  MakeDate (MakeDay (YearFromTime d) m (DateFromTime d)) (TimeWithinDay d).

Definition setMonth2 (d : Date) (m dt : Z) : Date :=
  MakeDate (MakeDay (YearFromTime d) m dt) (TimeWithinDay d).

Definition setFullYear (d : Date) (y : Z) : Date :=
  MakeDate (MakeDay y (MonthFromTime d) (DateFromTime d)) (TimeWithinDay d).

Definition setFullYear3 (d : Date) (y m dt : Z) : Date :=
  MakeDate (MakeDay y m dt) (TimeWithinDay d).

Definition setHours4 (d : Date) (h mi s ms : Z) : Date :=
  MakeDate (Day d) (MakeTime h mi s ms).

(** [new Date(year, monthIndex, day)], local midnight. *)
Definition newDate3 (y m dt : Z) : Date := MakeDate (MakeDay y m dt) 0.

(** [new Date(year, monthIndex, day)] as the constructor reads it: a year
    from 0 to 99 stands for 1900 plus that year. *)
Definition newDate (y m dt : Z) : Date :=
  let yr := if (0 <=? y) && (y <=? 99) then 1900 + y else y in
  MakeDate (MakeDay yr m dt) 0.

End JSDate.

Import JSDate.

(** ** date-fns *)

Module DateFns.

Definition startOfDay (date : Date) : Date := setHours4 date 0 0 0 0.

(** [startOfMonth]: [setDate(1)] then [setHours(0, 0, 0, 0)]. *)
Definition startOfMonth (date : Date) : Date :=
  let d1 := setDate date 1 in
  setHours4 d1 0 0 0 0.

(** [endOfMonth]: [setFullYear(year, month + 1, 0)] then
    [setHours(23, 59, 59, 999)]. *)
Definition endOfMonth (date : Date) : Date :=
  let month := getMonth date in
  let d1 := setFullYear3 date (getFullYear date) (month + 1) 0 in
  setHours4 d1 23 59 59 999.

(** [addMonths]: the last day of the desired month is found by asking for
    day 0 of the month after it; the day of the month is kept when it is
    smaller than that, otherwise the date is this last day. *)
Definition addMonths (date : Date) (amount : Z) : Date :=
  if amount =? 0 then date
  else
    let dayOfMonth := getDate date in
    let endOfDesiredMonth := setMonth2 date (getMonth date + amount + 1) 0 in
    let daysInMonth := getDate endOfDesiredMonth in
    if dayOfMonth >=? daysInMonth then endOfDesiredMonth
    else setFullYear3 date (getFullYear endOfDesiredMonth)
                      (getMonth endOfDesiredMonth) dayOfMonth.

Definition subMonths (date : Date) (amount : Z) : Date :=
  addMonths date (- amount).

Definition isSameDay (l r : Date) : bool :=
  getTime (startOfDay l) =? getTime (startOfDay r).

Definition isSameMonth (l r : Date) : bool :=
  (getFullYear l =? getFullYear r) && (getMonth l =? getMonth r).

Definition isWeekend (date : Date) : bool :=
  let day := getDay date in
  (day =? 0) || (day =? 6).

(** The body of the [while] loop of [eachDayOfInterval]:
    [setDate(getDate() + 1)] then [setHours(0, 0, 0, 0)]. *)
Definition nextDay (cur : Date) : Date :=
  setHours4 (setDate cur (getDate cur + 1)) 0 0 0 0.

(** [while (+date <= endTime) { dates.push(copy of date); step }].  The loop
    is run for at most [fuel] iterations; [None] when the bound is reached
    with the condition still true. *)
Fixpoint eachDay_loop (fuel : nat) (cur endTime : Z) : option (list Date) :=
  if cur <=? endTime then
    match fuel with
    | O => None
    | S fuel' =>
        match eachDay_loop fuel' (nextDay cur) endTime with
        | Some dates => Some (cur :: dates)
        | None => None
        end
    end
  else Some [].

(** [eachDayOfInterval({start, end})] with the default step 1.  An interval
    given backwards is walked forwards and the result reversed.  The loop
    pushes one date for each day from the first to the last, so it is
    given their number as fuel. *)
Definition eachDayOfInterval (start end_ : Date) : option (list Date) :=
  let reversed := end_ <? start in
  let endTime := if reversed then start else end_ in
  let date := setHours4 (if reversed then end_ else start) 0 0 0 0 in
  let fuel := Z.to_nat ((endTime - date) / msPerDay + 1) in
  match eachDay_loop fuel date endTime with
  | Some dates => Some (if reversed then rev dates else dates)
  | None => None
  end.

(** [addLeadingZeros]: sign, then the absolute value padded with zeros. *)
Fixpoint repeat_char (c : ascii) (n : nat) : string :=
  match n with
  | O => EmptyString
  | S n' => String c (repeat_char c n')
  end.

Definition padStart (s : string) (targetLength : nat) (c : ascii) : string :=
  (repeat_char c (targetLength - String.length s) ++ s)%string.

Definition toString (n : Z) : string :=
  let sign := if n <? 0 then "-"%string else EmptyString in
  (sign ++ NilZero.string_of_uint (N.to_uint (Z.abs_N n)))%string.

Definition addLeadingZeros (number : Z) (targetLength : nat) : string :=
  let sign := if number <? 0 then "-"%string else EmptyString in
  (sign ++ padStart (toString (Z.abs number)) targetLength "0")%string.

(** [format(date, "yyyy-MM-dd")]. *)
Definition format_yyyy_MM_dd (date : Date) : string :=
  let signedYear := getFullYear date in
  let year := if 0 <? signedYear then signedYear else 1 - signedYear in
  (addLeadingZeros year 4 ++ "-" ++ addLeadingZeros (getMonth date + 1) 2
     ++ "-" ++ addLeadingZeros (getDate date) 2)%string.

(** [format(date, "MMMM")], in the default (en-US) locale. *)
Definition monthNames : list string :=
  ["January"; "February"; "March"; "April"; "May"; "June"; "July";
   "August"; "September"; "October"; "November"; "December"]%string.

Definition format_MMMM (date : Date) : string :=
  nth (Z.to_nat (getMonth date)) monthNames EmptyString.

(** [format(date, "d")]: the day of the month, not padded. *)
Definition format_d (date : Date) : string :=
  addLeadingZeros (getDate date) 1.

End DateFns.

Import DateFns.

(** ** JavaScript strings: [trim] and [Number.parseInt] *)

Module JSString.

Definition code (c : ascii) : N := N_of_ascii c.

(** White space and line terminators removed by [String.prototype.trim]
    (TAB, LF, VT, FF, CR, SP, NBSP among the code units below 256). *)
Definition isWhiteSpace (c : ascii) : bool :=
  let n := code c in
  ((9 <=? n) && (n <=? 13) || (n =? 32) || (n =? 160))%N.

Fixpoint trimStart (s : string) : string :=
  match s with
  | EmptyString => EmptyString
  | String c rest => if isWhiteSpace c then trimStart rest else s
  end.

Fixpoint trimEnd (s : string) : string :=
  match s with
  | EmptyString => EmptyString
  | String c rest =>
      match trimEnd rest with
      | EmptyString => if isWhiteSpace c then EmptyString else String c EmptyString
      | rest' => String c rest'
      end
  end.

Definition trim (s : string) : string := trimEnd (trimStart s).

(** Truthiness of a string: the empty string is the only falsy one. *)
Definition truthy (s : string) : bool :=
  match s with
  | EmptyString => false
  | String _ _ => true
  end.

Definition hexValue (c : ascii) : option N :=
  let n := code c in
  if ((48 <=? n) && (n <=? 57))%N then Some (n - 48)%N
  else if ((97 <=? n) && (n <=? 102))%N then Some (n - 87)%N
  else if ((65 <=? n) && (n <=? 70))%N then Some (n - 55)%N
  else None.

(** The value of [c] as a digit of the radix, if it is one. *)
Definition digitValue (radix : Z) (c : ascii) : option Z :=
  match hexValue c with
  | Some v => if Z.of_N v <? radix then Some (Z.of_N v) else None
  | None => None
  end.

Fixpoint parseDigits (radix : Z) (s : string) (acc : Z) : Z :=
  match s with
  | EmptyString => acc
  | String c rest =>
      match digitValue radix c with
      | Some v => parseDigits radix rest (radix * acc + v)
      | None => acc
      end
  end.

(** [Number.parseInt(s)] with no radix given: leading white space, an
    optional sign, radix 16 after [0x] or [0X] and 10 otherwise, then the
    longest run of digits; [None] is [NaN], when there is no digit. *)
Definition parseInt (s : string) : option Z :=
  let s1 := trimStart s in
  let '(neg, s2) :=
    match s1 with
    | String "-" rest => (true, rest)
    | String "+" rest => (false, rest)
    | _ => (false, s1)
    end in
  let '(radix, s3) :=
    match s2 with
    | String "0" (String "x" rest) => (16, rest)
    | String "0" (String "X" rest) => (16, rest)
    | _ => (10, s2)
    end in
  match s3 with
  | String c _ =>
      match digitValue radix c with
      | Some _ =>
          let n := parseDigits radix s3 0 in Some (if neg then - n else n)
      | None => None
      end
  | EmptyString => None
  end.

End JSString.

Import JSString.

(** ** JSON: values, [JSON.stringify] and [JSON.parse] *)

Module JSON.

Inductive json : Type :=
| JNull
| JBool (b : bool)
| JString (s : string)
| JArray (elements : list json)
| JObject (members : list (string * json)).

Definition dquote : ascii := ascii_of_N 34.
Definition backslash : ascii := ascii_of_N 92.

Definition hexDigit (n : N) : ascii :=
  ascii_of_N (if (n <? 10)%N then 48 + n else 87 + n).

(** [QuoteJSONString]: the two-character escapes, [\u00xx] for the other
    control characters, every other code unit as it is. *)
Definition escapeChar (c : ascii) : string :=
  let n := code c in
  if (n =? 8)%N then String backslash "b"
  else if (n =? 9)%N then String backslash "t"
  else if (n =? 10)%N then String backslash "n"
  else if (n =? 12)%N then String backslash "f"
  else if (n =? 13)%N then String backslash "r"
  else if (n =? 34)%N then String backslash (String dquote EmptyString)
  else if (n =? 92)%N then String backslash (String backslash EmptyString)
  else if (n <? 32)%N then
    String backslash (String "u" (String "0" (String "0"
      (String (hexDigit (n / 16)) (String (hexDigit (n mod 16)) EmptyString)))))
  else String c EmptyString.

Fixpoint escape (s : string) : string :=
  match s with
  | EmptyString => EmptyString
  | String c rest => (escapeChar c ++ escape rest)%string
  end.

Definition quote (s : string) : string :=
  String dquote (escape s ++ String dquote EmptyString)%string.

(** [JSON.stringify] without indentation: no white space between tokens. *)
Fixpoint stringify (j : json) : string :=
  match j with
  | JNull => "null"
  | JBool true => "true"
  | JBool false => "false"
  | JString s => quote s
  | JArray elements =>
      let fix elems (l : list json) : string :=
        match l with
        | [] => EmptyString
        | [x] => stringify x
        | x :: rest => (stringify x ++ "," ++ elems rest)%string
        end in
      ("[" ++ elems elements ++ "]")%string
  | JObject members =>
      let fix membs (l : list (string * json)) : string :=
        match l with
        | [] => EmptyString
        | [(k, v)] => (quote k ++ ":" ++ stringify v)%string
        | (k, v) :: rest => (quote k ++ ":" ++ stringify v ++ "," ++ membs rest)%string
        end in
      ("{" ++ membs members ++ "}")%string
  end.

(** *** The parser *)

Definition isJSONWhiteSpace (c : ascii) : bool :=
  let n := code c in
  ((n =? 32) || (n =? 9) || (n =? 10) || (n =? 13))%N.

Fixpoint skipWhiteSpace (s : string) : string :=
  match s with
  | EmptyString => EmptyString
  | String c rest => if isJSONWhiteSpace c then skipWhiteSpace rest else s
  end.

(** The code unit of [\uXXXX]; [None] for a malformed escape and for a code
    unit of 256 or more, which a [string] cannot hold. *)
Definition unicodeEscape (h1 h2 h3 h4 : ascii) : option ascii :=
  match hexValue h1, hexValue h2, hexValue h3, hexValue h4 with
  | Some a, Some b, Some c, Some d =>
      if ((a =? 0) && (b =? 0))%N then Some (ascii_of_N (c * 16 + d)) else None
  | _, _, _, _ => None
  end.

Definition simpleEscape (e : ascii) : option ascii :=
  let n := code e in
  if (n =? 34)%N then Some dquote
  else if (n =? 92)%N then Some backslash
  else if (n =? 47)%N then Some "/"%char
  else if (n =? 98)%N then Some (ascii_of_N 8)
  else if (n =? 102)%N then Some (ascii_of_N 12)
  else if (n =? 110)%N then Some (ascii_of_N 10)
  else if (n =? 114)%N then Some (ascii_of_N 13)
  else if (n =? 116)%N then Some (ascii_of_N 9)
  else None.

Definition consResult (c : ascii) (r : option (string * string)) :
  option (string * string) :=
  match r with
  | Some (s, rest) => Some (String c s, rest)
  | None => None
  end.

(** The characters of a string literal after its opening quote, up to and
    including the closing quote: the decoded string and the rest of the
    input.  A raw control character is a syntax error. *)
Fixpoint parseChars (s : string) : option (string * string) :=
  match s with
  | EmptyString => None
  | String c r =>
      if (code c =? 34)%N then Some (EmptyString, r)
      else if (code c =? 92)%N then
        match r with
        | String e r2 =>
            match simpleEscape e with
            | Some ch => consResult ch (parseChars r2)
            | None =>
                if (code e =? 117)%N then
                  match r2 with
                  | String h1 (String h2 (String h3 (String h4 r3))) =>
                      match unicodeEscape h1 h2 h3 h4 with
                      | Some ch => consResult ch (parseChars r3)
                      | None => None
                      end
                  | _ => None
                  end
                else None
            end
        | EmptyString => None
        end
      else if (code c <? 32)%N then None
      else consResult c (parseChars r)
  end.

Fixpoint expect (lit s : string) : option string :=
  match lit with
  | EmptyString => Some s
  | String c lit' =>
      match s with
      | String c' s' => if Ascii.eqb c c' then expect lit' s' else None
      | EmptyString => None
      end
  end.

(** Recursive descent over values, array elements and object members; each
    call spends one unit of [fuel].  Numbers are not part of the model (an
    [Event] has none): a text with a number is rejected like a malformed
    one. *)
Fixpoint parseValue (fuel : nat) (s : string) : option (json * string) :=
  match fuel with
  | O => None
  | S n =>
      match skipWhiteSpace s with
      | EmptyString => None
      | String c r =>
          if (code c =? 110)%N then
            match expect "ull" r with Some r' => Some (JNull, r') | None => None end
          else if (code c =? 116)%N then
            match expect "rue" r with Some r' => Some (JBool true, r') | None => None end
          else if (code c =? 102)%N then
            match expect "alse" r with Some r' => Some (JBool false, r') | None => None end
          else if (code c =? 34)%N then
            match parseChars r with
            | Some (str, r') => Some (JString str, r')
            | None => None
            end
          else if (code c =? 91)%N then
            match skipWhiteSpace r with
            | String "]" r' => Some (JArray [], r')
            | _ =>
                match parseElements n r with
                | Some (vs, r') => Some (JArray vs, r')
                | None => None
                end
            end
          else if (code c =? 123)%N then
            match skipWhiteSpace r with
            | String "}" r' => Some (JObject [], r')
            | _ =>
                match parseMembers n r with
                | Some (kvs, r') => Some (JObject kvs, r')
                | None => None
                end
            end
          else None
      end
  end
with parseElements (fuel : nat) (s : string) : option (list json * string) :=
  match fuel with
  | O => None
  | S n =>
      match parseValue n s with
      | Some (v, r) =>
          match skipWhiteSpace r with
          | String "," r' =>
              match parseElements n r' with
              | Some (vs, r'') => Some (v :: vs, r'')
              | None => None
              end
          | String "]" r' => Some ([v], r')
          | _ => None
          end
      | None => None
      end
  end
with parseMembers (fuel : nat) (s : string) : option (list (string * json) * string) :=
  match fuel with
  | O => None
  | S n =>
      match skipWhiteSpace s with
      | EmptyString => None
      | String c r =>
          if (code c =? 34)%N then
            match parseChars r with
            | Some (k, r1) =>
                match skipWhiteSpace r1 with
                | String ":" r2 =>
                    match parseValue n r2 with
                    | Some (v, r3) =>
                        match skipWhiteSpace r3 with
                        | String "," r4 =>
                            match parseMembers n r4 with
                            | Some (kvs, r5) => Some ((k, v) :: kvs, r5)
                            | None => None
                            end
                        | String "}" r4 => Some ([(k, v)], r4)
                        | _ => None
                        end
                    | None => None
                    end
                | _ => None
                end
            | None => None
            end
          else None
      end
  end.

(** [JSON.parse]: one value, then nothing but white space.  [None] is the
    thrown [SyntaxError].  The descent is given twice the length of the
    text, and two, as fuel. *)
Definition parse (s : string) : option json :=
  match parseValue (2 * String.length s + 2) s with
  | Some (v, rest) =>
      match skipWhiteSpace rest with
      | EmptyString => Some v
      | String _ _ => None
      end
  | None => None
  end.

End JSON.

Import JSON.

(** ** The component *)

Module CalendarGenerator.

(** [type Event] *)
Record Event : Type := mkEvent {
  id : string;
  date : string;
  title : string;
  description : string;
  color : string
}.

(** [Omit<Event, "id">], the content of the add-event form. *)
Record EventDraft : Type := mkDraft {
  draft_date : string;
  draft_title : string;
  draft_description : string;
  draft_color : string
}.

(** A notification shown by [toast]; [variant] is absent or
    [destructive]. *)
Record Toast : Type := mkToast {
  toast_title : string;
  toast_description : string;
  toast_variant : option string
}.

(** The [useState] cells of the component, the notifications shown so far
    and the browser's [localStorage]. *)
Record State : Type := mkState {
  currentDate : Date;
  events : list Event;
  selectedDate : option Date;
  newEvent : EventDraft;
  eventDialogOpen : bool;
  toasts : list Toast;
  localStorage : gmap string string
}.

Definition setCurrentDate (d : Date) (st : State) : State :=
  mkState d (events st) (selectedDate st) (newEvent st) (eventDialogOpen st)
          (toasts st) (localStorage st).

Definition setEvents (evs : list Event) (st : State) : State :=
  mkState (currentDate st) evs (selectedDate st) (newEvent st)
          (eventDialogOpen st) (toasts st) (localStorage st).

Definition setSelectedDate (d : option Date) (st : State) : State :=
  mkState (currentDate st) (events st) d (newEvent st) (eventDialogOpen st)
          (toasts st) (localStorage st).

Definition setNewEvent (dr : EventDraft) (st : State) : State :=
  mkState (currentDate st) (events st) (selectedDate st) dr
          (eventDialogOpen st) (toasts st) (localStorage st).

Definition setEventDialogOpen (b : bool) (st : State) : State :=
  mkState (currentDate st) (events st) (selectedDate st) (newEvent st) b
          (toasts st) (localStorage st).

Definition toast (t : Toast) (st : State) : State :=
  mkState (currentDate st) (events st) (selectedDate st) (newEvent st)
          (eventDialogOpen st) (toasts st ++ [t]) (localStorage st).

Definition setLocalStorage (ls : gmap string string) (st : State) : State :=
  mkState (currentDate st) (events st) (selectedDate st) (newEvent st)
          (eventDialogOpen st) (toasts st) ls.

Definition blankDraft : EventDraft :=
  mkDraft EmptyString EmptyString EmptyString "#4f46e5".

(** The state of the first render: [new Date()] is [now]. *)
Definition initialState (now : Date) (ls : gmap string string) : State :=
  mkState now [] None blankDraft false [] ls.

(** [years]: the current year plus and minus ten. *)
Definition years (now : Date) : list Z :=
  let currentYear := getFullYear now in
  map (fun i => currentYear - 10 + Z.of_nat i) (seq 0 21).

(** [months]: the names of the twelve months of 2000. *)
Definition months : list string :=
  map (fun i => format_MMMM (newDate3 2000 (Z.of_nat i) 1)) (seq 0 12).

(** *** Persistence *)

Definition storageKey : string := "calendar-events".

(** The object [JSON.stringify] sees for an event: the keys of the draft in
    their order ([date], [title], [description], [color]), then [id]. *)
Definition eventToJSON (e : Event) : json :=
  JObject [("date"%string, JString (date e));
           ("title"%string, JString (title e));
           ("description"%string, JString (description e));
           ("color"%string, JString (color e));
           ("id"%string, JString (id e))].

(** The value of a key of a parsed object; of two members with the same
    key the later one wins. *)
Fixpoint getMember (k : string) (members : list (string * json)) : option json :=
  match members with
  | [] => None
  | (k', v) :: rest =>
      match getMember k rest with
      | Some v' => Some v'
      | None => if String.eqb k k' then Some v else None
      end
  end.

Definition getStringMember (k : string) (members : list (string * json)) :
  option string :=
  match getMember k members with
  | Some (JString s) => Some s
  | _ => None
  end.

(** Reading a parsed value at type [Event]: an object with the five string
    fields. *)
Definition eventOfJSON (j : json) : option Event :=
  match j with
  | JObject members =>
      match getStringMember "id" members, getStringMember "date" members,
            getStringMember "title" members,
            getStringMember "description" members,
            getStringMember "color" members with
      | Some i, Some d, Some t, Some de, Some c => Some (mkEvent i d t de c)
      | _, _, _, _, _ => None
      end
  | _ => None
  end.

Fixpoint eventsOfJSONList (l : list json) : option (list Event) :=
  match l with
  | [] => Some []
  | j :: rest =>
      match eventOfJSON j, eventsOfJSONList rest with
      | Some e, Some es => Some (e :: es)
      | _, _ => None
      end
  end.

(** [JSON.stringify(events)] and [JSON.parse(savedEvents)] at type
    [Event[]].  [None] stands for every stored text that does not denote an
    array of events: the parse throws, or the value has another shape. *)
Definition stringifyEvents (evs : list Event) : string :=
  stringify (JArray (map eventToJSON evs)).

Definition parseEvents (s : string) : option (list Event) :=
  match parse s with
  | Some (JArray l) => eventsOfJSONList l
  | _ => None
  end.

(** The first effect: [getItem]; when the text is truthy, [setEvents] of
    what it parses to.  [None] when the parse fails. *)
Definition loadEffect (st : State) : option State :=
  match localStorage st !! storageKey with
  | Some savedEvents =>
      if truthy savedEvents then
        match parseEvents savedEvents with
        | Some evs => Some (setEvents evs st)
        | None => None
        end
      else Some st
  | None => Some st
  end.

(** The second effect, run after every render in which [events] changed:
    [setItem] of the whole list. *)
Definition saveEffect (st : State) : State :=
  setLocalStorage (<[storageKey := stringifyEvents (events st)]> (localStorage st)) st.

(** Mounting: both effects of the first render run with [events = []], first
    the load (which reads the stored text and schedules [setEvents]), then
    the save; the second render has the loaded events and runs the save
    effect again. *)
Definition mount (now : Date) (ls : gmap string string) : option State :=
  let st0 := initialState now ls in
  match loadEffect st0 with
  | Some st1 => Some (saveEffect (setEvents (events st1) (saveEffect st0)))
  | None => None
  end.

(** *** Navigation *)

Definition prevMonth (st : State) : State :=
  setCurrentDate (subMonths (currentDate st) 1) st.

Definition nextMonth (st : State) : State :=
  setCurrentDate (addMonths (currentDate st) 1) st.

Definition goToToday (now : Date) (st : State) : State :=
  setCurrentDate now st.

(** [handleYearChange]: [None] when [parseInt] gives [NaN], which makes
    the date an [Invalid Date]. *)
Definition handleYearChange (year : string) (st : State) : option State :=
  let newDate := currentDate st in
  match parseInt year with
  | Some y => Some (setCurrentDate (setFullYear newDate y) st)
  | None => None
  end.

(** [Array.prototype.findIndex]: -1 when nothing matches. *)
Fixpoint findIndex {A : Type} (p : A -> bool) (l : list A) : Z :=
  match l with
  | [] => -1
  | x :: rest =>
      if p x then 0
      else let i := findIndex p rest in if i <? 0 then -1 else i + 1
  end.

Definition handleMonthChange (month : string) (st : State) : State :=
  let monthIndex := findIndex (fun m => String.eqb m month) months in
  let newDate := currentDate st in
  setCurrentDate (setMonth newDate monthIndex) st.

(** *** The grid *)

Definition getDaysInMonth (st : State) : option (list Date) :=
  let start := startOfMonth (currentDate st) in
  let end_ := endOfMonth (currentDate st) in
  eachDayOfInterval start end_.

Definition getFirstDayOfMonth (st : State) : Z :=
  getDay (startOfMonth (currentDate st)).

Definition getDaysInMonthForYear (d : Date) : option (list Date) :=
  let start := startOfMonth d in
  let end_ := endOfMonth d in
  eachDayOfInterval start end_.

Definition getFirstDayOfMonthForYearView (d : Date) : Z :=
  getDay (startOfMonth d).

(** *** Events *)

Definition errorToast : Toast :=
  mkToast "Error" "Event title is required" (Some "destructive"%string).

Definition addedToast : Toast :=
  mkToast "Event added"
          "Your event has been successfully added to the calendar" None.

(** [handleAddEvent].  [now] is [new Date()] and [uuid] is
    [crypto.randomUUID()], both read only on the successful path.  The
    [setEvents] of that path changes [events], so the save effect runs
    before the next input is handled. *)
Definition handleAddEvent (now : Date) (uuid : string) (st : State) : State :=
  if negb (truthy (trim (draft_title (newEvent st)))) then
    toast errorToast st
  else
    let eventToAdd :=
      {| id := uuid;
         date := match selectedDate st with
                 | Some d => format_yyyy_MM_dd d
                 | None => format_yyyy_MM_dd now
                 end;
         title := draft_title (newEvent st);
         description := draft_description (newEvent st);
         color := draft_color (newEvent st) |} in
    let st1 := setEvents (events st ++ [eventToAdd]) st in
    let st2 := setNewEvent blankDraft st1 in
    let st3 := setEventDialogOpen false st2 in
    let st4 := toast addedToast st3 in
    saveEffect st4.

Definition getEventsForDate (st : State) (d : Date) : list Event :=
  let dateString := format_yyyy_MM_dd d in
  List.filter (fun event => String.eqb (date event) dateString) (events st).

(** The [onClick] of a day cell. *)
Definition dayClick (day : Date) (st : State) : State :=
  let st1 := setSelectedDate (Some day) st in
  let prev := newEvent st1 in
  let st2 := setNewEvent (mkDraft (format_yyyy_MM_dd day) (draft_title prev)
                                  (draft_description prev) (draft_color prev)) st1 in
  setEventDialogOpen true st2.

(** The [onChange] handlers of the four fields of the form. *)
Definition changeDate (v : string) (st : State) : State :=
  let n := newEvent st in
  setNewEvent (mkDraft v (draft_title n) (draft_description n) (draft_color n)) st.

Definition changeTitle (v : string) (st : State) : State :=
  let n := newEvent st in
  setNewEvent (mkDraft (draft_date n) v (draft_description n) (draft_color n)) st.

Definition changeDescription (v : string) (st : State) : State :=
  let n := newEvent st in
  setNewEvent (mkDraft (draft_date n) (draft_title n) v (draft_color n)) st.

Definition changeColor (v : string) (st : State) : State :=
  let n := newEvent st in
  setNewEvent (mkDraft (draft_date n) (draft_title n) (draft_description n) v) st.

Definition exportAsPDF (st : State) : State :=
  toast (mkToast "Export initiated"
                 "Your calendar is being prepared for download as PDF" None) st.

Definition exportAsImage (st : State) : State :=
  toast (mkToast "Export initiated"
                 "Your calendar is being prepared for download as image" None) st.

(** What the user can do, with what the host supplies for it. *)
Inductive Action : Type :=
| PrevMonth
| NextMonth
| GoToToday (now : Date)
| YearChange (year : string)
| MonthChange (month : string)
| DayClick (day : Date)
| OpenChange (open : bool)
| ChangeDate (v : string)
| ChangeTitle (v : string)
| ChangeDescription (v : string)
| ChangeColor (v : string)
| AddEvent (now : Date) (uuid : string)
| ExportAsPDF
| ExportAsImage.

(** One user action; [None] when the year selector makes the date
    invalid. *)
Definition step (st : State) (a : Action) : option State :=
  match a with
  | PrevMonth => Some (prevMonth st)
  | NextMonth => Some (nextMonth st)
  | GoToToday now => Some (goToToday now st)
  | YearChange year => handleYearChange year st
  | MonthChange month => Some (handleMonthChange month st)
  | DayClick day => Some (dayClick day st)
  | OpenChange open => Some (setEventDialogOpen open st)
  | ChangeDate v => Some (changeDate v st)
  | ChangeTitle v => Some (changeTitle v st)
  | ChangeDescription v => Some (changeDescription v st)
  | ChangeColor v => Some (changeColor v st)
  | AddEvent now uuid => Some (handleAddEvent now uuid st)
  | ExportAsPDF => Some (exportAsPDF st)
  | ExportAsImage => Some (exportAsImage st)
  end.

(** *** Rendering

    What the two views show, cell by cell.  The cells are children of a
    grid of seven columns: the cell at position [p] stands in column
    [p mod 7].  The month view calls [new Date()] in the callback of
    [days.map], once for each day cell: [clock i] is what the call returns
    for the day of index [i].  The year view calls it once, before the
    panels are built: [now]. *)

Definition daysOfWeek : list string :=
  ["Sun"; "Mon"; "Tue"; "Wed"; "Thu"; "Fri"; "Sat"]%string.

(** A day cell of the month view: the day (its key), the three flags
    computed for it, the number shown and the events listed. *)
Record DayCell : Type := mkDayCell {
  cell_day : Date;
  cell_isToday : bool;
  cell_isCurrentMonth : bool;
  cell_isWeekendDay : bool;
  cell_label : string;
  cell_dayEvents : list Event
}.

Inductive GridCell : Type :=
| HeaderCell (name : string)
| EmptyCell (index : nat)
| DayCellOf (c : DayCell).

(** [renderCalendarGrid]: the seven names, one empty cell for each weekday
    before the first day, then the day cells.  [imap] is [map] with the
    index of the element, here the index of the clock reading. *)
Definition renderCalendarGrid (clock : nat -> Date) (st : State) :
  option (list GridCell) :=
  match getDaysInMonth st with
  | Some days =>
      let firstDayOfMonth := getFirstDayOfMonth st in
      let emptyCells := map EmptyCell (seq 0 (Z.to_nat firstDayOfMonth)) in
      let dayCells :=
        imap (fun i day =>
               DayCellOf
                 {| cell_day := day;
                    cell_isToday := isSameDay day (clock i);
                    cell_isCurrentMonth := isSameMonth day (currentDate st);
                    cell_isWeekendDay := isWeekend day;
                    cell_label := format_d day;
                    cell_dayEvents := getEventsForDate st day |}) days in
      Some (map HeaderCell daysOfWeek ++ emptyCells ++ dayCells)
  | None => None
  end.

(** A day cell of the year view; [mini_title] is the tool tip, absent when
    the day has no event. *)
Record MiniCell : Type := mkMiniCell {
  mini_day : Date;
  mini_isToday : bool;
  mini_isWeekendDay : bool;
  mini_hasEvents : bool;
  mini_title : option string;
  mini_label : string
}.

(** The three conditional classes of a day cell of the year view: the
    colour of today; the grey of a week-end day, [isWeekendDay && !isToday];
    the border of a day with events, [hasEvents && !isToday]. *)
Definition mini_classToday (c : MiniCell) : bool := mini_isToday c.

Definition mini_classMuted (c : MiniCell) : bool :=
  mini_isWeekendDay c && negb (mini_isToday c).

Definition mini_classBorder (c : MiniCell) : bool :=
  mini_hasEvents c && negb (mini_isToday c).

Inductive MiniGridCell : Type :=
| MiniHeader (name : string)
| MiniEmpty (index : nat)
| MiniDay (c : MiniCell).

Record MonthPanel : Type := mkMonthPanel {
  panel_monthName : string;
  panel_cells : list MiniGridCell
}.

Definition miniDaysOfWeek : list string :=
  ["S"; "M"; "T"; "W"; "T"; "F"; "S"]%string.

(** The tool tip of a day with [n] events. *)
Definition eventsTitle (n : nat) : string :=
  (toString (Z.of_nat n) ++ " event" ++ (if (1 <? n)%nat then "s" else EmptyString))%string.

(** One month of [renderYearCalendar]. *)
Definition renderMonthPanel (today : Date) (st : State) (year : Z)
    (monthIndex : nat) : option MonthPanel :=
  let monthDate := newDate year (Z.of_nat monthIndex) 1 in
  let monthName := format_MMMM monthDate in
  match getDaysInMonthForYear monthDate with
  | Some daysInMonth =>
      let firstDayOfMonth := getDay (startOfMonth monthDate) in
      let emptyCells := map MiniEmpty (seq 0 (Z.to_nat firstDayOfMonth)) in
      let dayCells :=
        map (fun day =>
               let dayEvents := getEventsForDate st day in
               let hasEvents := (0 <? length dayEvents)%nat in
               MiniDay
                 {| mini_day := day;
                    mini_isToday := isSameDay day today;
                    mini_isWeekendDay := isWeekend day;
                    mini_hasEvents := hasEvents;
                    mini_title :=
                      if hasEvents then Some (eventsTitle (length dayEvents))
                      else None;
                    mini_label := format_d day |}) daysInMonth in
      Some (mkMonthPanel monthName
              (map MiniHeader miniDaysOfWeek ++ emptyCells ++ dayCells))
  | None => None
  end.

Fixpoint renderMonthPanels (today : Date) (st : State) (year : Z)
    (monthIndices : list nat) : option (list MonthPanel) :=
  match monthIndices with
  | [] => Some []
  | monthIndex :: rest =>
      match renderMonthPanel today st year monthIndex,
            renderMonthPanels today st year rest with
      | Some panel, Some panels => Some (panel :: panels)
      | _, _ => None
      end
  end.

(** [renderYearCalendar]: the twelve months of the year of the reference
    date. *)
Definition renderYearCalendar (now : Date) (st : State) : option (list MonthPanel) :=
  let year := getFullYear (currentDate st) in
  let today := now in
  renderMonthPanels today st year (seq 0 12).

End CalendarGenerator.

Import CalendarGenerator.

(** ** Definitions used to state and prove the properties *)

(** Day of the era (from 1 March of a year divisible by 400) on which the
    March-based year [yoe] of the era starts. *)
Definition yearStart (yoe : Z) : Z := yoe * 365 + yoe / 4 - yoe / 100.

(** The March-based year of the era that holds day [doe] of the era. *)
Definition yearOfDoe (doe : Z) : Z :=
  (doe - doe / 1460 + doe / 36524 - doe / 146096) / 365.

(** Day of the March-based year on which its month [mp] starts (0 for
    March, 11 for February). *)
Definition monthStart (mp : Z) : Z := (153 * mp + 2) / 5.

(** The civil month (0 for January) of a March-based month and back. *)
Definition civilMonth (mp : Z) : Z := if mp <? 10 then mp + 2 else mp - 10.
Definition marchMonth (m : Z) : Z := if m <=? 1 then m + 10 else m - 2.

(** The first day of the month of [d], as a day number. *)
Definition firstDayNumber (d : Date) : Z := Day d - getDate d + 1.

(** The [n] midnights from day [K] on. *)
Definition midnights (K : Z) (n : nat) : list Date :=
  map (fun i => MakeDate (K + Z.of_nat i) 0) (seq 0 n).

(** Every calendar day of month [m] of year [y], first to last. *)
Definition monthDates (y m : Z) : list Date :=
  map (fun i => newDate3 y m (Z.of_nat i + 1)) (seq 0 (Z.to_nat (DaysInMonth y m))).

(** The text of the elements of an array, as [stringify] writes them. *)
Fixpoint elementsText (l : list json) : string :=
  match l with
  | [] => EmptyString
  | [x] => stringify x
  | x :: rest => (stringify x ++ String "," (elementsText rest))%string
  end.

(** Every character of [s] is white space. *)
Fixpoint allWhiteSpace (s : string) : bool :=
  match s with
  | EmptyString => true
  | String c rest => isWhiteSpace c && allWhiteSpace rest
  end.



#[local] Instance Event_eq_dec : EqDecision Event.
Proof. solve_decision. Defined.

(** A sequence of user actions, one after the other; [None] as soon as one
    of them makes the date invalid. *)
Fixpoint run (st : State) (actions : list Action) : option State :=
  match actions with
  | [] => Some st
  | a :: rest =>
      match step st a with
      | Some st' => run st' rest
      | None => None
      end
  end.

(** The stored text is the text of the events of the state. *)
Definition persisted (st : State) : Prop :=
  localStorage st !! storageKey = Some (stringifyEvents (events st)).

(** The value of a decimal numeral read from the left, starting from
    [acc]. *)
Fixpoint decimalValue (d : Decimal.uint) (acc : Z) : Z :=
  match d with
  | Decimal.Nil => acc
  | Decimal.D0 l => decimalValue l (10 * acc)
  | Decimal.D1 l => decimalValue l (10 * acc + 1)
  | Decimal.D2 l => decimalValue l (10 * acc + 2)
  | Decimal.D3 l => decimalValue l (10 * acc + 3)
  | Decimal.D4 l => decimalValue l (10 * acc + 4)
  | Decimal.D5 l => decimalValue l (10 * acc + 5)
  | Decimal.D6 l => decimalValue l (10 * acc + 6)
  | Decimal.D7 l => decimalValue l (10 * acc + 7)
  | Decimal.D8 l => decimalValue l (10 * acc + 8)
  | Decimal.D9 l => decimalValue l (10 * acc + 9)
  end.

(** The year the constructor [new Date(year, ...)] builds a date in. *)
Definition constructedYear (y : Z) : Z :=
  if (0 <=? y) && (y <=? 99) then 1900 + y else y.

(** The days shown by a month panel of the year view, and the number of
    empty cells before them. *)
Definition panelDays (p : MonthPanel) : list Date :=
  flat_map (fun c => match c with MiniDay m => [mini_day m] | _ => [] end)
           (panel_cells p).

Definition panelOffset (p : MonthPanel) : nat :=
  length (List.filter (fun c => match c with MiniEmpty _ => true | _ => false end)
                      (panel_cells p)).

(** The time values a [Date] can hold are those at most 100,000,000 days
    from the epoch in UTC ([TimeClip]); beyond, the date is an
    [Invalid Date].  A local time value of one of the days below is inside
    that range whatever the offset of the zone, which is less than a day. *)
Definition inTimeRange (t : Date) : Prop := -99999999 <= Day t <= 99999998.

(** The years that lie whole inside the range of time values. *)
Definition yearInRange (y : Z) : Prop := -271820 <= y <= 275759.

(** The number of add actions in a sequence. *)
Definition addActions (l : list Action) : nat :=
  length (List.filter (fun a => match a with AddEvent _ _ => true | _ => false end) l).

(** The days of the month view whose cell is marked as today. *)
Definition highlightedDays (cells : list GridCell) : list Date :=
  flat_map (fun c => match c with
                     | DayCellOf c => if cell_isToday c then [cell_day c] else []
                     | _ => []
                     end) cells.

(** The cell of a day of the year view. *)
Definition miniCellOf (today : Date) (st : State) (day : Date) : MiniGridCell :=
  let dayEvents := getEventsForDate st day in
  let hasEvents := (0 <? length dayEvents)%nat in
  MiniDay
    {| mini_day := day;
       mini_isToday := isSameDay day today;
       mini_isWeekendDay := isWeekend day;
       mini_hasEvents := hasEvents;
       mini_title :=
         if hasEvents then Some (eventsTitle (length dayEvents)) else None;
       mini_label := format_d day |}.

(** The panel of month [mi] of year [Y], with its days as consecutive
    midnights. *)
Definition panelOfMonth (today : Date) (st : State) (Y : Z) (mi : nat) : MonthPanel :=
  let K := DayFromYMD Y (Z.of_nat mi) 1 in
  mkMonthPanel (nth mi monthNames EmptyString)
    (map MiniHeader miniDaysOfWeek ++
     map MiniEmpty (seq 0 (Z.to_nat ((K + 4) mod 7))) ++
     map (miniCellOf today st)
         (midnights K (Z.to_nat (DaysInMonth Y (Z.of_nat mi))))).

(** The actions that set the reference date. *)
Definition navigates (a : Action) : bool :=
  match a with
  | PrevMonth | NextMonth | GoToToday _ | YearChange _ | MonthChange _ => true
  | _ => false
  end.

(** The days of the year view whose cell is marked as today. *)
Definition highlightedMiniDays (panels : list MonthPanel) : list Date :=
  flat_map (fun p =>
              flat_map (fun c => match c with
                                 | MiniDay c => if mini_isToday c then [mini_day c] else []
                                 | _ => []
                                 end) (panel_cells p)) panels.

(** * Properties *)

(** ** The calendar arithmetic *)

Ltac div_lia := Z.div_mod_to_equations; lia.

Ltac leap_cases y :=
  unfold InLeapYear;
  destruct (y mod 4 =? 0) eqn:?, (y mod 100 =? 0) eqn:?, (y mod 400 =? 0) eqn:?;
  cbn [andb orb negb];
  rewrite ?Z.eqb_eq, ?Z.eqb_neq in *.

Lemma InLeapYear_shift y q : InLeapYear (y + 400 * q) = InLeapYear y.
Proof.
  unfold InLeapYear.
  replace ((y + 400 * q) mod 4) with (y mod 4) by div_lia.
  replace ((y + 400 * q) mod 100) with (y mod 100) by div_lia.
  replace ((y + 400 * q) mod 400) with (y mod 400) by div_lia.
  reflexivity.
Qed.

Lemma DaysInMonth_bounds y m : 28 <= DaysInMonth y m <= 31.
Proof.
  unfold DaysInMonth.
  destruct (m =? 1); [destruct (InLeapYear y); lia|].
  destruct ((m =? 3) || (m =? 5) || (m =? 8) || (m =? 10)); lia.
Qed.

Lemma DayFromYMD_diff y m a b :
  DayFromYMD y m a = DayFromYMD y m b + (a - b).
Proof. unfold DayFromYMD. ring. Qed.

Lemma DayFromYMD_linear y m dt k :
  DayFromYMD y m (dt + k) = DayFromYMD y m dt + k.
Proof. unfold DayFromYMD. ring. Qed.

(** *** Years of the era *)

Lemma yearOfDoe_yearStart yoe doy :
  0 <= yoe < 400 -> 0 <= doy < 365 ->
  yearOfDoe (yearStart yoe + doy) = yoe.
Proof. intros H1 H2. unfold yearOfDoe, yearStart. div_lia. Qed.

Lemma yearOfDoe_leap_day yoe :
  0 <= yoe < 400 -> InLeapYear (yoe + 1) = true ->
  yearOfDoe (yearStart yoe + 365) = yoe.
Proof.
  intros H1. leap_cases (yoe + 1); intros H2; try discriminate;
    unfold yearOfDoe, yearStart; div_lia.
Qed.

(** Every day of the era lies in one of its 400 years, and on the 366th
    day of a year only when the civil year that ends it is a leap year. *)
Lemma yearOfDoe_range doe :
  0 <= doe < 146097 ->
  0 <= yearOfDoe doe < 400 /\
  0 <= doe - yearStart (yearOfDoe doe) <= 365 /\
  (doe - yearStart (yearOfDoe doe) = 365 -> InLeapYear (yearOfDoe doe + 1) = true).
Proof.
  intros H.
  remember (yearOfDoe doe) as yoe eqn:Hy.
  unfold yearOfDoe in Hy. unfold yearStart.
  split; [div_lia|]. split; [div_lia|].
  intros Hd. leap_cases (yoe + 1); try reflexivity; exfalso; div_lia.
Qed.

(** *** Months of the March-based year *)

Lemma monthStart_table :
  monthStart 0 = 0 /\ monthStart 1 = 31 /\ monthStart 2 = 61 /\
  monthStart 3 = 92 /\ monthStart 4 = 122 /\ monthStart 5 = 153 /\
  monthStart 6 = 184 /\ monthStart 7 = 214 /\ monthStart 8 = 245 /\
  monthStart 9 = 275 /\ monthStart 10 = 306 /\ monthStart 11 = 337 /\
  monthStart 12 = 367.
Proof. repeat split. Qed.

Lemma month_of_doy mp dt :
  0 <= mp <= 11 -> 1 <= dt <= monthStart (mp + 1) - monthStart mp ->
  (5 * (monthStart mp + dt - 1) + 2) / 153 = mp.
Proof. intros H1 H2. unfold monthStart in *. div_lia. Qed.

Lemma month_of_doy_range doy :
  0 <= doy <= 365 ->
  let mp := (5 * doy + 2) / 153 in
  0 <= mp <= 11 /\
  1 <= doy - monthStart mp + 1 <= monthStart (mp + 1) - monthStart mp.
Proof. intros H mp. subst mp. unfold monthStart. div_lia. Qed.

Lemma civilMonth_marchMonth m :
  0 <= m <= 11 -> civilMonth (marchMonth m) = m /\ 0 <= marchMonth m <= 11.
Proof.
  intros H. unfold civilMonth, marchMonth.
  destruct (m <=? 1) eqn:E1; [apply Z.leb_le in E1|apply Z.leb_gt in E1].
  - destruct (m + 10 <? 10) eqn:E2; [apply Z.ltb_lt in E2|apply Z.ltb_ge in E2]; lia.
  - destruct (m - 2 <? 10) eqn:E2; [apply Z.ltb_lt in E2|apply Z.ltb_ge in E2]; lia.
Qed.

Lemma marchMonth_civilMonth mp :
  0 <= mp <= 11 ->
  marchMonth (civilMonth mp) = mp /\ 0 <= civilMonth mp <= 11 /\
  ((civilMonth mp <=? 1) = (10 <=? mp)).
Proof.
  intros H. unfold civilMonth, marchMonth.
  destruct (mp <? 10) eqn:E1; [apply Z.ltb_lt in E1|apply Z.ltb_ge in E1].
  - destruct (mp + 2 <=? 1) eqn:E2; [apply Z.leb_le in E2|apply Z.leb_gt in E2];
      destruct (10 <=? mp) eqn:E3; [apply Z.leb_le in E3|apply Z.leb_gt in E3|
                                    apply Z.leb_le in E3|apply Z.leb_gt in E3]; lia.
  - destruct (mp - 10 <=? 1) eqn:E2; [apply Z.leb_le in E2|apply Z.leb_gt in E2];
      destruct (10 <=? mp) eqn:E3; [apply Z.leb_le in E3|apply Z.leb_gt in E3|
                                    apply Z.leb_le in E3|apply Z.leb_gt in E3]; lia.
Qed.

(** The length of a civil month, read off the March-based table; February
    is the last month there and takes what is left of the year. *)
Lemma DaysInMonth_marchMonth y m :
  0 <= m <= 11 ->
  DaysInMonth y m =
  if m =? 1 then (if InLeapYear y then 29 else 28)
  else monthStart (marchMonth m + 1) - monthStart (marchMonth m).
Proof.
  intros H.
  assert (Hc : m = 0 \/ m = 1 \/ m = 2 \/ m = 3 \/ m = 4 \/ m = 5 \/ m = 6 \/
               m = 7 \/ m = 8 \/ m = 9 \/ m = 10 \/ m = 11) by lia.
  repeat (destruct Hc as [->|Hc]; [reflexivity|]). subst m. reflexivity.
Qed.

(** *** Day numbers and dates *)

Lemma DayFromYMD_eq y m dt :
  let y' := if m <=? 1 then y - 1 else y in
  DayFromYMD y m dt
  = y' / 400 * 146097
    + (yearStart (y' - y' / 400 * 400) + (monthStart (marchMonth m) + dt - 1))
    - 719468.
Proof. reflexivity. Qed.

(** The fields of a day given by its era and its day of the era. *)
Lemma YMDFromDay_era era doe :
  0 <= doe < 146097 ->
  YMDFromDay (era * 146097 + doe - 719468)
  = let yoe := yearOfDoe doe in
    let doy := doe - yearStart yoe in
    let mp := (5 * doy + 2) / 153 in
    (if civilMonth mp <=? 1 then yoe + era * 400 + 1 else yoe + era * 400,
     civilMonth mp, doy - monthStart mp + 1).
Proof.
  intros H. unfold YMDFromDay.
  replace (era * 146097 + doe - 719468 + 719468) with (doe + era * 146097) by ring.
  rewrite Z.div_add, (Z.div_small doe 146097) by lia.
  replace (doe + era * 146097 - (0 + era) * 146097) with doe by ring.
  fold (yearOfDoe doe). set (yoe := yearOfDoe doe).
  replace (365 * yoe + yoe / 4 - yoe / 100) with (yearStart yoe)
    by (unfold yearStart; ring).
  reflexivity.
Qed.

(** February is month 11 of the March-based year. *)
Lemma marchMonth_february m : 0 <= m <= 11 -> (m = 1 <-> marchMonth m = 11).
Proof.
  intros H. unfold marchMonth.
  destruct (m <=? 1) eqn:E; [apply Z.leb_le in E|apply Z.leb_gt in E]; lia.
Qed.

(** Every date of the calendar is the date of its day. *)
Lemma YMDFromDay_DayFromYMD y m dt :
  0 <= m <= 11 -> 1 <= dt <= DaysInMonth y m ->
  YMDFromDay (DayFromYMD y m dt) = (y, m, dt).
Proof.
  intros Hm Hd.
  rewrite DayFromYMD_eq. cbv zeta.
  destruct (civilMonth_marchMonth m Hm) as [Hcm Hmp].
  pose proof (marchMonth_february m Hm) as Hfeb.
  rewrite DaysInMonth_marchMonth in Hd by exact Hm.
  remember (marchMonth m) as mp eqn:Hmpdef.
  remember (if m <=? 1 then y - 1 else y) as y' eqn:Hy'.
  remember (y' / 400) as era eqn:Hera.
  remember (y' - era * 400) as yoe eqn:Hyoedef.
  assert (Hyoe : 0 <= yoe < 400) by (subst yoe era; div_lia).
  assert (Hy : y = if m <=? 1 then yoe + era * 400 + 1 else yoe + era * 400).
  { subst yoe y'. destruct (m <=? 1); lia. }
  pose proof monthStart_table as T.
  assert (Hlen : 1 <= dt <= monthStart (mp + 1) - monthStart mp /\
                 0 <= monthStart mp + dt - 1 <= 365 /\
                 (monthStart mp + dt - 1 = 365 -> InLeapYear (yoe + 1) = true)).
  { destruct (m =? 1) eqn:E.
    - apply Z.eqb_eq in E. assert (Hmp11 : mp = 11) by now apply Hfeb.
      rewrite Hmp11. change (11 + 1) with 12.
      rewrite E in Hy. change (1 <=? 1) with true in Hy. cbv iota in Hy.
      replace (InLeapYear (yoe + 1)) with (InLeapYear y).
      2:{ rewrite Hy. replace (yoe + era * 400 + 1) with (yoe + 1 + 400 * era) by ring.
          apply InLeapYear_shift. }
      destruct (InLeapYear y); repeat split; lia.
    - apply Z.eqb_neq in E.
      assert (mp <> 11) by (intros Hx; apply E, Hfeb, Hx).
      split; [exact Hd|]. unfold monthStart in *. split; [div_lia|].
      intros Hx. exfalso. div_lia. }
  destruct Hlen as (Hlen & Hdoy & Hleap).
  assert (Hyear : yearOfDoe (yearStart yoe + (monthStart mp + dt - 1)) = yoe).
  { destruct (Z.eq_dec (monthStart mp + dt - 1) 365) as [E|E].
    - rewrite E. apply yearOfDoe_leap_day; [exact Hyoe|now apply Hleap].
    - apply yearOfDoe_yearStart; [exact Hyoe|lia]. }
  rewrite YMDFromDay_era.
  2:{ unfold yearStart. div_lia. }
  cbv zeta. rewrite Hyear.
  replace (yearStart yoe + (monthStart mp + dt - 1) - yearStart yoe)
    with (monthStart mp + dt - 1) by ring.
  rewrite month_of_doy by assumption.
  rewrite Hcm, <- Hy. f_equal. ring.
Qed.

(** Every day is a date of the calendar, and the date names the day. *)
Lemma YMDFromDay_valid z :
  let '(y, m, dt) := YMDFromDay z in
  0 <= m <= 11 /\ 1 <= dt <= DaysInMonth y m /\ DayFromYMD y m dt = z.
Proof.
  set (era := (z + 719468) / 146097).
  set (doe := z + 719468 - era * 146097).
  assert (Hdoe : 0 <= doe < 146097) by (unfold doe, era; div_lia).
  replace z with (era * 146097 + doe - 719468) by (unfold doe; ring).
  rewrite YMDFromDay_era by exact Hdoe. cbv zeta.
  destruct (yearOfDoe_range doe Hdoe) as (Hyoe & Hdoy & Hleap).
  set (yoe := yearOfDoe doe) in *.
  set (doy := doe - yearStart yoe) in *.
  destruct (month_of_doy_range doy Hdoy) as (Hmp & Hdt). cbv zeta in Hmp, Hdt.
  set (mp := (5 * doy + 2) / 153) in *.
  destruct (marchMonth_civilMonth mp Hmp) as (Hmm & Hm & Hjf).
  set (m := civilMonth mp) in *.
  set (y := if m <=? 1 then yoe + era * 400 + 1 else yoe + era * 400).
  split; [exact Hm|].
  pose proof monthStart_table as T.
  split.
  - rewrite DaysInMonth_marchMonth by exact Hm. rewrite Hmm.
    destruct (m =? 1) eqn:E; [|exact Hdt].
    apply Z.eqb_eq in E.
    assert (Hmp11 : mp = 11).
    { unfold m, civilMonth in E. destruct (mp <? 10) eqn:E1;
        [apply Z.ltb_lt in E1|apply Z.ltb_ge in E1]; lia. }
    rewrite Hmp11 in *. unfold y. rewrite E. change (1 <=? 1) with true. cbv iota.
    replace (yoe + era * 400 + 1) with (yoe + 1 + 400 * era) by ring.
    rewrite InLeapYear_shift.
    destruct (InLeapYear (yoe + 1)) eqn:El; [lia|].
    destruct (Z.eq_dec doy 365) as [E365|E365]; [now apply Hleap in E365|lia].
  - rewrite DayFromYMD_eq. cbv zeta. rewrite Hmm.
    assert (Hy' : (if m <=? 1 then y - 1 else y) = yoe + era * 400).
    { unfold y. destruct (m <=? 1); lia. }
    rewrite Hy'.
    replace ((yoe + era * 400) / 400) with era by div_lia.
    replace (yoe + era * 400 - era * 400) with yoe by ring.
    unfold doy. ring.
Qed.

(** Day 0 of the month after [m] is the last day of [m]. *)
Lemma DayFromYMD_month_end y m :
  0 <= m <= 11 ->
  DayFromYMD (y + (m + 1) / 12) ((m + 1) mod 12) 0 = DayFromYMD y m (DaysInMonth y m).
Proof.
  intros Hm.
  destruct (Z.eq_dec m 1) as [->|Hne].
  - change (DayFromYMD (y + (1 + 1) / 12) ((1 + 1) mod 12) 0)
      with (DayFromYMD (y + 0) 2 0).
    rewrite Z.add_0_r, !DayFromYMD_eq. cbv zeta.
    change (2 <=? 1) with false. change (1 <=? 1) with true. cbv iota.
    change (monthStart (marchMonth 2)) with 0.
    change (monthStart (marchMonth 1)) with 337.
    unfold DaysInMonth. change (1 =? 1) with true. cbv iota.
    unfold yearStart. leap_cases y; div_lia.
  - assert (Hc : m = 0 \/ m = 2 \/ m = 3 \/ m = 4 \/ m = 5 \/ m = 6 \/
                 m = 7 \/ m = 8 \/ m = 9 \/ m = 10 \/ m = 11) by lia.
    assert (H1 : (if (m + 1) mod 12 <=? 1 then y + (m + 1) / 12 - 1 else y + (m + 1) / 12)
                 = (if m <=? 1 then y - 1 else y)).
    { destruct ((m + 1) mod 12 <=? 1) eqn:E1; destruct (m <=? 1) eqn:E2;
        rewrite ?Z.leb_le, ?Z.leb_gt in *; div_lia. }
    assert (H2 : marchMonth ((m + 1) mod 12) = marchMonth m + 1).
    { repeat (destruct Hc as [->|Hc]; [reflexivity|]). subst m. reflexivity. }
    rewrite !DayFromYMD_eq. cbv zeta.
    rewrite H1, H2, DaysInMonth_marchMonth by exact Hm.
    apply Z.eqb_neq in Hne. rewrite Hne. ring.
Qed.

(** ** Dates *)

(** The day 0 is Thursday 1 January 1970. *)
Lemma epoch_day : YMDFromDay 0 = (1970, 0, 1) /\ WeekDay 0 = 4.
Proof. split; reflexivity. Qed.

Lemma TimeWithinDay_bounds t : 0 <= TimeWithinDay t < msPerDay.
Proof. apply Z.mod_pos_bound. reflexivity. Qed.

Lemma Day_MakeDate D t : 0 <= t < msPerDay -> Day (MakeDate D t) = D.
Proof.
  intros Ht. unfold Day, MakeDate.
  rewrite Z.add_comm, Z.div_add by (unfold msPerDay; lia).
  rewrite Z.div_small by exact Ht. lia.
Qed.

Lemma TimeWithinDay_MakeDate D t :
  0 <= t < msPerDay -> TimeWithinDay (MakeDate D t) = t.
Proof.
  intros Ht. unfold TimeWithinDay, MakeDate.
  rewrite Z.add_comm, Z.mod_add by (unfold msPerDay; lia).
  now apply Z.mod_small.
Qed.

Lemma MakeDate_Day_TimeWithinDay t : MakeDate (Day t) (TimeWithinDay t) = t.
Proof.
  unfold MakeDate, Day, TimeWithinDay.
  pose proof (Z.div_mod t msPerDay ltac:(unfold msPerDay; lia)). lia.
Qed.

Lemma MakeDay_in_year y m dt :
  0 <= m <= 11 -> MakeDay y m dt = DayFromYMD y m dt.
Proof.
  intros Hm. unfold MakeDay.
  rewrite Z.div_small, Z.mod_small by lia. now rewrite Z.add_0_r.
Qed.

(** The three fields of a date, with what they satisfy. *)
(** What holds of every date [d]: its fields are a date of the calendar,
    and the start and the end of its month are the midnight of the first
    day and the last millisecond of the last day. *)

Section ReferenceDate.

Variable d : Date.

Lemma fields_spec :
  0 <= getMonth d <= 11 /\
  1 <= getDate d <= DaysInMonth (getFullYear d) (getMonth d) /\
  DayFromYMD (getFullYear d) (getMonth d) (getDate d) = Day d.
Proof.
  unfold getMonth, getDate, getFullYear, MonthFromTime, DateFromTime, YearFromTime.
  pose proof (YMDFromDay_valid (Day d)) as H.
  destruct (YMDFromDay (Day d)) as [[y m] dt]. exact H.
Qed.

Lemma firstDayNumber_eq :
  firstDayNumber d = DayFromYMD (getFullYear d) (getMonth d) 1.
Proof.
  unfold firstDayNumber.
  destruct fields_spec as (_ & _ & <-).
  rewrite (DayFromYMD_diff _ _ 1 (getDate d)). lia.
Qed.

Lemma startOfDay_eq : startOfDay d = MakeDate (Day d) 0.
Proof. reflexivity. Qed.

Lemma startOfMonth_eq : startOfMonth d = MakeDate (firstDayNumber d) 0.
Proof.
  unfold startOfMonth, setHours4, setDate.
  rewrite Day_MakeDate by apply TimeWithinDay_bounds.
  destruct fields_spec as (Hm & _ & _).
  fold (getFullYear d) (getMonth d).
  rewrite MakeDay_in_year by exact Hm.
  now rewrite firstDayNumber_eq.
Qed.

Lemma endOfMonth_eq :
  endOfMonth d =
  MakeDate (firstDayNumber d + DaysInMonth (getFullYear d) (getMonth d) - 1) 86399999.
Proof.
  unfold endOfMonth, setHours4, setFullYear3.
  rewrite Day_MakeDate by apply TimeWithinDay_bounds.
  destruct fields_spec as (Hm & _ & _).
  unfold MakeDay. rewrite DayFromYMD_month_end by exact Hm.
  rewrite firstDayNumber_eq.
  rewrite (DayFromYMD_diff _ _ (DaysInMonth (getFullYear d) (getMonth d)) 1).
  unfold MakeTime. f_equal. lia.
Qed.

End ReferenceDate.

Lemma fields_MakeDate y m dt t :
  0 <= m <= 11 -> 1 <= dt <= DaysInMonth y m -> 0 <= t < msPerDay ->
  getFullYear (MakeDate (DayFromYMD y m dt) t) = y /\
  getMonth (MakeDate (DayFromYMD y m dt) t) = m /\
  getDate (MakeDate (DayFromYMD y m dt) t) = dt.
Proof.
  intros Hm Hd Ht.
  unfold getMonth, getDate, getFullYear, MonthFromTime, DateFromTime, YearFromTime.
  rewrite Day_MakeDate by exact Ht.
  rewrite YMDFromDay_DayFromYMD by assumption. auto.
Qed.

Lemma nextDay_eq cur : nextDay cur = MakeDate (Day cur + 1) 0.
Proof.
  unfold nextDay, setHours4, setDate.
  rewrite Day_MakeDate by apply TimeWithinDay_bounds.
  destruct (fields_spec cur) as (Hm & _ & He).
  fold (getFullYear cur) (getMonth cur).
  rewrite MakeDay_in_year by exact Hm.
  rewrite DayFromYMD_linear, He. reflexivity.
Qed.

Lemma midnights_cons K n :
  midnights K (S n) = MakeDate K 0 :: midnights (K + 1) n.
Proof.
  unfold midnights. cbn [seq map]. rewrite Z.add_0_r. f_equal.
  rewrite <- seq_shift, map_map. apply map_ext. intros i. f_equal. lia.
Qed.

(** The loop: from the midnight of day [K], with an end time within day
    [K + n - 1], it pushes [n] midnights, and [n] units of fuel are
    enough. *)
Lemma eachDay_loop_midnights n : forall fuel K t,
  (n <= fuel)%nat -> 0 <= t < msPerDay ->
  eachDay_loop fuel (MakeDate K 0) (MakeDate (K + Z.of_nat n - 1) t)
  = Some (midnights K n).
Proof.
  induction n as [|n IH]; intros fuel K t Hf Ht.
  - assert (Hc : (MakeDate K 0 <=? MakeDate (K + Z.of_nat 0 - 1) t) = false).
    { apply Z.leb_gt. unfold MakeDate, msPerDay in *. lia. }
    destruct fuel; cbn [eachDay_loop]; now rewrite Hc.
  - destruct fuel as [|fuel]; [lia|].
    cbn [eachDay_loop].
    assert (Hc : (MakeDate K 0 <=? MakeDate (K + Z.of_nat (S n) - 1) t) = true).
    { apply Z.leb_le. unfold MakeDate, msPerDay in *. lia. }
    rewrite Hc, nextDay_eq, Day_MakeDate by (unfold msPerDay; lia).
    replace (K + Z.of_nat (S n) - 1) with (K + 1 + Z.of_nat n - 1) by lia.
    rewrite IH by (assumption || lia).
    now rewrite midnights_cons.
Qed.

(** [eachDayOfInterval] always returns: the midnights of the days from the
    earlier to the later of its two dates, backwards when the interval is
    given backwards. *)
Lemma eachDayOfInterval_total start end_ :
  let lo := Z.min start end_ in
  let hi := Z.max start end_ in
  let days := midnights (Day lo) (Z.to_nat (Day hi - Day lo + 1)) in
  eachDayOfInterval start end_ = Some (if end_ <? start then rev days else days).
Proof.
  intros lo hi days. unfold eachDayOfInterval.
  assert (Hlo : (if end_ <? start then end_ else start) = lo).
  { unfold lo. destruct (end_ <? start) eqn:E;
      [apply Z.ltb_lt in E|apply Z.ltb_ge in E]; lia. }
  assert (Hhi : (if end_ <? start then start else end_) = hi).
  { unfold hi. destruct (end_ <? start) eqn:E;
      [apply Z.ltb_lt in E|apply Z.ltb_ge in E]; lia. }
  rewrite Hlo, Hhi.
  assert (Hle : lo <= hi) by (unfold lo, hi; lia).
  assert (HD : Day lo <= Day hi).
  { unfold Day, msPerDay. apply Z.div_le_mono; lia. }
  change (setHours4 lo 0 0 0 0) with (MakeDate (Day lo) 0).
  pose proof (TimeWithinDay_bounds hi) as Ht.
  assert (Hfuel : (hi - MakeDate (Day lo) 0) / msPerDay = Day hi - Day lo).
  { rewrite <- (MakeDate_Day_TimeWithinDay hi) at 1. unfold MakeDate.
    replace (Day hi * msPerDay + TimeWithinDay hi - (Day lo * msPerDay + 0))
      with (TimeWithinDay hi + (Day hi - Day lo) * msPerDay) by ring.
    rewrite Z.div_add by (unfold msPerDay; lia).
    rewrite Z.div_small by exact Ht. lia. }
  rewrite Hfuel.
  rewrite <- (MakeDate_Day_TimeWithinDay hi) at 2.
  replace (Day hi) with (Day lo + Z.of_nat (Z.to_nat (Day hi - Day lo + 1)) - 1) at 2 by lia.
  rewrite eachDay_loop_midnights by (exact Ht || lia).
  reflexivity.
Qed.

Lemma monthDates_midnights y m :
  0 <= m <= 11 ->
  monthDates y m = midnights (DayFromYMD y m 1) (Z.to_nat (DaysInMonth y m)).
Proof.
  intros Hm. unfold monthDates, midnights. apply map_ext. intros i.
  unfold newDate3. rewrite MakeDay_in_year by exact Hm.
  rewrite <- DayFromYMD_linear. f_equal. f_equal. lia.
Qed.

Lemma eachDayOfInterval_month d :
  eachDayOfInterval (startOfMonth d) (endOfMonth d)
  = Some (monthDates (getFullYear d) (getMonth d)).
Proof.
  destruct (fields_spec d) as (Hm & _ & _).
  pose proof (DaysInMonth_bounds (getFullYear d) (getMonth d)) as Hn.
  rewrite monthDates_midnights by exact Hm.
  rewrite <- firstDayNumber_eq.
  rewrite startOfMonth_eq, endOfMonth_eq.
  set (F := firstDayNumber d) in *.
  set (n := DaysInMonth (getFullYear d) (getMonth d)) in *.
  unfold eachDayOfInterval.
  assert (Hr : (MakeDate (F + n - 1) 86399999 <? MakeDate F 0) = false).
  { apply Z.ltb_ge. unfold MakeDate, msPerDay. lia. }
  rewrite Hr. unfold setHours4. rewrite Day_MakeDate by (unfold msPerDay; lia).
  change (MakeTime 0 0 0 0) with 0.
  replace (F + n - 1) with (F + Z.of_nat (Z.to_nat n) - 1) by lia.
  assert (Hfuel : (MakeDate (F + Z.of_nat (Z.to_nat n) - 1) 86399999 - MakeDate F 0) / msPerDay = n - 1).
  { unfold MakeDate, msPerDay.
    replace ((F + Z.of_nat (Z.to_nat n) - 1) * 86400000 + 86399999 - (F * 86400000 + 0))
      with (86399999 + (n - 1) * 86400000) by lia.
    rewrite Z.div_add by lia. rewrite Z.div_small by lia. lia. }
  rewrite Hfuel.
  rewrite eachDay_loop_midnights; [reflexivity|lia|unfold msPerDay; lia].
Qed.

Lemma midnights_length K n : length (midnights K n) = n.
Proof. unfold midnights. now rewrite length_map, length_seq. Qed.

Lemma midnights_In K n e :
  In e (midnights K n) <-> exists i, 0 <= i < Z.of_nat n /\ e = MakeDate (K + i) 0.
Proof.
  unfold midnights. rewrite in_map_iff. split.
  - intros (i & <- & Hi). apply in_seq in Hi. exists (Z.of_nat i). split; [lia|reflexivity].
  - intros (i & Hi & ->). exists (Z.to_nat i). split.
    + now rewrite Z2Nat.id by lia.
    + apply in_seq. lia.
Qed.

Lemma midnights_nth n : forall K i,
  (i < n)%nat -> nth i (midnights K n) 0 = MakeDate (K + Z.of_nat i) 0.
Proof.
  induction n as [|n IH]; intros K i Hi; [lia|].
  rewrite midnights_cons. destruct i as [|i]; cbn [nth].
  - f_equal. lia.
  - rewrite IH by lia. f_equal. lia.
Qed.

Lemma midnights_sorted n : forall K, StronglySorted Z.lt (midnights K n).
Proof.
  induction n as [|n IH]; intros K.
  - constructor.
  - rewrite midnights_cons. constructor; [apply IH|].
    apply List.Forall_forall. intros e He.
    apply midnights_In in He as (i & Hi & ->).
    unfold MakeDate, msPerDay. lia.
Qed.

Lemma filter_none {A} (f : A -> bool) (l : list A) :
  (forall e, In e l -> f e = false) -> List.filter f l = [].
Proof.
  induction l as [|a l IH]; intros H; [reflexivity|].
  cbn [List.filter]. rewrite (H a) by now left.
  apply IH. intros e He. apply H. now right.
Qed.

(** Among consecutive midnights, the midnight of a day in the range is
    found once, by [isSameDay] and as a value. *)
Lemma midnights_filter_day n : forall K D,
  K <= D < K + Z.of_nat n ->
  List.filter (fun e => e =? MakeDate D 0) (midnights K n) = [MakeDate D 0].
Proof.
  induction n as [|n IH]; intros K D HD; [lia|].
  rewrite midnights_cons. cbn [List.filter].
  destruct (Z.eq_dec K D) as [->|Hne].
  - rewrite Z.eqb_refl. f_equal.
    apply filter_none. intros e He.
    apply midnights_In in He as (i & Hi & ->).
    apply Z.eqb_neq. unfold MakeDate, msPerDay. lia.
  - assert (Hn : (MakeDate K 0 =? MakeDate D 0) = false)
      by (apply Z.eqb_neq; unfold MakeDate, msPerDay; lia).
    rewrite Hn. apply IH. lia.
Qed.

Lemma count_occ_filter_eqb (l : list Z) x :
  count_occ Z.eq_dec l x = length (List.filter (fun e => e =? x) l).
Proof.
  induction l as [|a l IH]; [reflexivity|].
  cbn [count_occ List.filter].
  destruct (Z.eq_dec a x) as [->|Hne].
  - rewrite Z.eqb_refl. cbn. now rewrite IH.
  - apply Z.eqb_neq in Hne. now rewrite Hne.
Qed.

Lemma isSameDay_midnight K d :
  isSameDay (MakeDate K 0) d = (MakeDate K 0 =? MakeDate (Day d) 0).
Proof.
  unfold isSameDay, getTime, startOfDay, setHours4.
  rewrite Day_MakeDate by (unfold msPerDay; lia). reflexivity.
Qed.

Lemma fields_monthDate y m i :
  0 <= m <= 11 -> 0 <= i < DaysInMonth y m ->
  let e := MakeDate (DayFromYMD y m 1 + i) 0 in
  getFullYear e = y /\ getMonth e = m /\ getDate e = i + 1 /\ e = newDate3 y m (i + 1).
Proof.
  intros Hm Hi e. subst e.
  rewrite <- DayFromYMD_linear.
  replace (1 + i) with (i + 1) by lia.
  destruct (fields_MakeDate y m (i + 1) 0 Hm ltac:(lia) ltac:(unfold msPerDay; lia))
    as (H1 & H2 & H3).
  repeat split; try assumption.
  unfold newDate3. now rewrite MakeDay_in_year.
Qed.

Lemma getDaysInMonth_eq st :
  getDaysInMonth st
  = Some (monthDates (getFullYear (currentDate st)) (getMonth (currentDate st))).
Proof. unfold getDaysInMonth. apply eachDayOfInterval_month. Qed.

Lemma monthDates_length y m :
  Z.of_nat (length (monthDates y m)) = DaysInMonth y m.
Proof.
  unfold monthDates. rewrite length_map, length_seq.
  pose proof (DaysInMonth_bounds y m). lia.
Qed.

(** C1. [getDaysInMonth] returns, for every reference date [d], the days
    of the month of [d] from the first to the last ([monthDates]), in
    ascending order.  The calendar day of [d] is there exactly once: one
    element is the same day as [d], it is the start of the day of [d], and
    it is [d] itself when [d] is a midnight.  Every element is in the month
    and year of [d]; the length is the month's number of days under the
    leap-year rule, between 28 and 31.  For 2024-02-01 there are 29 entries
    and the last is 2024-02-29. *)
Theorem getDaysInMonth_month_days :
  (forall st : State,
    let d := currentDate st in
    let y := getFullYear d in
    let m := getMonth d in
    exists days : list Date,
      getDaysInMonth st = Some days /\
      days = monthDates y m /\
      StronglySorted Z.lt days /\
      List.filter (fun e => isSameDay e d) days = [startOfDay d] /\
      count_occ Z.eq_dec days (startOfDay d) = 1%nat /\
      (TimeWithinDay d = 0 -> count_occ Z.eq_dec days d = 1%nat) /\
      Forall (fun e => isSameMonth e d = true) days /\
      (forall i, (i < length days)%nat ->
         let e := nth i days 0 in
         getFullYear e = y /\ getMonth e = m /\ getDate e = Z.of_nat i + 1 /\
         TimeWithinDay e = 0) /\
      Z.of_nat (length days) = DaysInMonth y m /\
      (28 <= length days <= 31)%nat) /\
  (exists days : list Date,
      getDaysInMonth (initialState (newDate3 2024 1 1) ∅) = Some days /\
      length days = 29%nat /\
      List.last days 0 = newDate3 2024 1 29 /\
      format_yyyy_MM_dd (List.last days 0) = "2024-02-29"%string).
Proof.
  split.
  - intros st d y m.
    exists (monthDates y m).
    destruct (fields_spec d) as (Hm & Hd & He).
    fold y m in Hm, Hd, He.
    pose proof (DaysInMonth_bounds y m) as Hn.
    pose proof (monthDates_length y m) as Hlen.
    assert (Hmid : monthDates y m = midnights (DayFromYMD y m 1) (Z.to_nat (DaysInMonth y m)))
      by now apply monthDates_midnights.
    assert (HD : Day d = DayFromYMD y m 1 + (getDate d - 1)).
    { rewrite <- He, (DayFromYMD_diff y m (getDate d) 1). lia. }
    assert (Hf : List.filter (fun e => e =? MakeDate (Day d) 0) (monthDates y m)
                 = [MakeDate (Day d) 0]).
    { rewrite Hmid. apply midnights_filter_day. lia. }
    assert (Hc : count_occ Z.eq_dec (monthDates y m) (startOfDay d) = 1%nat).
    { rewrite count_occ_filter_eqb, startOfDay_eq, Hf. reflexivity. }
    split; [apply getDaysInMonth_eq|].
    split; [reflexivity|].
    split; [rewrite Hmid; apply midnights_sorted|].
    split.
    { rewrite startOfDay_eq, <- Hf. apply filter_ext_in. intros e Hin.
      rewrite Hmid in Hin. apply midnights_In in Hin as (i & _ & ->).
      apply isSameDay_midnight. }
    split; [exact Hc|].
    split.
    { intros Ht. rewrite <- Hc, startOfDay_eq. f_equal.
      rewrite <- (MakeDate_Day_TimeWithinDay d) at 1. now rewrite Ht. }
    split.
    { apply List.Forall_forall. intros e Hin.
      rewrite Hmid in Hin. apply midnights_In in Hin as (i & Hi & ->).
      destruct (fields_monthDate y m i Hm ltac:(lia)) as (H1 & H2 & _).
      unfold isSameMonth. fold y m. rewrite H1, H2, !Z.eqb_refl. reflexivity. }
    split.
    { intros i Hi e. subst e. rewrite Hmid in Hi |- *.
      rewrite midnights_length in Hi. rewrite midnights_nth by exact Hi.
      destruct (fields_monthDate y m (Z.of_nat i) Hm ltac:(lia)) as (H1 & H2 & H3 & _).
      repeat split; try assumption.
      apply TimeWithinDay_MakeDate. unfold msPerDay. lia. }
    split; [exact Hlen|lia].
  - eexists. split; [vm_compute; reflexivity|].
    repeat split.
Qed.

(** The offset is the weekday of the first of the month, counted from the
    Thursday of 1 January 1970 (day number 0, weekday 4). *)
Lemma getFirstDayOfMonth_eq st :
  getFirstDayOfMonth st
  = (DayFromYMD (getFullYear (currentDate st)) (getMonth (currentDate st)) 1 + 4) mod 7.
Proof.
  unfold getFirstDayOfMonth, getDay, WeekDay.
  rewrite startOfMonth_eq, Day_MakeDate by (unfold msPerDay; lia).
  now rewrite firstDayNumber_eq.
Qed.

(** C5. [getFirstDayOfMonth] is between 0 and 6, and it is the weekday
    ([getDay], 0 for Sunday) of the first element of what [getDaysInMonth]
    returns, which is the first of the month: the day number of that day
    plus 4, modulo 7.  The weekday counts the days from Thursday 1 January
    1970, weekday 4, and goes up by one, modulo 7, from a day to the next.
    In 2024, September starts on a Sunday (0), January on a Monday (1),
    October on a Tuesday (2), May on a Wednesday (3), February on a
    Thursday (4), March on a Friday (5) and June on a Saturday (6). *)
Theorem getFirstDayOfMonth_offset :
  (forall st : State,
    let d := currentDate st in
    0 <= getFirstDayOfMonth st <= 6 /\
    getFirstDayOfMonth st
    = (DayFromYMD (getFullYear d) (getMonth d) 1 + 4) mod 7 /\
    exists first rest,
      getDaysInMonth st = Some (first :: rest) /\
      first = newDate3 (getFullYear d) (getMonth d) 1 /\
      getFirstDayOfMonth st = getDay first) /\
  getDay (newDate3 1970 0 1) = 4 /\
  (forall t : Date, getDay (t + msPerDay) = (getDay t + 1) mod 7) /\
  getFirstDayOfMonth (initialState (newDate3 2024 8 17) ∅) = 0 /\
  getFirstDayOfMonth (initialState (newDate3 2024 0 17) ∅) = 1 /\
  getFirstDayOfMonth (initialState (newDate3 2024 9 17) ∅) = 2 /\
  getFirstDayOfMonth (initialState (newDate3 2024 4 17) ∅) = 3 /\
  getFirstDayOfMonth (initialState (newDate3 2024 1 17) ∅) = 4 /\
  getFirstDayOfMonth (initialState (newDate3 2024 2 17) ∅) = 5 /\
  getFirstDayOfMonth (initialState (newDate3 2024 5 17) ∅) = 6.
Proof.
  split; [|split; [reflexivity|split; [|repeat split; reflexivity]]].
  - intros st d. split; [|split].
    + unfold getFirstDayOfMonth, getDay, WeekDay.
      pose proof (Z.mod_pos_bound (Day (startOfMonth (currentDate st)) + 4) 7). lia.
    + apply getFirstDayOfMonth_eq.
    + rewrite getDaysInMonth_eq. fold d.
      set (y := getFullYear d). set (m := getMonth d).
      destruct (fields_spec d) as (Hm & _ & _). fold m in Hm.
      pose proof (DaysInMonth_bounds y m) as Hn.
      rewrite monthDates_midnights by exact Hm.
      destruct (Z.to_nat (DaysInMonth y m)) as [|n] eqn:En; [lia|].
      rewrite midnights_cons.
      eexists _, _. split; [reflexivity|]. split.
      * unfold newDate3. now rewrite MakeDay_in_year by exact Hm.
      * unfold getFirstDayOfMonth. fold d.
        now rewrite startOfMonth_eq, firstDayNumber_eq.
  - intros t. unfold getDay, WeekDay, Day.
    replace (t + msPerDay) with (t + 1 * msPerDay) by lia.
    rewrite Z.div_add by (unfold msPerDay; lia).
    div_lia.
Qed.

(** A date is its three fields and its time within the day. *)
Lemma date_ext d1 d2 :
  getFullYear d1 = getFullYear d2 -> getMonth d1 = getMonth d2 ->
  getDate d1 = getDate d2 -> TimeWithinDay d1 = TimeWithinDay d2 -> d1 = d2.
Proof.
  intros Hy Hm Hd Ht.
  rewrite <- (MakeDate_Day_TimeWithinDay d1), <- (MakeDate_Day_TimeWithinDay d2).
  destruct (fields_spec d1) as (_ & _ & <-).
  destruct (fields_spec d2) as (_ & _ & <-).
  now rewrite Hy, Hm, Hd, Ht.
Qed.

Lemma MakeDay_month_end y s :
  MakeDay y (s + 1) 0
  = DayFromYMD (y + s / 12) (s mod 12) (DaysInMonth (y + s / 12) (s mod 12)).
Proof.
  unfold MakeDay.
  pose proof (Z.mod_pos_bound s 12 ltac:(lia)) as Hr.
  rewrite <- DayFromYMD_month_end by lia.
  f_equal; Z.div_mod_to_equations; lia.
Qed.

(** [addMonths]: the month [amount] months away, the same day of the month
    or the last of that month when it is shorter, the same time of day. *)
Lemma addMonths_fields d amount :
  let yt := getFullYear d + (getMonth d + amount) / 12 in
  let mt := (getMonth d + amount) mod 12 in
  getFullYear (addMonths d amount) = yt /\
  getMonth (addMonths d amount) = mt /\
  getDate (addMonths d amount) = Z.min (getDate d) (DaysInMonth yt mt) /\
  TimeWithinDay (addMonths d amount) = TimeWithinDay d.
Proof.
  intros yt mt.
  destruct (fields_spec d) as (Hm & Hd & He).
  pose proof (TimeWithinDay_bounds d) as Ht.
  pose proof (Z.mod_pos_bound (getMonth d + amount) 12 ltac:(lia)) as Hmt.
  fold mt in Hmt.
  pose proof (DaysInMonth_bounds yt mt) as Hn.
  unfold addMonths.
  destruct (amount =? 0) eqn:Ea.
  - apply Z.eqb_eq in Ea. subst amount.
    assert (yt = getFullYear d) as Hyt
      by (unfold yt; rewrite Z.add_0_r, Z.div_small by lia; lia).
    assert (mt = getMonth d) as Hmt'
      by (unfold mt; rewrite Z.add_0_r, Z.mod_small by lia; lia).
    rewrite Hyt, Hmt'. repeat split; lia.
  - unfold setMonth2. fold (getFullYear d).
    replace (getMonth d + amount + 1) with ((getMonth d + amount) + 1) by lia.
    rewrite MakeDay_month_end. fold yt mt.
    destruct (fields_MakeDate yt mt (DaysInMonth yt mt) (TimeWithinDay d)
                ltac:(lia) ltac:(lia) Ht) as (H1 & H2 & H3).
    rewrite H3.
    destruct (getDate d >=? DaysInMonth yt mt) eqn:Ege.
    + apply Z.geb_le in Ege.
      rewrite H1, H2, H3, TimeWithinDay_MakeDate by exact Ht.
      repeat split; lia.
    + rewrite Z.geb_leb in Ege. apply Z.leb_gt in Ege.
      rewrite H1, H2. unfold setFullYear3.
      rewrite MakeDay_in_year by lia.
      destruct (fields_MakeDate yt mt (getDate d) (TimeWithinDay d)
                  ltac:(lia) ltac:(lia) Ht) as (G1 & G2 & G3).
      rewrite G1, G2, G3, TimeWithinDay_MakeDate by exact Ht.
      repeat split; lia.
Qed.

(** C7. [nextMonth] and [prevMonth] move the reference date by exactly one
    calendar month, keep the time of day, and keep the day of the month or
    take the last day of the target month when that is shorter.
    [prevMonth] after [nextMonth] restores the month and the year of every
    reference date, and the whole date when its day of the month exists in
    the following month. *)
Theorem prevMonth_nextMonth_restores :
  forall st : State,
    let d := currentDate st in
    let dn := currentDate (nextMonth st) in
    let dp := currentDate (prevMonth st) in
    let back := currentDate (prevMonth (nextMonth st)) in
    (12 * getFullYear dn + getMonth dn = 12 * getFullYear d + getMonth d + 1 /\
     0 <= getMonth dn <= 11 /\
     getDate dn = Z.min (getDate d) (DaysInMonth (getFullYear dn) (getMonth dn)) /\
     TimeWithinDay dn = TimeWithinDay d) /\
    (12 * getFullYear dp + getMonth dp = 12 * getFullYear d + getMonth d - 1 /\
     0 <= getMonth dp <= 11 /\
     getDate dp = Z.min (getDate d) (DaysInMonth (getFullYear dp) (getMonth dp)) /\
     TimeWithinDay dp = TimeWithinDay d) /\
    (getFullYear back = getFullYear d /\ getMonth back = getMonth d) /\
    (getDate d <= DaysInMonth (getFullYear dn) (getMonth dn) -> back = d).
Proof.
  intros st d dn dp back.
  assert (Hshift : forall x a,
    let r := addMonths x a in
    12 * getFullYear r + getMonth r = 12 * getFullYear x + getMonth x + a /\
    0 <= getMonth r <= 11 /\
    getDate r = Z.min (getDate x) (DaysInMonth (getFullYear r) (getMonth r)) /\
    TimeWithinDay r = TimeWithinDay x).
  { intros x a r. subst r.
    destruct (addMonths_fields x a) as (H1 & H2 & H3 & H4).
    pose proof (Z.mod_pos_bound (getMonth x + a) 12 ltac:(lia)) as Hb.
    pose proof (Z.div_mod (getMonth x + a) 12 ltac:(lia)) as Hq.
    rewrite H1, H2. repeat split; lia. }
  assert (Hn : dn = addMonths d 1) by reflexivity.
  assert (Hp : dp = addMonths d (-1)) by reflexivity.
  assert (Hb : back = addMonths dn (-1)) by reflexivity.
  destruct (Hshift d 1) as (N1 & N2 & N3 & N4). rewrite <- Hn in N1, N2, N3, N4.
  destruct (Hshift d (-1)) as (P1 & P2 & P3 & P4). rewrite <- Hp in P1, P2, P3, P4.
  destruct (Hshift dn (-1)) as (B1 & B2 & B3 & B4). rewrite <- Hb in B1, B2, B3, B4.
  destruct (fields_spec d) as (Hm & Hd & _).
  assert (By : getFullYear back = getFullYear d /\ getMonth back = getMonth d) by lia.
  split; [repeat split; lia|].
  split; [repeat split; lia|].
  split; [exact By|].
  intros Hvalid. destruct By as [By Bm].
  apply date_ext; try assumption.
  - rewrite B3, By, Bm, N3. lia.
  - congruence.
Qed.

(** [MakeDay] with a day of the month that the month may not have: the
    date itself when the month has it, and otherwise the date that many
    days into the next month. *)
Lemma fields_MakeDay_overflow y m dt t :
  0 <= m <= 11 -> 1 <= dt <= 31 -> 0 <= t < msPerDay ->
  let d' := MakeDate (MakeDay y m dt) t in
  TimeWithinDay d' = t /\
  (dt <= DaysInMonth y m ->
   getFullYear d' = y /\ getMonth d' = m /\ getDate d' = dt) /\
  (DaysInMonth y m < dt ->
   getFullYear d' = y + (m + 1) / 12 /\ getMonth d' = (m + 1) mod 12 /\
   getDate d' = dt - DaysInMonth y m).
Proof.
  intros Hm Hd Ht d'. subst d'.
  rewrite MakeDay_in_year by exact Hm.
  split; [now apply TimeWithinDay_MakeDate|]. split.
  - intros Hin. now apply fields_MakeDate.
  - intros Hout.
    pose proof (DaysInMonth_bounds y m) as Hn.
    pose proof (Z.mod_pos_bound (m + 1) 12 ltac:(lia)) as Hm'.
    pose proof (DaysInMonth_bounds (y + (m + 1) / 12) ((m + 1) mod 12)) as Hn'.
    rewrite (DayFromYMD_diff y m dt (DaysInMonth y m)).
    rewrite <- DayFromYMD_month_end by exact Hm.
    rewrite <- DayFromYMD_linear, Z.add_0_l.
    apply fields_MakeDate; lia.
Qed.

Lemma DaysInMonth_december y : DaysInMonth y 11 = 31.
Proof. reflexivity. Qed.

Lemma findIndex_months i :
  0 <= i <= 11 ->
  findIndex (fun m => String.eqb m (nth (Z.to_nat i) months EmptyString)) months = i.
Proof.
  intros Hi.
  assert (H : i = 0 \/ i = 1 \/ i = 2 \/ i = 3 \/ i = 4 \/ i = 5 \/ i = 6 \/
              i = 7 \/ i = 8 \/ i = 9 \/ i = 10 \/ i = 11) by lia.
  repeat (destruct H as [->|H]; [vm_compute; reflexivity|]).
  subst i. vm_compute. reflexivity.
Qed.

(** C4, where the code keeps it and where it departs from it.  The month
    and year selectors keep the time of day, and keep the day of the month
    when the selected month (or the same month of the selected year) has
    it.  When it does not, the date is not the last day of the selected
    month: it is carried over into the month after it.  On 2024-01-31 the
    month selector set to February gives 2 March 2024, and on 2024-02-29
    the year selector set to 2025 gives 1 March 2025, where [addMonths]
    from the same dates gives the last day of February. *)
Theorem selectors_overflow_month :
  (forall (st : State) (i : Z),
     0 <= i <= 11 ->
     let d := currentDate st in
     let n := DaysInMonth (getFullYear d) i in
     let d' := currentDate (handleMonthChange (nth (Z.to_nat i) months EmptyString) st) in
     TimeWithinDay d' = TimeWithinDay d /\
     (getDate d <= n ->
      getFullYear d' = getFullYear d /\ getMonth d' = i /\ getDate d' = getDate d) /\
     (n < getDate d ->
      getFullYear d' = getFullYear d /\ getMonth d' = i + 1 /\
      getDate d' = getDate d - n)) /\
  (forall (st : State) (year : string) (y : Z),
     parseInt year = Some y ->
     let d := currentDate st in
     let n := DaysInMonth y (getMonth d) in
     exists st',
       handleYearChange year st = Some st' /\
       TimeWithinDay (currentDate st') = TimeWithinDay d /\
       getFullYear (currentDate st') = y /\
       (getDate d <= n ->
        getMonth (currentDate st') = getMonth d /\
        getDate (currentDate st') = getDate d) /\
       (n < getDate d ->
        getMonth (currentDate st') = getMonth d + 1 /\
        getDate (currentDate st') = getDate d - n)) /\
  (let st := initialState (newDate3 2024 0 31) ∅ in
   let d1 := currentDate (handleMonthChange "February" st) in
   getFullYear d1 = 2024 /\ getMonth d1 = 2 /\ getDate d1 = 2 /\
   getMonth (currentDate (nextMonth st)) = 1 /\
   getDate (currentDate (nextMonth st)) = 29) /\
  (let st := initialState (newDate3 2024 1 29) ∅ in
   exists st',
     handleYearChange "2025" st = Some st' /\
     getFullYear (currentDate st') = 2025 /\
     getMonth (currentDate st') = 2 /\ getDate (currentDate st') = 1 /\
     getMonth (addMonths (currentDate st) 12) = 1 /\
     getDate (addMonths (currentDate st) 12) = 28).
Proof.
  split; [|split; [|split]].
  - intros st i Hi d n d'.
    destruct (fields_spec d) as (Hm & Hd & _).
    pose proof (DaysInMonth_bounds (getFullYear d) (getMonth d)) as Hn.
    pose proof (DaysInMonth_bounds (getFullYear d) i) as Hn'. fold n in Hn'.
    assert (Hd' : d' = MakeDate (MakeDay (getFullYear d) i (getDate d)) (TimeWithinDay d)).
    { subst d'. unfold handleMonthChange. rewrite findIndex_months by exact Hi.
      reflexivity. }
    assert (Hrange : 1 <= getDate d <= 31) by lia.
    destruct (fields_MakeDay_overflow (getFullYear d) i (getDate d) (TimeWithinDay d)
                Hi Hrange (TimeWithinDay_bounds d)) as (Ht & Hin & Hout).
    rewrite <- Hd' in Ht, Hin, Hout. fold n in Hin, Hout.
    split; [exact Ht|]. split; [exact Hin|].
    intros Hlt. destruct (Hout Hlt) as (H1 & H2 & H3).
    assert (i <> 11).
    { intros ->. unfold n in Hlt. rewrite DaysInMonth_december in Hlt. lia. }
    rewrite H1, H2, H3, Z.div_small, Z.mod_small by lia. lia.
  - intros st year y Hy d n.
    destruct (fields_spec d) as (Hm & Hd & _).
    pose proof (DaysInMonth_bounds (getFullYear d) (getMonth d)) as Hn.
    pose proof (DaysInMonth_bounds y (getMonth d)) as Hn'. fold n in Hn'.
    unfold handleYearChange. rewrite Hy. eexists. split; [reflexivity|].
    cbn [currentDate setCurrentDate]. fold d.
    destruct (fields_MakeDay_overflow y (getMonth d) (getDate d) (TimeWithinDay d)
                Hm ltac:(lia) (TimeWithinDay_bounds d)) as (Ht & Hin & Hout).
    fold n in Hin, Hout.
    change (setFullYear d y)
      with (MakeDate (MakeDay y (getMonth d) (getDate d)) (TimeWithinDay d)).
    split; [exact Ht|].
    assert (Hmonth : n < getDate d -> getMonth d <> 11).
    { intros Hlt E. unfold n in Hlt.
      rewrite E, DaysInMonth_december in Hlt. lia. }
    split.
    + destruct (Z_le_gt_dec (getDate d) n) as [Hle|Hgt].
      * now destruct (Hin Hle).
      * destruct (Hout ltac:(lia)) as (H1 & _).
        rewrite H1, Z.div_small by (specialize (Hmonth ltac:(lia)); lia). lia.
    + split.
      * intros Hle. destruct (Hin Hle) as (_ & H2 & H3). now split.
      * intros Hlt. destruct (Hout Hlt) as (_ & H2 & H3).
        rewrite H2, H3, Z.mod_small by (specialize (Hmonth Hlt); lia). now split.
  - cbv zeta. vm_compute. repeat split.
  - cbv zeta. eexists. split; [vm_compute; reflexivity|].
    vm_compute. repeat split.
Qed.

(** ** JSON round trip *)

Lemma append_cons x (a b : string) :
  (String x a ++ b)%string = String x (a ++ b).
Proof. reflexivity. Qed.

Lemma append_nil (b : string) : (EmptyString ++ b)%string = b.
Proof. reflexivity. Qed.

Lemma append_assoc (a b c : string) :
  ((a ++ b) ++ c = a ++ (b ++ c))%string.
Proof.
  induction a as [|x a IH]; [reflexivity|].
  now rewrite !append_cons, IH.
Qed.

Lemma length_append (a b : string) :
  String.length (a ++ b) = (String.length a + String.length b)%nat.
Proof.
  induction a as [|x a IH]; [reflexivity|].
  rewrite append_cons. cbn [String.length]. now rewrite IH.
Qed.

(** Reading back one escaped character. *)
Lemma parseChars_escapeChar c tail :
  parseChars (escapeChar c ++ tail) = consResult c (parseChars tail).
Proof.
  destruct c as [[] [] [] [] [] [] [] []]; reflexivity.
Qed.

Lemma parseChars_escape s rest :
  parseChars (escape s ++ String dquote rest) = Some (s, rest).
Proof.
  induction s as [|c s IH]; [reflexivity|].
  cbn [escape]. rewrite append_assoc, parseChars_escapeChar, IH. reflexivity.
Qed.

Lemma quote_append s rest :
  (quote s ++ rest)%string = String dquote (escape s ++ String dquote rest).
Proof. unfold quote. now rewrite append_cons, append_assoc. Qed.

Lemma parseValue_string n r :
  parseValue (S n) (String dquote r)
  = match parseChars r with
    | Some (str, r') => Some (JString str, r')
    | None => None
    end.
Proof. reflexivity. Qed.

Lemma parseValue_quote n s rest :
  parseValue (S n) (quote s ++ rest) = Some (JString s, rest).
Proof.
  now rewrite quote_append, parseValue_string, parseChars_escape.
Qed.

Lemma parseValue_empty_array n rest :
  parseValue (S n) (String "[" (String "]" rest)) = Some (JArray [], rest).
Proof. reflexivity. Qed.

Lemma parseValue_array n r :
  parseValue (S n) (String "[" (String "{" r))
  = match parseElements n (String "{" r) with
    | Some (vs, r') => Some (JArray vs, r')
    | None => None
    end.
Proof. reflexivity. Qed.

Lemma parseValue_object n r :
  parseValue (S n) (String "{" (String dquote r))
  = match parseMembers n (String dquote r) with
    | Some (kvs, r') => Some (JObject kvs, r')
    | None => None
    end.
Proof. reflexivity. Qed.

Lemma parseElements_more n s v r :
  parseValue n s = Some (v, String "," r) ->
  parseElements (S n) s
  = match parseElements n r with
    | Some (vs, r') => Some (v :: vs, r')
    | None => None
    end.
Proof. intros H. cbn [parseElements]. now rewrite H. Qed.

Lemma parseElements_last n s v r :
  parseValue n s = Some (v, String "]" r) ->
  parseElements (S n) s = Some ([v], r).
Proof. intros H. cbn [parseElements]. now rewrite H. Qed.

Lemma parseMembers_key n k r :
  parseMembers (S n) (quote k ++ String ":" r)
  = match parseValue n r with
    | Some (v, r3) =>
        match skipWhiteSpace r3 with
        | String "," r4 =>
            match parseMembers n r4 with
            | Some (kvs, r5) => Some ((k, v) :: kvs, r5)
            | None => None
            end
        | String "}" r4 => Some ([(k, v)], r4)
        | _ => None
        end
    | None => None
    end.
Proof.
  rewrite quote_append.
  change (parseMembers (S n) (String dquote ?x))
    with (match parseChars x with
          | Some (k, r1) =>
              match skipWhiteSpace r1 with
              | String ":" r2 =>
                  match parseValue n r2 with
                  | Some (v, r3) =>
                      match skipWhiteSpace r3 with
                      | String "," r4 =>
                          match parseMembers n r4 with
                          | Some (kvs, r5) => Some ((k, v) :: kvs, r5)
                          | None => None
                          end
                      | String "}" r4 => Some ([(k, v)], r4)
                      | _ => None
                      end
                  | None => None
                  end
              | _ => None
              end
          | None => None
          end).
  rewrite parseChars_escape. reflexivity.
Qed.

(** A member with a string value, followed by another member or by the end
    of the object. *)
Lemma parseMembers_string_more n k v r :
  parseMembers (S (S n)) (quote k ++ String ":" (quote v ++ String "," r))
  = match parseMembers (S n) r with
    | Some (kvs, r') => Some ((k, JString v) :: kvs, r')
    | None => None
    end.
Proof. now rewrite parseMembers_key, parseValue_quote. Qed.

Lemma parseMembers_string_last n k v r :
  parseMembers (S (S n)) (quote k ++ String ":" (quote v ++ String "}" r))
  = Some ([(k, JString v)], r).
Proof. now rewrite parseMembers_key, parseValue_quote. Qed.

Lemma stringify_array l :
  stringify (JArray l) = String "[" (elementsText l ++ String "]" EmptyString).
Proof.
  cbn [stringify].
  rewrite append_cons, append_nil. reflexivity.
Qed.

Lemma stringify_event e rest :
  (stringify (eventToJSON e) ++ rest)%string
  = String "{"
      (quote "date" ++ String ":" (quote (date e) ++ String ","
      (quote "title" ++ String ":" (quote (title e) ++ String ","
      (quote "description" ++ String ":" (quote (description e) ++ String ","
      (quote "color" ++ String ":" (quote (color e) ++ String ","
      (quote "id" ++ String ":" (quote (id e) ++ String "}" rest)))))))))).
Proof.
  unfold eventToJSON. cbn [stringify].
  repeat rewrite ?append_assoc, ?append_cons, ?append_nil.
  reflexivity.
Qed.

Lemma parseValue_object_key n k r :
  parseValue (S n) (String "{" (quote k ++ r))
  = match parseMembers n (quote k ++ r) with
    | Some (kvs, r') => Some (JObject kvs, r')
    | None => None
    end.
Proof. rewrite quote_append. reflexivity. Qed.

(** Seven units of fuel read an event back. *)
Lemma parseValue_event n e rest :
  parseValue (7 + n)%nat (stringify (eventToJSON e) ++ rest) = Some (eventToJSON e, rest).
Proof.
  rewrite stringify_event.
  change (7 + n)%nat with (S (S (S (S (S (S (S n))))))).
  rewrite parseValue_object_key.
  rewrite !parseMembers_string_more, parseMembers_string_last.
  reflexivity.
Qed.

Lemma stringify_event_head e :
  exists r, stringify (eventToJSON e) = String "{" r.
Proof.
  eexists. rewrite <- (append_nil (stringify (eventToJSON e))) at 1.
  assert (H : forall s, (EmptyString ++ s)%string = (s ++ EmptyString)%string).
  { intros s. rewrite append_nil. induction s as [|c s IH]; [reflexivity|].
    now rewrite append_cons, <- IH. }
  rewrite H, stringify_event. reflexivity.
Qed.

Lemma parseElements_events E : forall e rest n,
  parseElements (length E + 8 + n)%nat
    (elementsText (map eventToJSON (e :: E)) ++ String "]" rest)
  = Some (map eventToJSON (e :: E), rest).
Proof.
  induction E as [|e' E IH]; intros e rest n.
  - cbn [map elementsText length Nat.add].
    apply parseElements_last, parseValue_event.
  - change (map eventToJSON (e :: e' :: E))
      with (eventToJSON e :: map eventToJSON (e' :: E)).
    change (elementsText (eventToJSON e :: map eventToJSON (e' :: E)))
      with (stringify (eventToJSON e) ++ String "," (elementsText (map eventToJSON (e' :: E))))%string.
    rewrite append_assoc, append_cons.
    change (length (e' :: E) + 8 + n)%nat with (S (length E + 8 + n)).
    rewrite (parseElements_more _ _ (eventToJSON e)
               (elementsText (map eventToJSON (e' :: E)) ++ String "]" rest)).
    + now rewrite IH.
    + replace (length E + 8 + n)%nat with (7 + (length E + 1 + n))%nat by lia.
      apply parseValue_event.
Qed.

Lemma elementsText_length E : forall e,
  (length E + 1 <= String.length (elementsText (map eventToJSON (e :: E))))%nat.
Proof.
  induction E as [|e' E IH]; intros e.
  - cbn [map elementsText]. destruct (stringify_event_head e) as [r ->].
    cbn [String.length length]. lia.
  - change (elementsText (map eventToJSON (e :: e' :: E)))
      with (stringify (eventToJSON e) ++ String "," (elementsText (map eventToJSON (e' :: E))))%string.
    rewrite length_append. cbn [String.length length].
    specialize (IH e'). lia.
Qed.

Lemma eventOfJSON_eventToJSON e : eventOfJSON (eventToJSON e) = Some e.
Proof. destruct e. reflexivity. Qed.

Lemma eventsOfJSONList_map E :
  eventsOfJSONList (map eventToJSON E) = Some E.
Proof.
  induction E as [|e E IH]; [reflexivity|].
  cbn [map eventsOfJSONList]. now rewrite eventOfJSON_eventToJSON, IH.
Qed.

(** What [JSON.stringify] writes for a list of events, [JSON.parse] reads
    back as that list. *)
Lemma parseEvents_stringifyEvents E :
  parseEvents (stringifyEvents E) = Some E.
Proof.
  unfold parseEvents, stringifyEvents.
  assert (Hp : parse (stringify (JArray (map eventToJSON E)))
               = Some (JArray (map eventToJSON E))).
  { destruct E as [|e E]; [reflexivity|].
    unfold parse. rewrite stringify_array.
    destruct (stringify_event_head e) as [r Hr].
    set (txt := elementsText (map eventToJSON (e :: E))).
    assert (Htxt : exists r', (txt ++ String "]" EmptyString)%string = String "{" r').
    { unfold txt. destruct E as [|e' E].
      - cbn [map elementsText]. rewrite Hr, append_cons. eauto.
      - change (elementsText (map eventToJSON (e :: e' :: E)))
          with (stringify (eventToJSON e) ++ String "," (elementsText (map eventToJSON (e' :: E))))%string.
        rewrite Hr, !append_cons. eauto. }
    destruct Htxt as [r' Hr'].
    pose proof (elementsText_length E e) as Hlen. fold txt in Hlen.
    cbn [String.length]. rewrite length_append. cbn [String.length].
    assert (Hfuel : exists n,
      (2 * S (String.length txt + 1) + 2 = S (length E + 8 + n))%nat).
    { exists (2 * String.length txt - length E - 3)%nat.
      assert (2 <= String.length txt)%nat; [|lia].
      destruct E; [|cbn [length] in Hlen; lia].
      unfold txt. cbn [map elementsText].
      rewrite <- (append_nil (stringify (eventToJSON e))).
      change (EmptyString ++ stringify (eventToJSON e))%string
        with (stringify (eventToJSON e)).
      destruct (stringify_event_head e) as [r2 Hr2].
      pose proof (stringify_event e EmptyString) as Hs.
      rewrite quote_append in Hs.
      assert (Hl : String.length (stringify (eventToJSON e) ++ EmptyString)
                   = String.length (stringify (eventToJSON e)))
        by (rewrite length_append; cbn; lia).
      rewrite <- Hl, Hs. cbn [String.length]. lia. }
    destruct Hfuel as [n ->].
    rewrite Hr', parseValue_array, <- Hr'.
    unfold txt. rewrite parseElements_events. reflexivity. }
  rewrite Hp. apply eventsOfJSONList_map.
Qed.

Lemma truthy_stringifyEvents E : truthy (stringifyEvents E) = true.
Proof. unfold stringifyEvents. now rewrite stringify_array. Qed.

(** ** The event store *)

Lemma trimEnd_allWhiteSpace s : allWhiteSpace s = true -> trimEnd s = EmptyString.
Proof.
  induction s as [|c s IH]; [reflexivity|].
  cbn [allWhiteSpace trimEnd]. intros H. apply andb_prop in H as [Hc Hs].
  now rewrite IH, Hc.
Qed.

Lemma trimEnd_empty s : trimEnd s = EmptyString -> allWhiteSpace s = true.
Proof.
  induction s as [|c s IH]; [reflexivity|].
  cbn [allWhiteSpace trimEnd].
  destruct (trimEnd s) eqn:E; [|discriminate].
  destruct (isWhiteSpace c); [|discriminate].
  intros _. now rewrite IH.
Qed.

Lemma trimStart_allWhiteSpace s :
  allWhiteSpace (trimStart s) = allWhiteSpace s.
Proof.
  induction s as [|c s IH]; [reflexivity|].
  cbn [trimStart allWhiteSpace].
  destruct (isWhiteSpace c) eqn:E; [exact IH|].
  cbn [allWhiteSpace]. now rewrite E.
Qed.

(** [!title.trim()] holds exactly for the titles made of white space. *)
Lemma trim_blank s : negb (truthy (trim s)) = allWhiteSpace s.
Proof.
  unfold trim. rewrite <- trimStart_allWhiteSpace.
  destruct (allWhiteSpace (trimStart s)) eqn:E.
  - now rewrite trimEnd_allWhiteSpace.
  - destruct (trimEnd (trimStart s)) eqn:E2; [|reflexivity].
    apply trimEnd_empty in E2. congruence.
Qed.

(** C2. With a title that is empty or all white space (one that [trim]
    leaves empty), [handleAddEvent] only shows the error notification (the
    destructive toast saying that the title is required): the events, the
    stored text, the open dialog and the content of the form are as they
    were. *)
Theorem handleAddEvent_blank_title :
  forall (now : Date) (uuid : string) (st : State),
    allWhiteSpace (draft_title (newEvent st)) = true ->
    let st' := handleAddEvent now uuid st in
    trim (draft_title (newEvent st)) = EmptyString /\
    toasts st' = toasts st ++ [errorToast] /\
    toast_variant errorToast = Some "destructive"%string /\
    events st' = events st /\
    localStorage st' = localStorage st /\
    eventDialogOpen st' = eventDialogOpen st /\
    newEvent st' = newEvent st /\
    st' = toast errorToast st.
Proof.
  intros now uuid st Hb st'. subst st'. unfold handleAddEvent.
  rewrite trim_blank, Hb. split; [|repeat split].
  unfold trim. apply trimEnd_allWhiteSpace.
  now rewrite trimStart_allWhiteSpace.
Qed.

Lemma handleAddEvent_blank_title_witness :
  let st := dayClick 0%Z (changeTitle "  " (initialState 0%Z ∅)) in
  let st' := handleAddEvent 0%Z "uuid-1" st in
  eventDialogOpen st' = true /\ events st' = events st /\
  localStorage st' !! storageKey = None /\
  toasts st' = [errorToast].
Proof.
  cbv zeta.
  pose proof (handleAddEvent_blank_title 0%Z "uuid-1"
                (dayClick 0%Z (changeTitle "  " (initialState 0%Z ∅)))
                eq_refl) as H.
  cbv zeta in H. destruct H as (_ & H1 & _ & H2 & H3 & H4 & _).
  rewrite H1, H2, H3, H4. repeat split.
Defined.

Lemma handleAddEvent_success now uuid st :
  allWhiteSpace (draft_title (newEvent st)) = false ->
  handleAddEvent now uuid st
  = saveEffect (toast addedToast (setEventDialogOpen false (setNewEvent blankDraft
      (setEvents (events st ++
         [mkEvent uuid
            (match selectedDate st with
             | Some d => format_yyyy_MM_dd d
             | None => format_yyyy_MM_dd now
             end)
            (draft_title (newEvent st)) (draft_description (newEvent st))
            (draft_color (newEvent st))]) st)))).
Proof. intros H. unfold handleAddEvent. now rewrite trim_blank, H. Qed.

(** C3, what the code keeps of it and the input where it departs from it.
    A successful add makes the store one event longer, the new event
    carries the generated id, and it is among the events of the selected
    day, or of the clock's day when no day is selected.  That day need not
    be the date of the form: with no day selected and the clock at
    2024-01-01, the form filled with the date 2024-03-15 and the title
    Meeting adds an event stored under 2024-01-01, and the events of
    2024-03-15 do not include it. *)
Theorem handleAddEvent_ignores_form_date :
  (forall (now : Date) (uuid : string) (st : State),
     allWhiteSpace (draft_title (newEvent st)) = false ->
     let st' := handleAddEvent now uuid st in
     let day := match selectedDate st with Some d => d | None => now end in
     length (events st') = S (length (events st)) /\
     exists e,
       events st' = events st ++ [e] /\ id e = uuid /\
       In e (getEventsForDate st' day)) /\
  (let now := newDate3 2024 0 1 in
   let st := changeTitle "Meeting" (changeDate "2024-03-15" (initialState now ∅)) in
   let st' := handleAddEvent now "uuid-1" st in
   draft_date (newEvent st) = "2024-03-15"%string /\
   events st' = [mkEvent "uuid-1" "2024-01-01" "Meeting" EmptyString "#4f46e5"] /\
   getEventsForDate st' (newDate3 2024 2 15) = [] /\
   format_yyyy_MM_dd (newDate3 2024 2 15) = "2024-03-15"%string).
Proof.
  split.
  - intros now uuid st Hb st' day. subst st'.
    rewrite handleAddEvent_success by exact Hb.
    cbn [events saveEffect setLocalStorage toast setEventDialogOpen setNewEvent setEvents].
    split; [rewrite length_app; cbn [length]; lia|].
    eexists. split; [reflexivity|]. split; [reflexivity|].
    unfold getEventsForDate.
    cbn [events saveEffect setLocalStorage toast setEventDialogOpen setNewEvent setEvents].
    apply filter_In. split; [apply in_or_app; right; now left|].
    apply String.eqb_eq. cbn [date]. subst day.
    now destruct (selectedDate st).
  - cbv zeta. repeat split; vm_compute; reflexivity.
Qed.

(** C6. [getEventsForDate] returns the events whose [date] is the text of
    the given day in the form yyyy-MM-dd: only those, all of them, each as
    often as it is in the store, in the order of the store. *)
Theorem getEventsForDate_exact :
  (forall (st : State) (d : Date),
    let dateString := format_yyyy_MM_dd d in
    let found := getEventsForDate st d in
    (forall e, In e found <-> In e (events st) /\ date e = dateString) /\
    (forall e, date e = dateString ->
       count_occ Event_eq_dec found e = count_occ Event_eq_dec (events st) e) /\
    sublist found (events st) /\
    (forall l1 l2, events st = l1 ++ l2 ->
       found = getEventsForDate (setEvents l1 st) d
               ++ getEventsForDate (setEvents l2 st) d)) /\
  format_yyyy_MM_dd (newDate3 2024 2 15 + 43200000) = "2024-03-15"%string.
Proof.
  split; [|vm_compute; reflexivity].
  intros st d dateString found. subst found. unfold getEventsForDate.
  fold dateString. cbn [events setEvents].
  generalize (events st) as l. intros l.
  split; [|split; [|split]].
  - intros e. rewrite filter_In, String.eqb_eq. reflexivity.
  - intros e He. induction l as [|a l IH]; [reflexivity|].
    cbn [List.filter count_occ].
    destruct (String.eqb (date a) dateString) eqn:Ea.
    + cbn [count_occ]. destruct (Event_eq_dec a e); now rewrite IH.
    + destruct (Event_eq_dec a e) as [->|Hne]; [|exact IH].
      apply String.eqb_neq in Ea. contradiction.
  - induction l as [|a l IH]; [constructor|].
    cbn [List.filter]. destruct (String.eqb (date a) dateString).
    + now apply sublist_skip.
    + now apply sublist_cons.
  - intros l1 l2 ->. apply List.filter_app.
Qed.

(** C8. What the save effect stores for a list of events, the load effect
    of a fresh component reads back as the same list; the same holds for
    mounting the component on that store; and with nothing stored under the
    key, the load effect leaves the list empty. *)
Theorem load_save_round_trip :
  (forall (st : State) (now : Date),
     exists st',
       loadEffect (initialState now (localStorage (saveEffect st))) = Some st' /\
       events st' = events st) /\
  (forall (st : State) (now : Date),
     exists st',
       mount now (localStorage (saveEffect st)) = Some st' /\
       events st' = events st /\
       localStorage st' !! storageKey = Some (stringifyEvents (events st))) /\
  (forall (now : Date) (ls : gmap string string),
     ls !! storageKey = None ->
     exists st',
       loadEffect (initialState now ls) = Some st' /\ events st' = []).
Proof.
  assert (Hload : forall st now,
    loadEffect (initialState now (localStorage (saveEffect st)))
    = Some (setEvents (events st) (initialState now (localStorage (saveEffect st))))).
  { intros st now. unfold loadEffect.
    cbn [localStorage initialState saveEffect setLocalStorage].
    rewrite lookup_insert_eq, truthy_stringifyEvents, parseEvents_stringifyEvents.
    reflexivity. }
  split; [|split].
  - intros st now. eexists. split; [apply Hload|reflexivity].
  - intros st now. unfold mount. rewrite Hload.
    eexists. split; [reflexivity|]. split; [reflexivity|].
    cbn [localStorage saveEffect setLocalStorage events setEvents].
    now rewrite lookup_insert_eq.
  - intros now ls Hnone. unfold loadEffect.
    cbn [localStorage initialState]. rewrite Hnone.
    eexists. split; reflexivity.
Qed.

Lemma step_events st a st' :
  step st a = Some st' ->
  events st' = events st \/
  exists now uuid e,
    a = AddEvent now uuid /\ id e = uuid /\ events st' = events st ++ [e].
Proof.
  destruct a; cbn [step]; intros H;
    try (injection H as <-; left; reflexivity).
  - unfold handleYearChange in H. destruct (parseInt year); [|discriminate].
    injection H as <-. left. reflexivity.
  - injection H as <-.
    destruct (allWhiteSpace (draft_title (newEvent st))) eqn:Eb.
    + left. unfold handleAddEvent. now rewrite trim_blank, Eb.
    + right. rewrite handleAddEvent_success by exact Eb.
      eexists now, uuid, (mkEvent uuid _ _ _ _).
      split; [reflexivity|]. split; reflexivity.
Qed.




(** C10. When an add succeeds (the title is not blank), the date of the new
    event is the text of the selected day, or of the clock's day when no
    day is selected; the date of the form plays no part: with any other
    date in the form the add gives the same state, and after a day is
    clicked the new event is on that day whatever date is typed. *)
Theorem handleAddEvent_date_from_selection :
  forall (now : Date) (uuid : string) (st : State),
    allWhiteSpace (draft_title (newEvent st)) = false ->
    (exists e,
       events (handleAddEvent now uuid st) = events st ++ [e] /\
       date e = match selectedDate st with
                | Some d => format_yyyy_MM_dd d
                | None => format_yyyy_MM_dd now
                end) /\
    (forall typed : string,
       handleAddEvent now uuid (changeDate typed st) = handleAddEvent now uuid st) /\
    (forall (day : Date) (typed : string),
       exists e,
         events (handleAddEvent now uuid (changeDate typed (dayClick day st)))
         = events st ++ [e] /\
         date e = format_yyyy_MM_dd day).
Proof.
  intros now uuid st Hb. split; [|split].
  - rewrite handleAddEvent_success by exact Hb.
    eexists. split; reflexivity.
  - intros typed. rewrite !handleAddEvent_success by exact Hb. reflexivity.
  - intros day typed. rewrite handleAddEvent_success by exact Hb.
    eexists. split; reflexivity.
Qed.

Lemma handleAddEvent_date_from_selection_witness :
  let now := newDate3 2024 0 1 in
  let st := changeTitle "Meeting" (changeDate "2024-03-15" (initialState now ∅)) in
  map date (events (handleAddEvent now "uuid-1" st)) = ["2024-01-01"%string] /\
  handleAddEvent now "uuid-1" (changeDate "2024-12-24" st)
  = handleAddEvent now "uuid-1" st.
Proof.
  cbv zeta.
  destruct (handleAddEvent_date_from_selection (newDate3 2024 0 1) "uuid-1"
              (changeTitle "Meeting" (changeDate "2024-03-15"
                 (initialState (newDate3 2024 0 1) ∅))) eq_refl)
    as ((e & He & Hd) & Hsame & _).
  split; [|apply Hsame].
  rewrite He. cbn [map events initialState changeTitle changeDate setNewEvent app].
  rewrite Hd. vm_compute. reflexivity.
Defined.

(** * Further properties *)

(** ** The selectors *)

Lemma months_monthNames : months = monthNames.
Proof. vm_compute. reflexivity. Qed.

(** Setting a field of a date to the value it has changes nothing. *)
Lemma MakeDay_fields d :
  MakeDate (MakeDay (getFullYear d) (getMonth d) (getDate d)) (TimeWithinDay d) = d.
Proof.
  destruct (fields_spec d) as (Hm & _ & He).
  rewrite MakeDay_in_year, He by exact Hm.
  apply MakeDate_Day_TimeWithinDay.
Qed.

Lemma setCurrentDate_same st : setCurrentDate (currentDate st) st = st.
Proof. now destruct st. Qed.

(** X1. The month selector shows [format(currentDate, "MMMM")]; choosing
    the month it shows leaves the state as it is, and the name it shows is
    one of the twelve options, at the index of the month. *)
Theorem handleMonthChange_displayed_month :
  forall st : State,
    let shown := format_MMMM (currentDate st) in
    In shown months /\
    nth_error months (Z.to_nat (getMonth (currentDate st))) = Some shown /\
    handleMonthChange shown st = st.
Proof.
  intros st shown.
  destruct (fields_spec (currentDate st)) as (Hm & _ & _).
  assert (Hshown : shown = nth (Z.to_nat (getMonth (currentDate st))) months EmptyString).
  { unfold shown, format_MMMM. now rewrite months_monthNames. }
  assert (Hlen : (Z.to_nat (getMonth (currentDate st)) < length months)%nat).
  { rewrite months_monthNames. cbn [length monthNames]. lia. }
  split; [rewrite Hshown; now apply nth_In|].
  split; [rewrite Hshown; now apply nth_error_nth'|].
  unfold handleMonthChange. rewrite Hshown, findIndex_months by exact Hm.
  unfold setMonth. fold (getFullYear (currentDate st)) (getDate (currentDate st)).
  rewrite MakeDay_fields. apply setCurrentDate_same.
Qed.

Lemma findIndex_none {A} (p : A -> bool) (l : list A) :
  (forall x, In x l -> p x = false) -> findIndex p l = -1.
Proof.
  induction l as [|a l IH]; intros H; [reflexivity|].
  cbn [findIndex]. rewrite (H a) by now left.
  rewrite IH by (intros x Hx; apply H; now right). reflexivity.
Qed.

(** X2. A name that is none of the twelve month names is not refused:
    [findIndex] gives -1 and [setMonth(-1)] moves the reference date to
    December of the year before, on the same day and at the same time. *)
Theorem handleMonthChange_unknown_name :
  forall (st : State) (month : string),
    ~ In month months ->
    let d := currentDate st in
    let d' := currentDate (handleMonthChange month st) in
    getFullYear d' = getFullYear d - 1 /\ getMonth d' = 11 /\
    getDate d' = getDate d /\ TimeWithinDay d' = TimeWithinDay d.
Proof.
  intros st month Hnot d d'.
  assert (Hi : findIndex (fun m => String.eqb m month) months = -1).
  { apply findIndex_none. intros x Hx. apply String.eqb_neq.
    intros ->. now apply Hnot. }
  assert (Hd' : d' = MakeDate (DayFromYMD (getFullYear d - 1) 11 (getDate d))
                             (TimeWithinDay d)).
  { subst d'. unfold handleMonthChange. rewrite Hi. reflexivity. }
  destruct (fields_spec d) as (Hm & Hdt & _).
  pose proof (DaysInMonth_bounds (getFullYear d) (getMonth d)) as Hn.
  pose proof (TimeWithinDay_bounds d) as Ht.
  destruct (fields_MakeDate (getFullYear d - 1) 11 (getDate d) (TimeWithinDay d))
    as (H1 & H2 & H3); [lia|rewrite DaysInMonth_december; lia|exact Ht|].
  rewrite Hd', H1, H2, H3, TimeWithinDay_MakeDate by exact Ht. auto.
Qed.

Lemma handleMonthChange_unknown_name_witness :
  let st := initialState (newDate3 2024 4 31) ∅ in
  let d' := currentDate (handleMonthChange "Febuary" st) in
  getFullYear d' = 2023 /\ getMonth d' = 11 /\ getDate d' = 31.
Proof.
  cbv zeta.
  assert (Hnot : ~ In "Febuary"%string months).
  { rewrite months_monthNames. cbn [In monthNames].
    intros H. repeat (destruct H as [H|H]; [discriminate H|]). exact H. }
  destruct (handleMonthChange_unknown_name
              (initialState (newDate3 2024 4 31) ∅) "Febuary" Hnot)
    as (H1 & H2 & H3 & _).
  rewrite H1, H2, H3. vm_compute. auto.
Defined.

(** *** Decimal numerals *)

Lemma decimalValue_of_uint_acc d : forall acc,
  decimalValue d (Z.pos acc) = Z.pos (Pos.of_uint_acc d acc).
Proof.
  induction d; intros acc; cbn [decimalValue Pos.of_uint_acc];
    try reflexivity; rewrite <- IHd; f_equal; lia.
Qed.

Lemma decimalValue_of_uint d : decimalValue d 0 = Z.of_N (Pos.of_uint d).
Proof.
  induction d; cbn [decimalValue Pos.of_uint]; try reflexivity;
    try exact IHd;
    change (10 * 0 + ?k) with k;
    match goal with
    | |- decimalValue _ ?k = _ =>
        change k with (Z.pos (Z.to_pos k)); rewrite decimalValue_of_uint_acc
    end; reflexivity.
Qed.

Lemma decimalValue_to_uint n : decimalValue (N.to_uint n) 0 = Z.of_N n.
Proof.
  rewrite decimalValue_of_uint. f_equal. apply Unsigned.of_to.
Qed.

(** Reading the digits of a numeral gives its value. *)
Lemma parseDigits_string_of_uint d : forall acc,
  parseDigits 10 (NilEmpty.string_of_uint d) acc = decimalValue d acc.
Proof.
  induction d; intros acc; cbn [NilEmpty.string_of_uint decimalValue];
    [reflexivity|..];
    cbn [parseDigits]; 
    match goal with
    | |- context [digitValue 10 ?c] =>
        let v := eval vm_compute in (digitValue 10 c) in
        change (digitValue 10 c) with v
    end; cbv iota; rewrite IHd; f_equal; lia.
Qed.

(** [parseInt] reads back what [toString] writes for an integer. *)
Lemma parseInt_toString n : parseInt (toString n) = Some n.
Proof.
  assert (Hpos : forall m, 0 <= m ->
            parseInt (NilZero.string_of_uint (N.to_uint (Z.abs_N m))) = Some m /\
            parseInt (String "-" (NilZero.string_of_uint (N.to_uint (Z.abs_N m))))
            = Some (- m)).
  { intros m Hm.
    pose proof (decimalValue_to_uint (Z.abs_N m)) as Hv.
    rewrite N2Z.inj_abs_N, Z.abs_eq in Hv by exact Hm.
    pose proof (parseDigits_string_of_uint (N.to_uint (Z.abs_N m)) 0) as Hp.
    rewrite Hv in Hp.
    destruct (N.to_uint (Z.abs_N m)) as [|d|d|d|d|d|d|d|d|d|d];
      cbn [decimalValue] in Hv;
      try (subst m; split; reflexivity);
      cbn [NilZero.string_of_uint NilEmpty.string_of_uint] in *;
      try (split; unfold parseInt; cbn [trimStart]; 
           repeat match goal with
           | |- context [isWhiteSpace ?c] =>
               let v := eval vm_compute in (isWhiteSpace c) in
               change (isWhiteSpace c) with v
           end; cbv iota;
           repeat match goal with
           | |- context [digitValue 10 ?c] =>
               let v := eval vm_compute in (digitValue 10 c) in
               change (digitValue 10 c) with v
           end; cbv iota; rewrite Hp; reflexivity).
    (* the numeral starts with 0: the next character decides the radix *)
    all: destruct d as [|d|d|d|d|d|d|d|d|d|d];
      cbn [NilEmpty.string_of_uint] in *;
      split; unfold parseInt; cbn [trimStart];
      repeat match goal with
      | |- context [isWhiteSpace ?c] =>
          let v := eval vm_compute in (isWhiteSpace c) in
          change (isWhiteSpace c) with v
      end; cbv iota;
      repeat match goal with
      | |- context [digitValue 10 ?c] =>
          let v := eval vm_compute in (digitValue 10 c) in
          change (digitValue 10 c) with v
      end; cbv iota; rewrite Hp; reflexivity. }
  unfold toString. destruct (n <? 0) eqn:E.
  - apply Z.ltb_lt in E.
    destruct (Hpos (- n) ltac:(lia)) as [_ H].
    rewrite Zabs2N.inj_opp, Z.opp_involutive in H.
    exact H.
  - apply Z.ltb_ge in E. now destruct (Hpos n E) as [H _].
Qed.

(** Every day of a year that lies whole inside the range of time values is
    inside it with a day to spare, also the days a date overflows to. *)
Lemma DayFromYMD_in_range y m dt :
  yearInRange y -> 0 <= m <= 11 -> 1 <= dt <= 31 ->
  -99999999 <= DayFromYMD y m dt <= 99999998.
Proof.
  unfold yearInRange, DayFromYMD. intros Hy Hm Hdt.
  destruct (Z.leb_spec m 1); div_lia.
Qed.

(** X3. The year selector offers [year.toString()] and [handleYearChange]
    reads it back with [parseInt]: for every year that lies whole inside
    the range of time values (-271820 to 275759; the years the selector
    offers are within ten of the clock's) the change goes through, the new
    reference date is a valid time value in that year, at the same time of
    day, and in the same month on the same day when that month of the year
    has the day.  Choosing the year the selector shows leaves the state as
    it is. *)
Theorem handleYearChange_toString :
  forall (st : State) (y : Z),
    yearInRange y ->
    let d := currentDate st in
    exists st',
      handleYearChange (toString y) st = Some st' /\
      getFullYear (currentDate st') = y /\
      TimeWithinDay (currentDate st') = TimeWithinDay d /\
      inTimeRange (currentDate st') /\
      (getDate d <= DaysInMonth y (getMonth d) ->
       getMonth (currentDate st') = getMonth d /\
       getDate (currentDate st') = getDate d) /\
      (y = getFullYear d -> st' = st).
Proof.
  intros st y Hy d.
  unfold handleYearChange. rewrite parseInt_toString.
  eexists. split; [reflexivity|].
  cbn [currentDate setCurrentDate]. fold d.
  destruct (fields_spec d) as (Hm & Hd & _).
  pose proof (DaysInMonth_bounds (getFullYear d) (getMonth d)) as Hn.
  destruct (fields_MakeDay_overflow y (getMonth d) (getDate d) (TimeWithinDay d)
              Hm ltac:(lia) (TimeWithinDay_bounds d)) as (Ht & Hin & Hout).
  change (setFullYear d y)
    with (MakeDate (MakeDay y (getMonth d) (getDate d)) (TimeWithinDay d)).
  split; [|split; [exact Ht|split; [|split]]].
  - destruct (Z_le_gt_dec (getDate d) (DaysInMonth y (getMonth d))) as [Hle|Hgt].
    + now destruct (Hin Hle).
    + destruct (Hout ltac:(lia)) as (H1 & _).
      assert (getMonth d <> 11).
      { intros E. rewrite E, DaysInMonth_december in Hgt. lia. }
      rewrite H1, Z.div_small by lia. lia.
  - unfold inTimeRange. rewrite Day_MakeDate by apply TimeWithinDay_bounds.
    rewrite MakeDay_in_year by exact Hm.
    apply DayFromYMD_in_range; [exact Hy|exact Hm|lia].
  - intros Hle. destruct (Hin Hle) as (_ & H2 & H3). now split.
  - intros ->. rewrite MakeDay_fields. apply setCurrentDate_same.
Qed.

Lemma handleYearChange_toString_witness :
  let st := initialState (newDate3 2024 1 29 + 36000000) ∅ in
  exists st',
    handleYearChange "2025" st = Some st' /\
    getFullYear (currentDate st') = 2025 /\
    TimeWithinDay (currentDate st') = 36000000 /\
    inTimeRange (currentDate st').
Proof.
  cbv zeta.
  destruct (handleYearChange_toString
              (initialState (newDate3 2024 1 29 + 36000000) ∅) 2025
              ltac:(unfold yearInRange; lia))
    as (st' & H1 & H2 & H3 & H4 & _).
  exists st'. split; [exact H1|]. split; [exact H2|]. split; [|exact H4].
  rewrite H3. reflexivity.
Defined.

(** X4. The year selector offers the 21 years from ten before to ten after
    the year of the clock, in ascending order: a year is offered exactly
    when it is within ten years of that year. *)
Theorem years_window :
  forall (now : Date),
    length (years now) = 21%nat /\
    (forall y, In y (years now) <->
               getFullYear now - 10 <= y <= getFullYear now + 10) /\
    StronglySorted Z.lt (years now) /\
    nth_error (years now) 10 = Some (getFullYear now).
Proof.
  intros now. unfold years.
  set (c := getFullYear now).
  split; [now rewrite length_map, length_seq|].
  split.
  - intros y. rewrite in_map_iff. split.
    + intros (i & <- & Hi). apply in_seq in Hi. lia.
    + intros Hy. exists (Z.to_nat (y - (c - 10))). split; [lia|].
      apply in_seq. lia.
  - split; [|cbn; f_equal; lia].
    cbn [seq map]. 
    repeat (constructor; [|repeat (constructor; [lia|]); constructor]).
    constructor.
Qed.

(** ** Navigation, step after step *)

Lemma addMonths_shift d a :
  let r := addMonths d a in
  12 * getFullYear r + getMonth r = 12 * getFullYear d + getMonth d + a /\
  0 <= getMonth r <= 11 /\
  getDate r = Z.min (getDate d) (DaysInMonth (getFullYear r) (getMonth r)) /\
  TimeWithinDay r = TimeWithinDay d.
Proof.
  intros r. subst r.
  destruct (addMonths_fields d a) as (H1 & H2 & H3 & H4).
  pose proof (Z.mod_pos_bound (getMonth d + a) 12 ltac:(lia)) as Hb.
  pose proof (Z.div_mod (getMonth d + a) 12 ltac:(lia)) as Hq.
  rewrite H1, H2. repeat split; lia.
Qed.

Lemma iter_addMonths a (k : nat) : forall d,
  let r := Nat.iter k (fun x => addMonths x a) d in
  12 * getFullYear r + getMonth r
    = 12 * getFullYear d + getMonth d + a * Z.of_nat k /\
  TimeWithinDay r = TimeWithinDay d /\
  getDate r <= getDate d.
Proof.
  induction k as [|k IH]; intros d r.
  - subst r. change (Nat.iter 0 (fun x => addMonths x a) d) with d.
    rewrite Z.mul_0_r. repeat split; lia.
  - subst r.
    change (Nat.iter (S k) (fun x => addMonths x a) d)
      with (addMonths (Nat.iter k (fun x => addMonths x a) d) a).
    rewrite Nat2Z.inj_succ, Z.mul_succ_r.
    destruct (IH d) as (I1 & I2 & I3). cbv zeta in I1, I2, I3.
    set (p := Nat.iter k (fun x => addMonths x a) d) in *.
    destruct (addMonths_shift p a) as (S1 & S2 & S3 & S4).
    cbv zeta in S1, S2, S3, S4.
    repeat split; lia.
Qed.

Lemma iter_nextMonth (k : nat) st :
  currentDate (Nat.iter k nextMonth st)
  = Nat.iter k (fun x => addMonths x 1) (currentDate st).
Proof.
  induction k as [|k IH]; [reflexivity|].
  change (Nat.iter (S k) nextMonth st) with (nextMonth (Nat.iter k nextMonth st)).
  change (Nat.iter (S k) (fun x => addMonths x 1) (currentDate st))
    with (addMonths (Nat.iter k (fun x => addMonths x 1) (currentDate st)) 1).
  now rewrite <- IH.
Qed.

Lemma iter_prevMonth (k : nat) st :
  currentDate (Nat.iter k prevMonth st)
  = Nat.iter k (fun x => addMonths x (-1)) (currentDate st).
Proof.
  induction k as [|k IH]; [reflexivity|].
  change (Nat.iter (S k) prevMonth st) with (prevMonth (Nat.iter k prevMonth st)).
  change (Nat.iter (S k) (fun x => addMonths x (-1)) (currentDate st))
    with (addMonths (Nat.iter k (fun x => addMonths x (-1)) (currentDate st)) (-1)).
  now rewrite <- IH.
Qed.

(** The date reached in [k] steps of one month against the date
    [addMonths] reaches at once. *)
Lemma iter_addMonths_direct a (k : nat) d :
  let r := Nat.iter k (fun x => addMonths x a) d in
  let direct := addMonths d (a * Z.of_nat k) in
  getFullYear r = getFullYear direct /\ getMonth r = getMonth direct /\
  TimeWithinDay r = TimeWithinDay direct /\
  getDate r <= getDate direct <= getDate d.
Proof.
  intros r direct.
  destruct (iter_addMonths a k d) as (I1 & I2 & I3). fold r in I1, I2, I3.
  destruct (addMonths_shift d (a * Z.of_nat k)) as (S1 & S2 & S3 & S4).
  fold direct in S1, S2, S3, S4.
  destruct (fields_spec r) as (Hm & Hd & _).
  assert (Hy : getFullYear r = getFullYear direct /\ getMonth r = getMonth direct) by lia.
  destruct Hy as [Hy Hmo].
  rewrite Hy, Hmo in Hd.
  repeat split; lia.
Qed.

(** X5. [k] presses of the next-month (previous-month) button show the
    month [k] months later (earlier), the month [addMonths] reaches at
    once, at the same time of day.  The day of the month is never later
    than the one [addMonths] gives, which is never later than the day the
    walk started from: a day cut short by a short month stays cut.  Twelve
    presses show the same month a year later; a press back after a press
    forward, or forward after back, shows the month it started from. *)
Theorem month_buttons_compose :
  forall (k : nat) (st : State),
    let d := currentDate st in
    let dn := currentDate (Nat.iter k nextMonth st) in
    let dp := currentDate (Nat.iter k prevMonth st) in
    let fb := currentDate (nextMonth (prevMonth st)) in
    (getFullYear dn = getFullYear (addMonths d (Z.of_nat k)) /\
     getMonth dn = getMonth (addMonths d (Z.of_nat k)) /\
     12 * getFullYear dn + getMonth dn
       = 12 * getFullYear d + getMonth d + Z.of_nat k /\
     TimeWithinDay dn = TimeWithinDay d /\
     getDate dn <= getDate (addMonths d (Z.of_nat k)) <= getDate d) /\
    (getFullYear dp = getFullYear (addMonths d (- Z.of_nat k)) /\
     getMonth dp = getMonth (addMonths d (- Z.of_nat k)) /\
     12 * getFullYear dp + getMonth dp
       = 12 * getFullYear d + getMonth d - Z.of_nat k /\
     TimeWithinDay dp = TimeWithinDay d /\
     getDate dp <= getDate (addMonths d (- Z.of_nat k)) <= getDate d) /\
    (k = 12%nat ->
     getFullYear dn = getFullYear d + 1 /\ getMonth dn = getMonth d) /\
    (getFullYear fb = getFullYear d /\ getMonth fb = getMonth d).
Proof.
  intros k st d dn dp fb.
  assert (Hn : dn = Nat.iter k (fun x => addMonths x 1) d) by apply iter_nextMonth.
  assert (Hp : dp = Nat.iter k (fun x => addMonths x (-1)) d) by apply iter_prevMonth.
  destruct (iter_addMonths_direct 1 k d) as (N1 & N2 & N3 & N4).
  destruct (iter_addMonths 1 k d) as (N5 & N6 & _).
  destruct (iter_addMonths_direct (-1) k d) as (P1 & P2 & P3 & P4).
  destruct (iter_addMonths (-1) k d) as (P5 & P6 & _).
  cbv zeta in *. rewrite <- Hn in *. rewrite <- Hp in *.
  replace (1 * Z.of_nat k) with (Z.of_nat k) in * by lia.
  replace (-1 * Z.of_nat k) with (- Z.of_nat k) in * by lia.
  destruct (fields_spec d) as (Hm & _ & _).
  destruct (fields_spec dn) as (Hmn & _ & _).
  split; [repeat split; lia|]. split; [repeat split; lia|]. split.
  - intros ->. change (Z.of_nat 12) with 12 in *. lia.
  - assert (Hfb : fb = addMonths (addMonths d (-1)) 1) by reflexivity.
    destruct (addMonths_shift d (-1)) as (A1 & A2 & _).
    destruct (addMonths_shift (addMonths d (-1)) 1) as (B1 & B2 & _).
    cbv zeta in *. rewrite <- Hfb in *. lia.
Qed.

(** ** The store over a session *)

(** What one action does to the store: a successful add appends an event
    and stores the new list, every other action leaves the events and
    [localStorage] alone. *)
Lemma step_store st a st' :
  step st a = Some st' ->
  (events st' = events st /\ localStorage st' = localStorage st) \/
  (exists e, events st' = events st ++ [e] /\
     localStorage st'
     = <[storageKey := stringifyEvents (events st')]> (localStorage st)).
Proof.
  destruct a; cbn [step]; intros H;
    try (injection H as <-; left; split; reflexivity).
  - unfold handleYearChange in H. destruct (parseInt year); [|discriminate].
    injection H as <-. left. split; reflexivity.
  - injection H as <-.
    destruct (allWhiteSpace (draft_title (newEvent st))) eqn:Eb.
    + left. unfold handleAddEvent. rewrite trim_blank, Eb. split; reflexivity.
    + right. rewrite handleAddEvent_success by exact Eb.
      eexists. split; reflexivity.
Qed.

Lemma step_persisted st a st' :
  persisted st -> step st a = Some st' -> persisted st'.
Proof.
  unfold persisted. intros Hp Hs.
  destruct (step_store _ _ _ Hs) as [[He Hl]|(e & He & Hl)].
  - now rewrite Hl, He.
  - rewrite Hl. apply lookup_insert_eq.
Qed.

(** X6. Over any sequence of user actions the events only grow: the
    events of the start are still there, unchanged and in their places,
    followed by at most one new event for each add action.  No action
    edits or removes an event. *)
Theorem run_events_grow :
  forall (actions : list Action) (st st' : State),
    run st actions = Some st' ->
    exists added,
      events st' = events st ++ added /\
      (length added <= addActions actions)%nat.
Proof.
  induction actions as [|a l IH]; intros st st' Hrun.
  - injection Hrun as <-. exists []. now rewrite app_nil_r.
  - cbn [run] in Hrun. destruct (step st a) as [st1|] eqn:Hs; [|discriminate].
    destruct (IH _ _ Hrun) as (added & He & Hlen).
    destruct (step_events _ _ _ Hs) as [H1|(now & uuid & e & -> & _ & H1)].
    + exists added. rewrite He, H1. split; [reflexivity|].
      unfold addActions in *. cbn [List.filter].
      destruct a; cbn [length]; lia.
    + exists (e :: added). rewrite He, H1, <- app_assoc. split; [reflexivity|].
      unfold addActions in *. cbn [List.filter length]. lia.
Qed.

Lemma run_events_grow_witness :
  let st := changeTitle "Meeting" (initialState (newDate3 2024 2 1) ∅) in
  let actions := [NextMonth; AddEvent (newDate3 2024 2 1) "uuid-1"; ExportAsPDF;
                  ChangeTitle "  "; AddEvent (newDate3 2024 2 1) "uuid-2"] in
  exists st', run st actions = Some st' /\ length (events st') = 1%nat.
Proof.
  cbv zeta. eexists. split; [vm_compute; reflexivity|].
  match goal with
  | |- length (events ?s) = _ =>
      destruct (run_events_grow
                  [NextMonth; AddEvent (newDate3 2024 2 1) "uuid-1"; ExportAsPDF;
                   ChangeTitle "  "; AddEvent (newDate3 2024 2 1) "uuid-2"]
                  (changeTitle "Meeting" (initialState (newDate3 2024 2 1) ∅)) s)
        as (added & _ & _); [vm_compute; reflexivity|]
  end.
  reflexivity.
Defined.

Lemma run_persisted actions : forall st st',
  persisted st -> run st actions = Some st' -> persisted st'.
Proof.
  induction actions as [|a l IH]; intros st st' Hp Hrun.
  - now injection Hrun as <-.
  - cbn [run] in Hrun. destruct (step st a) as [st1|] eqn:Hs; [|discriminate].
    apply (IH st1 st'); [|exact Hrun]. exact (step_persisted st a st1 Hp Hs).
Qed.

Lemma mount_persisted_events now (ls : gmap string string) evs :
  ls !! storageKey = Some (stringifyEvents evs) ->
  exists st, mount now ls = Some st /\ events st = evs.
Proof.
  intros H. unfold mount, loadEffect. cbn [localStorage initialState].
  rewrite H, truthy_stringifyEvents, parseEvents_stringifyEvents.
  eexists. split; reflexivity.
Qed.

(** X7. Mounting leaves the stored text in step with the events: it reads
    the events from the store (none when nothing is stored) and writes
    them back, touching no other key of [localStorage]. *)
Theorem mount_persists :
  forall (now : Date) (ls : gmap string string) (st : State),
    mount now ls = Some st ->
    persisted st /\
    currentDate st = now /\
    (ls !! storageKey = None -> events st = []) /\
    (forall k, k <> storageKey -> localStorage st !! k = ls !! k).
Proof.
  intros now ls st Hm. unfold mount in Hm.
  destruct (loadEffect (initialState now ls)) as [st1|] eqn:Hl; [|discriminate].
  injection Hm as <-.
  split; [unfold persisted; cbn [localStorage events saveEffect setLocalStorage setEvents];
          apply lookup_insert_eq|].
  split; [reflexivity|]. split.
  - intros Hnone. unfold loadEffect in Hl. cbn [localStorage initialState] in Hl.
    rewrite Hnone in Hl. injection Hl as <-. reflexivity.
  - intros k Hk.
    cbn [localStorage events saveEffect setLocalStorage setEvents initialState].
    now rewrite !lookup_insert_ne.
Qed.

Lemma mount_persists_witness :
  exists st, mount (newDate3 2024 2 1) ∅ = Some st /\ persisted st /\ events st = [].
Proof.
  assert (Hm : mount (newDate3 2024 2 1) ∅
               = Some (saveEffect (setEvents []
                         (saveEffect (initialState (newDate3 2024 2 1) ∅))))).
  { unfold mount, loadEffect. cbn [localStorage initialState].
    rewrite lookup_empty. reflexivity. }
  eexists. split; [exact Hm|].
  destruct (mount_persists _ _ _ Hm) as (Hp & _ & He & _).
  split; [exact Hp|]. apply He. apply lookup_empty.
Defined.

(** X8. The stored text follows the events through a whole session: if it
    is the text of the events at the start, it is the text of the events
    after any sequence of the actions of [Action] (the arrows, Today, the
    two selectors, a click on a day, the dialog and its form, an add, the
    two exports), so mounting the component again on the store shows
    exactly the events the session ended with. *)
Theorem run_persists :
  forall (actions : list Action) (st st' : State),
    persisted st ->
    run st actions = Some st' ->
    persisted st' /\
    (forall now, exists st'',
       mount now (localStorage st') = Some st'' /\ events st'' = events st').
Proof.
  intros actions st st' Hp Hrun.
  pose proof (run_persisted actions st st' Hp Hrun) as Hp'.
  split; [exact Hp'|].
  intros now. now apply mount_persisted_events.
Qed.

Lemma run_persists_witness :
  let st := saveEffect (changeTitle "Meeting" (initialState (newDate3 2024 2 1) ∅)) in
  let actions := [DayClick (newDate3 2024 2 15);
                  AddEvent (newDate3 2024 2 1) "uuid-1"; PrevMonth] in
  exists st', run st actions = Some st' /\ persisted st' /\
    exists st'', mount 0 (localStorage st') = Some st'' /\ events st'' = events st'.
Proof.
  cbv zeta.
  set (st := saveEffect (changeTitle "Meeting" (initialState (newDate3 2024 2 1) ∅))).
  set (actions := [DayClick (newDate3 2024 2 15);
                   AddEvent (newDate3 2024 2 1) "uuid-1"; PrevMonth]).
  assert (Hp : persisted st) by apply lookup_insert_eq.
  destruct (run st actions) as [st'|] eqn:Hrun; [|discriminate Hrun].
  exists st'. split; [reflexivity|].
  destruct (run_persists actions st st' Hp Hrun) as (Hp' & Hm).
  split; [exact Hp'|]. apply Hm.
Defined.

(** ** Adding from a day cell *)

(** X9. Clicking a day cell, typing a title and adding puts the new event
    at the end of the events shown in that cell: it carries the generated
    id and the typed title, the dialog closes and the form is emptied.
    The cell of a day with another date text shows what it showed. *)
Theorem dayClick_add_shows_in_cell :
  forall (now day : Date) (uuid t : string) (st : State),
    allWhiteSpace t = false ->
    let st' := handleAddEvent now uuid (changeTitle t (dayClick day st)) in
    (exists e,
       getEventsForDate st' day = getEventsForDate st day ++ [e] /\
       id e = uuid /\ title e = t /\ date e = format_yyyy_MM_dd day) /\
    eventDialogOpen st' = false /\
    newEvent st' = blankDraft /\
    (forall other,
       format_yyyy_MM_dd other <> format_yyyy_MM_dd day ->
       getEventsForDate st' other = getEventsForDate st other).
Proof.
  intros now day uuid t st Hb st'. subst st'.
  rewrite handleAddEvent_success by exact Hb.
  unfold getEventsForDate.
  cbn [events saveEffect setLocalStorage toast setEventDialogOpen setNewEvent
       setEvents dayClick changeTitle setSelectedDate selectedDate newEvent
       eventDialogOpen draft_title draft_description draft_color].
  split; [|split; [reflexivity|split; [reflexivity|]]].
  - eexists. rewrite List.filter_app. cbn [List.filter date].
    rewrite String.eqb_refl. split; [reflexivity|]. repeat split.
  - intros other Hne. rewrite List.filter_app. cbn [List.filter date].
    apply not_eq_sym, String.eqb_neq in Hne. rewrite Hne. apply app_nil_r.
Qed.

Lemma dayClick_add_shows_in_cell_witness :
  let day := newDate3 2024 2 15 in
  let st := initialState (newDate3 2024 2 1) ∅ in
  let st' := handleAddEvent (newDate3 2024 2 1) "uuid-1"
               (changeTitle "Meeting" (dayClick day st)) in
  length (getEventsForDate st' day) = 1%nat /\
  getEventsForDate st' (newDate3 2024 2 16) = [].
Proof.
  cbv zeta.
  destruct (dayClick_add_shows_in_cell (newDate3 2024 2 1) (newDate3 2024 2 15)
              "uuid-1" "Meeting" (initialState (newDate3 2024 2 1) ∅) eq_refl)
    as ((e & He & _) & _ & _ & Hother).
  split.
  - rewrite He, length_app. reflexivity.
  - rewrite Hother; [reflexivity|]. vm_compute. discriminate.
Defined.

(** ** Days and their date texts *)

(** Two dates are the same day exactly when they agree on year, month and
    day of the month. *)
Lemma isSameDay_fields a b :
  isSameDay a b = true <->
  getFullYear a = getFullYear b /\ getMonth a = getMonth b /\ getDate a = getDate b.
Proof.
  unfold isSameDay, getTime, startOfDay, setHours4.
  change (MakeTime 0 0 0 0) with 0.
  rewrite Z.eqb_eq.
  destruct (fields_spec a) as (_ & _ & Ha). destruct (fields_spec b) as (_ & _ & Hb).
  split.
  - intros H. assert (HD : Day a = Day b) by (unfold MakeDate, msPerDay in H; lia).
    unfold getFullYear, getMonth, getDate, YearFromTime, MonthFromTime, DateFromTime.
    now rewrite HD.
  - intros (H1 & H2 & H3). rewrite <- Ha, <- Hb, H1, H2, H3. reflexivity.
Qed.

(** The two digits of a month or a day, read back. *)
Lemma parseDigits_two_digits n rest :
  1 <= n <= 31 ->
  parseDigits 10 (addLeadingZeros n 2 ++ String "-" rest) 0 = n /\
  parseDigits 10 (addLeadingZeros n 2) 0 = n.
Proof.
  intros H.
  assert (Hc : n = 1 \/ n = 2 \/ n = 3 \/ n = 4 \/ n = 5 \/ n = 6 \/ n = 7 \/
               n = 8 \/ n = 9 \/ n = 10 \/ n = 11 \/ n = 12 \/ n = 13 \/ n = 14 \/
               n = 15 \/ n = 16 \/ n = 17 \/ n = 18 \/ n = 19 \/ n = 20 \/
               n = 21 \/ n = 22 \/ n = 23 \/ n = 24 \/ n = 25 \/ n = 26 \/
               n = 27 \/ n = 28 \/ n = 29 \/ n = 30 \/ n = 31) by lia.
  repeat (destruct Hc as [->|Hc]; [split; vm_compute; reflexivity|]).
  subst n. split; vm_compute; reflexivity.
Qed.

(** Within one year, the text yyyy-MM-dd tells the day. *)
Lemma format_yyyy_MM_dd_same_year a b :
  getFullYear a = getFullYear b ->
  format_yyyy_MM_dd a = format_yyyy_MM_dd b ->
  getMonth a = getMonth b /\ getDate a = getDate b.
Proof.
  intros Hy H. unfold format_yyyy_MM_dd in H. cbv zeta in H. rewrite Hy in H.
  apply String.app_inj in H.
  change ("-" ++ ?x)%string with (String "-" x) in H.
  injection H as H.
  destruct (fields_spec a) as (Hma & Hda & _).
  destruct (fields_spec b) as (Hmb & Hdb & _).
  pose proof (DaysInMonth_bounds (getFullYear a) (getMonth a)).
  pose proof (DaysInMonth_bounds (getFullYear b) (getMonth b)).
  assert (Hm : getMonth a = getMonth b).
  { pose proof (f_equal (fun s => parseDigits 10 s 0) H) as Hp. cbv beta in Hp.
    change ("-" ++ ?x)%string with (String "-" x) in Hp.
    destruct (parseDigits_two_digits (getMonth a + 1)
                (addLeadingZeros (getDate a) 2) ltac:(lia)) as [Ea _].
    destruct (parseDigits_two_digits (getMonth b + 1)
                (addLeadingZeros (getDate b) 2) ltac:(lia)) as [Eb _].
    rewrite Ea, Eb in Hp. lia. }
  split; [exact Hm|].
  rewrite Hm in H. apply String.app_inj in H.
  change ("-" ++ ?x)%string with (String "-" x) in H. injection H as H.
  pose proof (f_equal (fun s => parseDigits 10 s 0) H) as Hp. cbv beta in Hp.
  destruct (parseDigits_two_digits (getDate a) EmptyString ltac:(lia)) as [_ Ea].
  destruct (parseDigits_two_digits (getDate b) EmptyString ltac:(lia)) as [_ Eb].
  rewrite Ea, Eb in Hp. exact Hp.
Qed.

(** X10. Within one year an event is shown on one day only: if the cells
    of two dates of the same year both list an event, the two dates are the
    same calendar day.  (Both views show days of a single year.) *)
Theorem getEventsForDate_one_day :
  forall (st : State) (a b : Date) (e : Event),
    getFullYear a = getFullYear b ->
    In e (getEventsForDate st a) ->
    In e (getEventsForDate st b) ->
    isSameDay a b = true.
Proof.
  intros st a b e Hy Ha Hb.
  unfold getEventsForDate in Ha, Hb.
  apply filter_In in Ha as [_ Ha]. apply filter_In in Hb as [_ Hb].
  apply String.eqb_eq in Ha, Hb.
  apply isSameDay_fields. split; [exact Hy|].
  apply format_yyyy_MM_dd_same_year; [exact Hy|congruence].
Qed.

Lemma getEventsForDate_one_day_witness :
  let st := handleAddEvent 0 "uuid-1"
              (changeTitle "Meeting" (dayClick (newDate3 2024 2 15)
                 (initialState (newDate3 2024 2 1) ∅))) in
  isSameDay (newDate3 2024 2 15) (newDate3 2024 2 15 + 3600000) = true.
Proof.
  cbv zeta.
  apply (getEventsForDate_one_day
           (handleAddEvent 0 "uuid-1"
              (changeTitle "Meeting" (dayClick (newDate3 2024 2 15)
                 (initialState (newDate3 2024 2 1) ∅))))
           (newDate3 2024 2 15) (newDate3 2024 2 15 + 3600000)
           (mkEvent "uuid-1" "2024-03-15" "Meeting" EmptyString "#4f46e5")).
  - vm_compute. reflexivity.
  - vm_compute. left. reflexivity.
  - vm_compute. left. reflexivity.
Defined.

(** ** The month view *)

(** [format(day, "d")] is the number of the day, as [toString] writes it. *)
Lemma addLeadingZeros_1 n : 0 <= n -> addLeadingZeros n 1 = toString n.
Proof.
  intros Hn. unfold addLeadingZeros.
  replace (n <? 0) with false by (symmetry; apply Z.ltb_ge; exact Hn).
  rewrite Z.abs_eq by exact Hn.
  unfold padStart, toString.
  replace (n <? 0) with false by (symmetry; apply Z.ltb_ge; exact Hn).
  destruct (N.to_uint (Z.abs_N n)); reflexivity.
Qed.

Lemma WeekDay_MakeDate K : WeekDay (MakeDate K 0) = (K + 4) mod 7.
Proof.
  unfold WeekDay. rewrite Day_MakeDate by (unfold msPerDay; lia). reflexivity.
Qed.

Lemma nth_error_midnights K n i :
  (i < n)%nat -> nth_error (midnights K n) i = Some (MakeDate (K + Z.of_nat i) 0).
Proof.
  intros Hi. rewrite <- (midnights_nth n K i Hi).
  apply nth_error_nth'. now rewrite midnights_length.
Qed.


(** The cells of the month view, with the days as consecutive midnights. *)
Lemma renderCalendarGrid_eq clock st :
  let d := currentDate st in
  let K := DayFromYMD (getFullYear d) (getMonth d) 1 in
  renderCalendarGrid clock st =
  Some (map HeaderCell daysOfWeek ++
        map EmptyCell (seq 0 (Z.to_nat ((K + 4) mod 7))) ++
        imap (fun i day =>
               DayCellOf
                 {| cell_day := day;
                    cell_isToday := isSameDay day (clock i);
                    cell_isCurrentMonth := isSameMonth day d;
                    cell_isWeekendDay := isWeekend day;
                    cell_label := format_d day;
                    cell_dayEvents := getEventsForDate st day |})
            (midnights K (Z.to_nat (DaysInMonth (getFullYear d) (getMonth d))))).
Proof.
  intros d K.
  unfold renderCalendarGrid. rewrite getDaysInMonth_eq. cbv zeta. fold d.
  destruct (fields_spec d) as (Hm & _ & _).
  rewrite monthDates_midnights by exact Hm.
  rewrite getFirstDayOfMonth_eq. reflexivity.
Qed.


Lemma Day_fields a K :
  Day a = K ->
  getFullYear (MakeDate K 0) = getFullYear a /\
  getMonth (MakeDate K 0) = getMonth a /\
  getDate (MakeDate K 0) = getDate a.
Proof.
  intros <-.
  unfold getFullYear, getMonth, getDate, YearFromTime, MonthFromTime, DateFromTime.
  rewrite Day_MakeDate by (unfold msPerDay; lia). auto.
Qed.

(** The day of [a] lies in the displayed month exactly when [a] is of the
    month of the reference date. *)
Lemma isSameMonth_range a d :
  let K := DayFromYMD (getFullYear d) (getMonth d) 1 in
  isSameMonth a d = true <->
  K <= Day a < K + DaysInMonth (getFullYear d) (getMonth d).
Proof.
  intros K. unfold isSameMonth.
  rewrite andb_true_iff, !Z.eqb_eq.
  destruct (fields_spec a) as (Hma & Hda & Ha).
  destruct (fields_spec d) as (Hmd & Hdd & Hd).
  split.
  - intros [Hy Hm]. rewrite <- Ha, Hy, Hm. unfold K.
    rewrite (DayFromYMD_diff _ _ (getDate a) 1). rewrite Hy, Hm in Hda. lia.
  - intros Hr.
    destruct (fields_monthDate (getFullYear d) (getMonth d) (Day a - K) Hmd ltac:(lia))
      as (Hy' & Hm' & _).
    fold K in Hy', Hm'. replace (K + (Day a - K)) with (Day a) in Hy', Hm' by lia.
    destruct (Day_fields a (Day a) eq_refl) as (E1 & E2 & _).
    split; congruence.
Qed.

Lemma highlightedDays_app l1 l2 :
  highlightedDays (l1 ++ l2) = highlightedDays l1 ++ highlightedDays l2.
Proof. apply flat_map_app. Qed.

Lemma isSameDay_Day a b : isSameDay a b = true <-> Day a = Day b.
Proof.
  unfold isSameDay, getTime, startOfDay, setHours4.
  change (MakeTime 0 0 0 0) with 0.
  rewrite Z.eqb_eq. unfold MakeDate, msPerDay. lia.
Qed.

(** The marked cells, when every reading of the clock is of the day of
    [today]. *)
Lemma highlightedDays_dayCells st d today l : forall clock,
  (forall e, In e l -> exists D, e = MakeDate D 0) ->
  (forall i, (i < length l)%nat -> isSameDay (clock i) today = true) ->
  highlightedDays
    (imap (fun i day =>
             DayCellOf
               {| cell_day := day;
                  cell_isToday := isSameDay day (clock i);
                  cell_isCurrentMonth := isSameMonth day d;
                  cell_isWeekendDay := isWeekend day;
                  cell_label := format_d day;
                  cell_dayEvents := getEventsForDate st day |}) l)
  = List.filter (fun e => e =? MakeDate (Day today) 0) l.
Proof.
  induction l as [|e l IH]; intros clock Hl Hclock; [reflexivity|].
  cbn [imap List.filter]. unfold highlightedDays in *.
  cbn [flat_map cell_isToday cell_day].
  specialize (IH (fun i => clock (S i))).
  cbv beta in IH. unfold compose.
  rewrite IH;
    [|intros e' He'; apply Hl; now right
     |intros i Hi; apply Hclock; cbn [length]; lia].
  destruct (Hl e (or_introl eq_refl)) as [D ->].
  rewrite isSameDay_midnight.
  rewrite (proj1 (isSameDay_Day (clock 0%nat) today)
             (Hclock 0%nat ltac:(cbn [length]; lia))).
  destruct (MakeDate D 0 =? MakeDate (Day today) 0); reflexivity.
Qed.

(** X12. Today in the month view.  The clock is read once for each day
    cell, at most 31 times; when all these readings are of one day [today]
    (no midnight passes while the cells are built): if today is of the
    displayed month, exactly one cell is marked as today, the cell of
    today's day; in every other month no cell is marked.  After the button
    Today, pressed at a time [click] of the same day, exactly one cell is
    marked, whatever month was displayed. *)
Theorem renderCalendarGrid_today :
  forall (clock : nat -> Date) (st : State) (today : Date),
    (forall i, (i < 31)%nat -> isSameDay (clock i) today = true) ->
    (exists cells,
        renderCalendarGrid clock st = Some cells /\
        highlightedDays cells
        = if isSameMonth today (currentDate st) then [startOfDay today] else []) /\
    (forall click,
        isSameDay click today = true ->
        exists cells,
          renderCalendarGrid clock (goToToday click st) = Some cells /\
          highlightedDays cells = [startOfDay today]).
Proof.
  assert (Hmain : forall clock st today,
             (forall i, (i < 31)%nat -> isSameDay (clock i) today = true) ->
             exists cells,
               renderCalendarGrid clock st = Some cells /\
               highlightedDays cells
               = if isSameMonth today (currentDate st) then [startOfDay today] else []).
  { intros clock st today Hclock.
    rewrite (renderCalendarGrid_eq clock st).
    set (d := currentDate st). set (y := getFullYear d). set (m := getMonth d).
    set (K := DayFromYMD y m 1).
    pose proof (DaysInMonth_bounds y m) as Hdim.
    eexists. split; [reflexivity|].
    rewrite !highlightedDays_app.
    replace (highlightedDays (map HeaderCell daysOfWeek)) with (@nil Date) by reflexivity.
    replace (highlightedDays (map EmptyCell (seq 0 (Z.to_nat ((K + 4) mod 7)))))
      with (@nil Date)
      by (induction (seq 0 (Z.to_nat ((K + 4) mod 7))); [reflexivity|assumption]).
    cbn [app].
    rewrite (highlightedDays_dayCells st d today).
    2:{ intros e He. destruct (proj1 (midnights_In _ _ _) He) as (i & _ & ->). eauto. }
    2:{ intros i Hi. rewrite midnights_length in Hi. apply Hclock. lia. }
    pose proof (isSameMonth_range today d) as Hr. cbv zeta in Hr. fold y m K in Hr.
    destruct (isSameMonth today d).
    - rewrite startOfDay_eq. apply midnights_filter_day.
      destruct Hr as [Hr _]. specialize (Hr eq_refl). lia.
    - apply filter_none. intros e He.
      destruct (proj1 (midnights_In _ _ _) He) as (i & Hi & ->).
      apply Z.eqb_neq. intros E.
      assert (K + i = Day today) by (unfold MakeDate, msPerDay in E; lia).
      destruct Hr as [_ Hr]. assert (false = true); [apply Hr; lia|discriminate]. }
  intros clock st today Hclock. split; [apply Hmain; exact Hclock|].
  intros click Hclick.
  destruct (Hmain clock (goToToday click st) today Hclock) as (cells & Hc & Hh).
  exists cells. split; [exact Hc|].
  rewrite Hh.
  change (currentDate (goToToday click st)) with click.
  replace (isSameMonth today click) with true; [reflexivity|].
  symmetry. apply isSameMonth_range.
  apply isSameDay_Day in Hclick. rewrite <- Hclick.
  destruct (fields_spec click) as (_ & Hd & Hday). rewrite <- Hday.
  rewrite (DayFromYMD_diff _ _ (getDate click) 1). lia.
Qed.

Lemma renderCalendarGrid_today_witness :
  let now := newDate3 2024 1 10 + 36000000 in
  let clock := fun i : nat => now + Z.of_nat i in
  let st := initialState (newDate3 2023 11 25) ∅ in
  (exists cells,
      renderCalendarGrid clock st = Some cells /\ highlightedDays cells = []) /\
  (exists cells,
      renderCalendarGrid clock (goToToday now st) = Some cells /\
      highlightedDays cells = [newDate3 2024 1 10]).
Proof.
  cbv zeta.
  assert (Hclock : forall i, (i < 31)%nat ->
            isSameDay (newDate3 2024 1 10 + 36000000 + Z.of_nat i)
                      (newDate3 2024 1 10 + 36000000) = true).
  { intros i Hi. apply isSameDay_Day. unfold Day.
    change (newDate3 2024 1 10) with (19763 * msPerDay).
    unfold msPerDay. div_lia. }
  destruct (renderCalendarGrid_today
              (fun i : nat => newDate3 2024 1 10 + 36000000 + Z.of_nat i)
              (initialState (newDate3 2023 11 25) ∅)
              (newDate3 2024 1 10 + 36000000) Hclock) as [H1 H2].
  split.
  - exact H1.
  - apply (H2 (newDate3 2024 1 10 + 36000000)). apply isSameDay_Day. reflexivity.
Defined.

(** ** The year view *)

Lemma newDate_eq year m :
  0 <= m <= 11 ->
  newDate year m 1 = MakeDate (DayFromYMD (constructedYear year) m 1) 0.
Proof.
  intros Hm. unfold newDate, constructedYear. cbv zeta.
  rewrite MakeDay_in_year by exact Hm. reflexivity.
Qed.

Lemma renderMonthPanel_eq today st year mi :
  (mi < 12)%nat ->
  renderMonthPanel today st year mi
  = Some (panelOfMonth today st (constructedYear year) mi).
Proof.
  intros Hmi. unfold renderMonthPanel. cbv zeta.
  assert (Hm : 0 <= Z.of_nat mi <= 11) by lia.
  rewrite newDate_eq by exact Hm.
  set (Y := constructedYear year). set (m := Z.of_nat mi).
  pose proof (DaysInMonth_bounds Y m) as Hdim.
  destruct (fields_MakeDate Y m 1 0 Hm ltac:(lia) ltac:(unfold msPerDay; lia))
    as (Hy & Hmo & _).
  set (monthDate := MakeDate (DayFromYMD Y m 1) 0) in *.
  unfold getDaysInMonthForYear. cbv zeta.
  rewrite eachDayOfInterval_month, Hy, Hmo.
  rewrite monthDates_midnights by exact Hm.
  unfold getDay. rewrite startOfMonth_eq, WeekDay_MakeDate, firstDayNumber_eq, Hy, Hmo.
  unfold format_MMMM. rewrite Hmo. unfold m. rewrite Nat2Z.id.
  reflexivity.
Qed.

Lemma renderMonthPanels_eq today st year l :
  Forall (fun mi => (mi < 12)%nat) l ->
  renderMonthPanels today st year l
  = Some (map (panelOfMonth today st (constructedYear year)) l).
Proof.
  induction 1 as [|mi l Hmi _ IH]; [reflexivity|].
  cbn [renderMonthPanels map]. rewrite renderMonthPanel_eq by exact Hmi.
  rewrite IH. reflexivity.
Qed.

Lemma renderYearCalendar_eq now st :
  renderYearCalendar now st
  = Some (map (panelOfMonth now st (constructedYear (getFullYear (currentDate st))))
              (seq 0 12)).
Proof.
  unfold renderYearCalendar. cbv zeta. apply renderMonthPanels_eq.
  apply List.Forall_forall. intros mi Hmi. apply in_seq in Hmi. lia.
Qed.

Lemma panelDays_panelOfMonth today st Y mi :
  panelDays (panelOfMonth today st Y mi)
  = midnights (DayFromYMD Y (Z.of_nat mi) 1) (Z.to_nat (DaysInMonth Y (Z.of_nat mi))).
Proof.
  unfold panelDays, panelOfMonth. cbv zeta. cbn [panel_cells].
  rewrite !flat_map_app.
  replace (flat_map _ (map MiniHeader miniDaysOfWeek)) with (@nil Date) by reflexivity.
  match goal with
  | |- context [flat_map ?f (map MiniEmpty ?l)] =>
      replace (flat_map f (map MiniEmpty l)) with (@nil Date)
        by (induction l; [reflexivity|assumption])
  end.
  cbn [app].
  induction (midnights _ _) as [|e l IH]; [reflexivity|].
  cbn [map flat_map]. rewrite IH. reflexivity.
Qed.

Lemma panelOffset_panelOfMonth today st Y mi :
  panelOffset (panelOfMonth today st Y mi)
  = Z.to_nat ((DayFromYMD Y (Z.of_nat mi) 1 + 4) mod 7).
Proof.
  unfold panelOffset, panelOfMonth. cbv zeta. cbn [panel_cells].
  rewrite !List.filter_app, !length_app.
  replace (List.filter _ (map MiniHeader miniDaysOfWeek)) with (@nil MiniGridCell)
    by reflexivity.
  match goal with
  | |- context [List.filter ?f (map (miniCellOf ?a ?b) ?l)] =>
      replace (List.filter f (map (miniCellOf a b) l)) with (@nil MiniGridCell)
        by (induction l; [reflexivity|assumption])
  end.
  match goal with
  | |- context [List.filter ?f (map MiniEmpty ?l0)] =>
      replace (List.filter f (map MiniEmpty l0)) with (map MiniEmpty l0)
        by (induction l0 as [|x l1 IH]; [reflexivity|cbn [map List.filter]; now rewrite <- IH])
  end.
  cbn [length]. rewrite length_map, length_seq. lia.
Qed.

Lemma midnights_app K a b :
  midnights K (a + b) = midnights K a ++ midnights (K + Z.of_nat a) b.
Proof.
  revert K. induction a as [|a IH]; intros K.
  - cbn [Nat.add]. replace (K + Z.of_nat 0) with K by lia. reflexivity.
  - cbn [Nat.add]. rewrite !midnights_cons, IH. cbn [app].
    replace (K + 1 + Z.of_nat a) with (K + Z.of_nat (S a)) by lia. reflexivity.
Qed.

(** The first day of a month follows the last day of the month before, in
    December into the next year. *)
Lemma MakeDay_next_month Y k :
  0 <= k <= 11 -> MakeDay Y (k + 1) 1 = MakeDay Y k 1 + DaysInMonth Y k.
Proof.
  intros Hk. unfold MakeDay. cbv zeta.
  rewrite (DayFromYMD_diff _ _ 1 0), DayFromYMD_month_end by exact Hk.
  replace (k / 12) with 0 by div_lia. replace (k mod 12) with k by div_lia.
  rewrite Z.add_0_r.
  rewrite (DayFromYMD_diff Y k (DaysInMonth Y k) 1). lia.
Qed.

Lemma year_length Y :
  DayFromYMD (Y + 1) 0 1 - DayFromYMD Y 0 1 = if InLeapYear Y then 366 else 365.
Proof.
  unfold DayFromYMD. cbn [Z.leb Z.compare]. cbv zeta.
  replace (Y + 1 - 1) with Y by lia.
  change ((153 * (0 + 10) + 2) / 5) with 306.
  leap_cases Y; div_lia.
Qed.

Lemma MakeDay_month_start_ge Y k :
  (k <= 12)%nat -> DayFromYMD Y 0 1 <= MakeDay Y (Z.of_nat k) 1.
Proof.
  induction k as [|k IH]; intros Hk.
  - change (Z.of_nat 0) with 0. rewrite MakeDay_in_year by lia. lia.
  - replace (Z.of_nat (S k)) with (Z.of_nat k + 1) by lia.
    rewrite MakeDay_next_month by lia.
    pose proof (DaysInMonth_bounds Y (Z.of_nat k)). specialize (IH ltac:(lia)). lia.
Qed.

Lemma year_midnights today st Y k :
  (k <= 12)%nat ->
  concat (map (fun mi => panelDays (panelOfMonth today st Y mi)) (seq 0 k))
  = midnights (DayFromYMD Y 0 1) (Z.to_nat (MakeDay Y (Z.of_nat k) 1 - DayFromYMD Y 0 1)).
Proof.
  induction k as [|k IH]; intros Hk.
  - cbn [seq map concat]. change (Z.of_nat 0) with 0. rewrite MakeDay_in_year by lia.
    rewrite Z.sub_diag. reflexivity.
  - rewrite seq_S, map_app, concat_app, IH by lia.
    cbn [Nat.add map concat]. rewrite app_nil_r, panelDays_panelOfMonth.
    pose proof (MakeDay_next_month Y (Z.of_nat k) ltac:(lia)) as Hn.
    pose proof (DaysInMonth_bounds Y (Z.of_nat k)) as Hdim.
    replace (Z.of_nat (S k)) with (Z.of_nat k + 1) by lia.
    pose proof (MakeDay_month_start_ge Y k ltac:(lia)) as Hge.
    rewrite Hn.
    replace (Z.to_nat (MakeDay Y (Z.of_nat k) 1 + DaysInMonth Y (Z.of_nat k) - DayFromYMD Y 0 1))
      with (Z.to_nat (MakeDay Y (Z.of_nat k) 1 - DayFromYMD Y 0 1)
            + Z.to_nat (DaysInMonth Y (Z.of_nat k)))%nat by lia.
    rewrite midnights_app. f_equal. f_equal.
    rewrite Z2Nat.id by lia.
    rewrite <- (MakeDay_in_year Y (Z.of_nat k) 1) by lia. lia.
Qed.

(** X13. The year view shows a whole year: twelve panels named January to
    December, panel [m] with the days of month [m] from the first to the
    last, and all the days together are the consecutive days from
    1 January up to 31 December, 365 or 366 of them.  The year is the one
    the constructor [new Date(year, m, 1)] builds: the year of the
    reference date, but 1900 more for the years 0 to 99. *)
Theorem renderYearCalendar_whole_year :
  forall (now : Date) (st : State),
    let y := getFullYear (currentDate st) in
    let Y := if (0 <=? y) && (y <=? 99) then 1900 + y else y in
    exists panels,
      renderYearCalendar now st = Some panels /\
      map panel_monthName panels = monthNames /\
      (forall mi, (mi < 12)%nat ->
         exists p, nth_error panels mi = Some p /\
                   panelDays p = monthDates Y (Z.of_nat mi)) /\
      concat (map panelDays panels)
      = midnights (DayFromYMD Y 0 1) (if InLeapYear Y then 366 else 365) /\
      DayFromYMD (Y + 1) 0 1
      = DayFromYMD Y 0 1 + (if InLeapYear Y then 366 else 365).
Proof.
  intros now st y Y.
  rewrite renderYearCalendar_eq. fold y. change (constructedYear y) with Y.
  eexists. split; [reflexivity|].
  split; [reflexivity|]. split; [|split].
  - intros mi Hmi. exists (panelOfMonth now st Y mi). split.
    + rewrite nth_error_map.
      rewrite (nth_error_nth' (seq 0 12) 0%nat) by (rewrite length_seq; exact Hmi).
      rewrite seq_nth by exact Hmi. reflexivity.
    + rewrite panelDays_panelOfMonth, monthDates_midnights by lia. reflexivity.
  - rewrite map_map, (year_midnights now st Y 12) by lia.
    change (Z.of_nat 12) with 12. unfold MakeDay. cbv zeta.
    change (12 / 12) with 1. change (12 mod 12) with 0.
    rewrite year_length. destruct (InLeapYear Y); reflexivity.
  - pose proof (year_length Y). lia.
Qed.

Lemma nth_error_panels today st Y mi :
  (mi < 12)%nat ->
  nth_error (map (panelOfMonth today st Y) (seq 0 12)) mi
  = Some (panelOfMonth today st Y mi).
Proof.
  intros Hmi. rewrite nth_error_map.
  rewrite (nth_error_nth' (seq 0 12) 0%nat) by (rewrite length_seq; exact Hmi).
  rewrite seq_nth by exact Hmi. reflexivity.
Qed.

(** X14. Every month of the year view is aligned: in panel [m], after the
    seven letters and as many empty cells as the weekday of the first day
    (at most six), day [i + 1] stands at position [7 + offset + i], labelled
    with its number, in the column of its weekday.  Its week-end flag is on
    exactly in the columns 0 and 6, and it is greyed as a week-end day
    exactly there unless it is the cell of today, which takes the colour of
    today instead.  The months are chained: the first day of the next month
    stands in the column after the last day of this one. *)
Theorem renderYearCalendar_columns :
  forall (now : Date) (st : State),
    let y := getFullYear (currentDate st) in
    let Y := if (0 <=? y) && (y <=? 99) then 1900 + y else y in
    exists panels,
      renderYearCalendar now st = Some panels /\
      forall mi, (mi < 12)%nat ->
        exists p,
          nth_error panels mi = Some p /\
          (panelOffset p <= 6)%nat /\
          length (panel_cells p) = (7 + panelOffset p + length (panelDays p))%nat /\
          Z.of_nat (length (panelDays p)) = DaysInMonth Y (Z.of_nat mi) /\
          (forall i, (i < length (panelDays p))%nat ->
             let pos := (7 + panelOffset p + i)%nat in
             exists c,
               nth_error (panel_cells p) pos = Some (MiniDay c) /\
               mini_day c = newDate3 Y (Z.of_nat mi) (Z.of_nat i + 1) /\
               mini_label c = toString (Z.of_nat i + 1) /\
               getDay (mini_day c) = Z.of_nat (pos mod 7) /\
               mini_isWeekendDay c = ((pos mod 7 =? 0) || (pos mod 7 =? 6))%nat /\
               mini_classMuted c
               = (((pos mod 7 =? 0) || (pos mod 7 =? 6))%nat
                  && negb (isSameDay (mini_day c) now)) /\
               mini_classToday c = isSameDay (mini_day c) now) /\
          (forall q, nth_error panels (S mi) = Some q ->
             panelOffset q = ((panelOffset p + length (panelDays p)) mod 7)%nat).
Proof.
  intros now st y Y.
  rewrite renderYearCalendar_eq. fold y. change (constructedYear y) with Y.
  eexists. split; [reflexivity|].
  intros mi Hmi. exists (panelOfMonth now st Y mi).
  split; [apply nth_error_panels; exact Hmi|].
  rewrite panelOffset_panelOfMonth, panelDays_panelOfMonth, midnights_length.
  set (m := Z.of_nat mi). set (K := DayFromYMD Y m 1).
  assert (Hm : 0 <= m <= 11) by (unfold m; lia).
  pose proof (DaysInMonth_bounds Y m) as Hdim.
  pose proof (Z.mod_pos_bound (K + 4) 7 ltac:(lia)) as Hmod.
  set (first := Z.to_nat ((K + 4) mod 7)).
  assert (Hfirst : Z.of_nat first = (K + 4) mod 7) by (unfold first; lia).
  set (n := Z.to_nat (DaysInMonth Y m)).
  split; [lia|]. split; [|split; [unfold n; lia|split]].
  - unfold panelOfMonth. cbv zeta. cbn [panel_cells].
    rewrite !length_app, !length_map, length_seq, midnights_length.
    change (length miniDaysOfWeek) with 7%nat. fold m K first n. lia.
  - intros i Hi pos.
    set (day := MakeDate (K + Z.of_nat i) 0).
    destruct (fields_monthDate Y m (Z.of_nat i) Hm ltac:(lia)) as (Hy' & Hm' & Hd' & Hnew).
    fold K in Hy', Hm', Hd', Hnew. fold day in Hy', Hm', Hd', Hnew.
    assert (Hcol : getDay day = Z.of_nat (pos mod 7)).
    { unfold getDay, day. rewrite WeekDay_MakeDate.
      rewrite Nat2Z.inj_mod. unfold pos. rewrite !Nat2Z.inj_add, Hfirst.
      change (Z.of_nat 7) with 7. div_lia. }
    exists {| mini_day := day;
              mini_isToday := isSameDay day now;
              mini_isWeekendDay := isWeekend day;
              mini_hasEvents := (0 <? length (getEventsForDate st day))%nat;
              mini_title :=
                if (0 <? length (getEventsForDate st day))%nat
                then Some (eventsTitle (length (getEventsForDate st day))) else None;
              mini_label := format_d day |}.
    assert (Hwe : isWeekend day = ((pos mod 7 =? 0) || (pos mod 7 =? 6))%nat).
    { unfold isWeekend. cbv zeta. rewrite Hcol.
      destruct (Nat.eqb_spec (pos mod 7) 0) as [E0|E0];
        destruct (Nat.eqb_spec (pos mod 7) 6) as [E6|E6];
        destruct (Z.eqb_spec (Z.of_nat (pos mod 7)) 0);
        destruct (Z.eqb_spec (Z.of_nat (pos mod 7)) 6); try reflexivity; lia. }
    unfold mini_classMuted, mini_classToday.
    cbn [mini_day mini_label mini_isWeekendDay mini_isToday].
    split; [|split; [|split; [|split; [|split; [|split]]]]].
    + unfold panelOfMonth. cbv zeta. cbn [panel_cells]. fold m K first n. unfold pos.
      rewrite nth_error_app2
        by (rewrite length_map; change (length miniDaysOfWeek) with 7%nat; lia).
      rewrite length_map. change (length miniDaysOfWeek) with 7%nat.
      rewrite nth_error_app2 by (rewrite length_map, length_seq; lia).
      rewrite length_map, length_seq.
      replace (7 + first + i - 7 - first)%nat with i by lia.
      rewrite nth_error_map, nth_error_midnights by exact Hi.
      reflexivity.
    + exact Hnew.
    + unfold format_d. rewrite Hd'. apply addLeadingZeros_1. lia.
    + exact Hcol.
    + exact Hwe.
    + rewrite Hwe. reflexivity.
    + reflexivity.
  - intros q Hq.
    destruct (Nat.lt_ge_cases (S mi) 12) as [Hlt|Hge].
    + rewrite nth_error_panels in Hq by exact Hlt. injection Hq as <-.
      rewrite panelOffset_panelOfMonth.
      pose proof (MakeDay_next_month Y m Hm) as Hn.
      rewrite !MakeDay_in_year in Hn by lia. fold K in Hn.
      replace (Z.of_nat (S mi)) with (m + 1) by (unfold m; lia).
      rewrite Hn. apply Nat2Z.inj.
      rewrite Nat2Z.inj_mod, Nat2Z.inj_add, Hfirst.
      rewrite Z2Nat.id by (apply Z.mod_pos_bound; lia).
      unfold n. rewrite Z2Nat.id by lia.
      change (Z.of_nat 7) with 7. div_lia.
    + assert (E : nth_error (map (panelOfMonth now st Y) (seq 0 12)) (S mi) = None).
      { apply nth_error_None. rewrite length_map, length_seq. lia. }
      rewrite E in Hq. discriminate.
Qed.

(** A day cell of a panel of the year view is the cell of a day of the
    month of the panel. *)
Lemma panel_cell_day today st Y mi c :
  (mi < 12)%nat ->
  In (MiniDay c) (panel_cells (panelOfMonth today st Y mi)) ->
  exists i, 0 <= i < DaysInMonth Y (Z.of_nat mi) /\
            MiniDay c = miniCellOf today st (MakeDate (DayFromYMD Y (Z.of_nat mi) 1 + i) 0).
Proof.
  intros Hmi Hin. unfold panelOfMonth in Hin. cbv zeta in Hin. cbn [panel_cells] in Hin.
  apply in_app_or in Hin as [Hin|Hin].
  { apply in_map_iff in Hin as (x & Hx & _). discriminate. }
  apply in_app_or in Hin as [Hin|Hin].
  { apply in_map_iff in Hin as (x & Hx & _). discriminate. }
  apply in_map_iff in Hin as (day & Hday & Hin).
  apply midnights_In in Hin as (i & Hi & ->).
  pose proof (DaysInMonth_bounds Y (Z.of_nat mi)).
  exists i. split; [lia|]. symmetry. exact Hday.
Qed.

(** X15. An event is marked once in the year view: if two day cells of
    the twelve panels both count an event, they are the same cell of the
    same panel. *)
Theorem renderYearCalendar_event_one_cell :
  forall (now : Date) (st : State),
    exists panels,
      renderYearCalendar now st = Some panels /\
      forall p1 p2 c1 c2 e,
        In p1 panels -> In p2 panels ->
        In (MiniDay c1) (panel_cells p1) ->
        In (MiniDay c2) (panel_cells p2) ->
        In e (getEventsForDate st (mini_day c1)) ->
        In e (getEventsForDate st (mini_day c2)) ->
        p1 = p2 /\ c1 = c2.
Proof.
  intros now st. rewrite renderYearCalendar_eq.
  set (Y := constructedYear (getFullYear (currentDate st))).
  eexists. split; [reflexivity|].
  intros p1 p2 c1 c2 e Hp1 Hp2 Hc1 Hc2 He1 He2.
  apply in_map_iff in Hp1 as (m1 & <- & Hm1). apply in_seq in Hm1.
  apply in_map_iff in Hp2 as (m2 & <- & Hm2). apply in_seq in Hm2.
  apply panel_cell_day in Hc1 as (i1 & Hi1 & E1); [|lia].
  apply panel_cell_day in Hc2 as (i2 & Hi2 & E2); [|lia].
  unfold miniCellOf in E1, E2. cbv zeta in E1, E2.
  injection E1 as E1. injection E2 as E2.
  assert (D1 : mini_day c1 = MakeDate (DayFromYMD Y (Z.of_nat m1) 1 + i1) 0)
    by (rewrite E1; reflexivity).
  assert (D2 : mini_day c2 = MakeDate (DayFromYMD Y (Z.of_nat m2) 1 + i2) 0)
    by (rewrite E2; reflexivity).
  destruct (fields_monthDate Y (Z.of_nat m1) i1 ltac:(lia) Hi1) as (Hy1 & Hmo1 & Hd1 & _).
  destruct (fields_monthDate Y (Z.of_nat m2) i2 ltac:(lia) Hi2) as (Hy2 & Hmo2 & Hd2 & _).
  rewrite <- D1 in Hy1, Hmo1, Hd1. rewrite <- D2 in Hy2, Hmo2, Hd2.
  unfold getEventsForDate in He1, He2.
  apply filter_In in He1 as [_ He1]. apply filter_In in He2 as [_ He2].
  apply String.eqb_eq in He1, He2.
  destruct (format_yyyy_MM_dd_same_year (mini_day c1) (mini_day c2)) as [Hm Hd];
    [congruence|congruence|].
  assert (m1 = m2) by lia. assert (i1 = i2) by lia. subst m2 i2.
  split; [reflexivity|]. rewrite E1, E2. reflexivity.
Qed.

(** X16. The two views agree on the displayed month: outside the years 0
    to 99, the panel of the year view at the index of the displayed month
    carries the name shown by the month selector, the same days as the month
    view, and as many empty cells before them. *)
Theorem year_view_shows_displayed_month :
  forall (now : Date) (st : State),
    let d := currentDate st in
    getFullYear d < 0 \/ 99 < getFullYear d ->
    exists days panels p,
      getDaysInMonth st = Some days /\
      renderYearCalendar now st = Some panels /\
      nth_error panels (Z.to_nat (getMonth d)) = Some p /\
      panel_monthName p = format_MMMM d /\
      panelDays p = days /\
      Z.of_nat (panelOffset p) = getFirstDayOfMonth st.
Proof.
  intros now st d Hy.
  rewrite getDaysInMonth_eq, renderYearCalendar_eq. fold d.
  assert (HY : constructedYear (getFullYear d) = getFullYear d).
  { unfold constructedYear.
    destruct (Z.leb_spec 0 (getFullYear d)); destruct (Z.leb_spec (getFullYear d) 99);
      cbn [andb]; lia. }
  rewrite HY.
  destruct (fields_spec d) as (Hm & _ & _).
  do 3 eexists. split; [reflexivity|]. split; [reflexivity|].
  split; [apply nth_error_panels; lia|].
  split; [reflexivity|].
  rewrite panelDays_panelOfMonth, panelOffset_panelOfMonth, getFirstDayOfMonth_eq.
  fold d. rewrite !Z2Nat.id by lia.
  split.
  - rewrite monthDates_midnights by exact Hm. reflexivity.
  - apply Z2Nat.id. apply Z.mod_pos_bound. lia.
Qed.

Lemma year_view_shows_displayed_month_witness :
  let st := initialState (newDate3 2024 1 10) ∅ in
  exists days panels p,
    getDaysInMonth st = Some days /\
    renderYearCalendar 0 st = Some panels /\
    nth_error panels (Z.to_nat (getMonth (currentDate st))) = Some p /\
    panel_monthName p = format_MMMM (currentDate st) /\
    panelDays p = days /\
    Z.of_nat (panelOffset p) = getFirstDayOfMonth st.
Proof.
  apply (year_view_shows_displayed_month 0 (initialState (newDate3 2024 1 10) ∅)).
  right. apply Z.ltb_lt. vm_compute. reflexivity.
Defined.

(** X17. In the years 0 to 99 the two views part: the month view shows
    days of the year of the reference date, the year view shows days of the
    year 1900 later only. *)
Theorem year_view_two_digit_year :
  forall (now : Date) (st : State),
    let y := getFullYear (currentDate st) in
    0 <= y <= 99 ->
    exists days panels,
      getDaysInMonth st = Some days /\
      renderYearCalendar now st = Some panels /\
      (forall day, In day days -> getFullYear day = y) /\
      (forall p day, In p panels -> In day (panelDays p) -> getFullYear day = 1900 + y).
Proof.
  intros now st y Hy.
  rewrite getDaysInMonth_eq, renderYearCalendar_eq. fold y.
  assert (HY : constructedYear y = 1900 + y).
  { unfold constructedYear.
    destruct (Z.leb_spec 0 y); destruct (Z.leb_spec y 99); cbn [andb]; lia. }
  rewrite HY.
  destruct (fields_spec (currentDate st)) as (Hm & _ & _).
  do 2 eexists. split; [reflexivity|]. split; [reflexivity|]. split.
  - intros day Hday. rewrite monthDates_midnights in Hday by exact Hm.
    apply midnights_In in Hday as (i & Hi & ->).
    pose proof (DaysInMonth_bounds y (getMonth (currentDate st))).
    apply (fields_monthDate y (getMonth (currentDate st)) i Hm). lia.
  - intros p day Hp Hday.
    apply in_map_iff in Hp as (mi & <- & Hmi). apply in_seq in Hmi.
    rewrite panelDays_panelOfMonth in Hday.
    apply midnights_In in Hday as (i & Hi & ->).
    pose proof (DaysInMonth_bounds (1900 + y) (Z.of_nat mi)).
    apply (fields_monthDate (1900 + y) (Z.of_nat mi) i); lia.
Qed.

Lemma year_view_two_digit_year_witness :
  let st := initialState (newDate3 50 5 15) ∅ in
  exists days panels,
    getDaysInMonth st = Some days /\
    renderYearCalendar 0 st = Some panels /\
    (forall day, In day days -> getFullYear day = getFullYear (currentDate st)) /\
    (forall p day, In p panels -> In day (panelDays p) ->
                   getFullYear day = 1900 + getFullYear (currentDate st)).
Proof.
  apply (year_view_two_digit_year 0 (initialState (newDate3 50 5 15) ∅)).
  split; apply Z.leb_le; vm_compute; reflexivity.
Defined.

(** ** What the actions leave alone *)

Lemma step_selection st a st' :
  (forall day, a <> DayClick day) ->
  step st a = Some st' ->
  selectedDate st' = selectedDate st /\
  (events st' = events st \/
   exists now uuid e,
     a = AddEvent now uuid /\ id e = uuid /\
     date e = match selectedDate st with
              | Some d => format_yyyy_MM_dd d
              | None => format_yyyy_MM_dd now
              end /\
     events st' = events st ++ [e]).
Proof.
  intros Hno. destruct a; cbn [step]; intros H;
    try (injection H as <-; split; [reflexivity|left; reflexivity]).
  - unfold handleYearChange in H. destruct (parseInt year); [|discriminate].
    injection H as <-. split; [reflexivity|left; reflexivity].
  - exfalso. apply (Hno day). reflexivity.
  - injection H as <-.
    destruct (allWhiteSpace (draft_title (newEvent st))) eqn:Eb.
    + unfold handleAddEvent. rewrite trim_blank, Eb. split; [reflexivity|left; reflexivity].
    + rewrite handleAddEvent_success by exact Eb.
      split; [reflexivity|]. right.
      exists now, uuid. eexists (mkEvent uuid _ _ _ _).
      split; [reflexivity|]. split; [reflexivity|]. split; reflexivity.
Qed.

(** X18. The selected day sticks: over actions without a click on a day,
    the selected day stays what it was, and every event added carries the
    date of that day, whatever the date field of the form says; when no day
    was ever selected, it carries the date of the clock at its addition. *)
Theorem run_selection_sticky :
  forall (actions : list Action) (st st' : State),
    (forall day, ~ In (DayClick day) actions) ->
    run st actions = Some st' ->
    selectedDate st' = selectedDate st /\
    exists added,
      events st' = events st ++ added /\
      Forall (fun e =>
                exists now uuid,
                  In (AddEvent now uuid) actions /\ id e = uuid /\
                  date e = match selectedDate st with
                           | Some d => format_yyyy_MM_dd d
                           | None => format_yyyy_MM_dd now
                           end) added.
Proof.
  induction actions as [|a l IH]; intros st st' Hno Hrun.
  - injection Hrun as <-. split; [reflexivity|].
    exists []. rewrite app_nil_r. split; [reflexivity|constructor].
  - cbn [run] in Hrun. destruct (step st a) as [st1|] eqn:Hs; [|discriminate].
    assert (Hno' : forall day, ~ In (DayClick day) l)
      by (intros day Hin; apply (Hno day); now right).
    destruct (IH _ _ Hno' Hrun) as (Hsel & added & He & Hall).
    destruct (step_selection st a st1) as (Hsel1 & Hev);
      [intros day ->; apply (Hno day); now left|exact Hs|].
    split; [congruence|].
    assert (Hall' : Forall (fun e =>
                exists now uuid,
                  In (AddEvent now uuid) (a :: l) /\ id e = uuid /\
                  date e = match selectedDate st with
                           | Some d => format_yyyy_MM_dd d
                           | None => format_yyyy_MM_dd now
                           end) added).
    { apply List.Forall_forall. intros e Hin.
      destruct (proj1 (List.Forall_forall _ _) Hall e Hin) as (now & uuid & H1 & H2 & H3).
      exists now, uuid. rewrite <- Hsel1. split; [now right|split; assumption]. }
    destruct Hev as [Hev|(now & uuid & e & -> & Hid & Hdate & Hev)].
    + exists added. split; [congruence|exact Hall'].
    + exists (e :: added). split; [rewrite He, Hev, <- app_assoc; reflexivity|].
      constructor; [|exact Hall'].
      exists now, uuid. split; [now left|split; assumption].
Qed.

Lemma run_selection_sticky_witness :
  let st := dayClick (newDate3 2024 2 15) (initialState (newDate3 2024 2 1) ∅) in
  let actions := [ChangeDate "2024-03-20"; ChangeTitle "Meeting";
                  AddEvent (newDate3 2024 2 1) "uuid-1"; NextMonth;
                  OpenChange true; ChangeTitle "Review";
                  AddEvent (newDate3 2024 2 2) "uuid-2"] in
  exists st',
    run st actions = Some st' /\
    selectedDate st' = selectedDate st /\
    exists added,
      events st' = events st ++ added /\
      Forall (fun e =>
                exists now uuid,
                  In (AddEvent now uuid) actions /\ id e = uuid /\
                  date e = match selectedDate st with
                           | Some d => format_yyyy_MM_dd d
                           | None => format_yyyy_MM_dd now
                           end) added.
Proof.
  cbv zeta.
  destruct (run (dayClick (newDate3 2024 2 15) (initialState (newDate3 2024 2 1) ∅))
              [ChangeDate "2024-03-20"; ChangeTitle "Meeting";
               AddEvent (newDate3 2024 2 1) "uuid-1"; NextMonth;
               OpenChange true; ChangeTitle "Review";
               AddEvent (newDate3 2024 2 2) "uuid-2"]) as [st'|] eqn:Hrun;
    [|vm_compute in Hrun; discriminate Hrun].
  exists st'. split; [reflexivity|].
  apply (run_selection_sticky
           [ChangeDate "2024-03-20"; ChangeTitle "Meeting";
            AddEvent (newDate3 2024 2 1) "uuid-1"; NextMonth;
            OpenChange true; ChangeTitle "Review";
            AddEvent (newDate3 2024 2 2) "uuid-2"]
           (dayClick (newDate3 2024 2 15) (initialState (newDate3 2024 2 1) ∅)) st').
  - intros day [H|[H|[H|[H|[H|[H|[H|[]]]]]]]]; discriminate H.
  - exact Hrun.
Defined.

Lemma step_navigation st a :
  navigates a = false ->
  exists st', step st a = Some st' /\ currentDate st' = currentDate st.
Proof.
  destruct a; cbn [navigates step]; intros H; try discriminate H;
    try (eexists; split; reflexivity).
  eexists. split; [reflexivity|].
  unfold handleAddEvent.
  destruct (negb (truthy (trim (draft_title (newEvent st))))); reflexivity.
Qed.

(** X19. Only the navigation moves the calendar: a sequence of actions
    without the two arrows, the button Today and the two selectors always
    goes through, and leaves the reference date, hence the days and the
    offset of the month view, as they were; adding events, clicking days
    and filling the form never change the month displayed. *)
Theorem run_without_navigation :
  forall (actions : list Action) (st : State),
    Forall (fun a => navigates a = false) actions ->
    exists st',
      run st actions = Some st' /\
      currentDate st' = currentDate st /\
      getDaysInMonth st' = getDaysInMonth st /\
      getFirstDayOfMonth st' = getFirstDayOfMonth st.
Proof.
  induction actions as [|a l IH]; intros st Hall.
  - exists st. repeat split; reflexivity.
  - inversion Hall as [|a' l' Ha Hl]; subst.
    destruct (step_navigation st a Ha) as (st1 & Hs & Hd).
    destruct (IH st1 Hl) as (st' & Hrun & Hd' & _).
    exists st'. cbn [run]. rewrite Hs. split; [exact Hrun|].
    assert (E : currentDate st' = currentDate st) by congruence.
    split; [exact E|].
    unfold getDaysInMonth, getFirstDayOfMonth. rewrite E. split; reflexivity.
Qed.

Lemma run_without_navigation_witness :
  let st := initialState (newDate3 2024 2 1) ∅ in
  let actions := [DayClick (newDate3 2024 2 15); ChangeTitle "Meeting";
                  AddEvent (newDate3 2024 2 1) "uuid-1"; ExportAsPDF] in
  exists st',
    run st actions = Some st' /\
    currentDate st' = currentDate st /\
    getDaysInMonth st' = getDaysInMonth st /\
    getFirstDayOfMonth st' = getFirstDayOfMonth st.
Proof.
  apply (run_without_navigation
           [DayClick (newDate3 2024 2 15); ChangeTitle "Meeting";
            AddEvent (newDate3 2024 2 1) "uuid-1"; ExportAsPDF]
           (initialState (newDate3 2024 2 1) ∅)).
  repeat constructor.
Defined.

Lemma concat_filter {A} (f : A -> bool) (ll : list (list A)) :
  concat (map (List.filter f) ll) = List.filter f (concat ll).
Proof.
  induction ll as [|l ll IH]; [reflexivity|].
  cbn [map concat]. now rewrite List.filter_app, IH.
Qed.

(** The cells of a panel marked as today are the days of the panel that
    are the midnight of today. *)
Lemma highlighted_panelOfMonth today st Y mi :
  flat_map (fun c => match c with
                     | MiniDay c => if mini_isToday c then [mini_day c] else []
                     | _ => []
                     end) (panel_cells (panelOfMonth today st Y mi))
  = List.filter (fun e => e =? MakeDate (Day today) 0)
                (panelDays (panelOfMonth today st Y mi)).
Proof.
  rewrite panelDays_panelOfMonth.
  unfold panelOfMonth. cbv zeta. cbn [panel_cells].
  rewrite !flat_map_app.
  replace (flat_map _ (map MiniHeader miniDaysOfWeek)) with (@nil Date) by reflexivity.
  match goal with
  | |- context [flat_map ?f (map MiniEmpty ?l0)] =>
      replace (flat_map f (map MiniEmpty l0)) with (@nil Date)
        by (induction l0; [reflexivity|assumption])
  end.
  cbn [app].
  set (n := Z.to_nat (DaysInMonth Y (Z.of_nat mi))). clearbody n.
  generalize (DayFromYMD Y (Z.of_nat mi) 1). revert n.
  induction n as [|n IH]; intros K; [reflexivity|].
  rewrite midnights_cons. cbn [map flat_map List.filter].
  rewrite IH. unfold miniCellOf at 1. cbv zeta. cbn [mini_isToday mini_day].
  rewrite isSameDay_midnight.
  destruct (MakeDate K 0 =? MakeDate (Day today) 0); reflexivity.
Qed.

(** The days of year [Y] are the days of its twelve months. *)
Lemma year_days_months Y e :
  In e (midnights (DayFromYMD Y 0 1) (Z.to_nat (DayFromYMD (Y + 1) 0 1 - DayFromYMD Y 0 1)))
  <-> exists mi i, (mi < 12)%nat /\ 0 <= i < DaysInMonth Y (Z.of_nat mi) /\
                   e = MakeDate (DayFromYMD Y (Z.of_nat mi) 1 + i) 0.
Proof.
  pose proof (year_midnights 0 (initialState 0 ∅) Y 12 ltac:(lia)) as H.
  change (Z.of_nat 12) with 12 in H. unfold MakeDay in H. cbv zeta in H.
  change (12 / 12) with 1 in H. change (12 mod 12) with 0 in H.
  rewrite <- H. rewrite in_concat. split.
  - intros (l & Hl & He). apply in_map_iff in Hl as (mi & <- & Hmi).
    apply in_seq in Hmi. rewrite panelDays_panelOfMonth in He.
    apply midnights_In in He as (i & Hi & ->).
    pose proof (DaysInMonth_bounds Y (Z.of_nat mi)).
    exists mi, i. split; [lia|]. split; [lia|reflexivity].
  - intros (mi & i & Hmi & Hi & ->).
    exists (panelDays (panelOfMonth 0 (initialState 0 ∅) Y mi)). split.
    + apply in_map_iff. exists mi. split; [reflexivity|]. apply in_seq. lia.
    + rewrite panelDays_panelOfMonth. apply midnights_In. exists i. split; [lia|reflexivity].
Qed.

(** X20. Today in the year view: when today is of the year shown, one
    cell of the twelve panels is marked as today, the cell of today's day;
    otherwise none is.  The year shown is the year of the reference date,
    1900 later for the years 0 to 99. *)
Theorem renderYearCalendar_today :
  forall (now : Date) (st : State),
    let y := getFullYear (currentDate st) in
    let Y := if (0 <=? y) && (y <=? 99) then 1900 + y else y in
    exists panels,
      renderYearCalendar now st = Some panels /\
      highlightedMiniDays panels
      = if getFullYear now =? Y then [startOfDay now] else [].
Proof.
  intros now st y Y.
  rewrite renderYearCalendar_eq. fold y. change (constructedYear y) with Y.
  eexists. split; [reflexivity|].
  unfold highlightedMiniDays. rewrite flat_map_concat_map, map_map.
  rewrite (map_ext _ _ (highlighted_panelOfMonth now st Y)).
  rewrite <- (map_map (fun mi => panelDays (panelOfMonth now st Y mi))
                      (List.filter (fun e => e =? MakeDate (Day now) 0))).
  rewrite concat_filter, (year_midnights now st Y 12) by lia.
  change (Z.of_nat 12) with 12. unfold MakeDay. cbv zeta.
  change (12 / 12) with 1. change (12 mod 12) with 0.
  set (K := DayFromYMD Y 0 1). set (N := Z.to_nat (DayFromYMD (Y + 1) 0 1 - K)).
  pose proof (year_days_months Y (MakeDate (Day now) 0)) as Hyd. fold K N in Hyd.
  destruct (fields_spec now) as (Hmn & Hdn & Hday).
  destruct (Z.eqb_spec (getFullYear now) Y) as [E|E].
  - rewrite startOfDay_eq. apply midnights_filter_day.
    assert (Hin : In (MakeDate (Day now) 0) (midnights K N)).
    { apply (proj2 Hyd). exists (Z.to_nat (getMonth now)), (getDate now - 1).
      rewrite Z2Nat.id by lia. split; [lia|]. rewrite <- E. split; [lia|].
      rewrite <- Hday, (DayFromYMD_diff _ _ (getDate now) 1). f_equal. }
    apply midnights_In in Hin as (i & Hi & Hi').
    unfold MakeDate, msPerDay in Hi'. lia.
  - apply filter_none. intros e He. apply Z.eqb_neq. intros ->.
    destruct (proj1 Hyd He) as (mi & i & Hmi & Hi & He').
    destruct (fields_monthDate Y (Z.of_nat mi) i ltac:(lia) Hi) as (Hy' & _).
    destruct (Day_fields now (Day now) eq_refl) as (Hy'' & _).
    apply E. rewrite <- Hy'', He'. exact Hy'.
Qed.
